(** * Bob, the J1 blackjack bot: decision core

    A shallow embedding of the strategy engine ([OptimalStrategy.ts]), the
    Hi-Lo card counter ([CardCounter.ts]) and the learning subsystem
    ([ExperienceTracker.ts], [OpponentProfiler.ts], [MemoryManager.ts],
    [LearningCoordinator.ts]) together with the properties established about
    them.

    Conventions of the embedding.
    - A JavaScript [number] that holds a count is a [Z]; one that holds a
      chip amount, a frequency, a score or an expected value is an exact
      rational [Q].  [Math.floor] is [Qfloor]; [Math.round x] is
      [Qfloor (x + 1/2)].  The value [-Infinity], which the engine gives to
      actions that are not available, is a constructor of its own
      ([JSNum.NegInf]), and the numbers that meet it live in [JSNum.t].
      Arithmetic on rationals is exact, where the program rounds every
      result to a double: an equation between computed values holds of the
      program up to that rounding.
    - Strings are [string]; a [Map<string, _>] is a [gmap string _].
    - Mutable objects become explicit state: every method takes the state of
      its object and returns the new one.  Exceptions are a sum type. *)

From Stdlib Require Import ZArith QArith Qround Qabs Lia Lqa Bool.
From Stdlib Require Import Sorting.Permutation.
From stdpp Require Import base strings list gmap.

Local Open Scope Z_scope.

(** ** Numbers *)

Module Num.

Definition Qltb (x y : Q) : bool := negb (Qle_bool y x).
Definition Qgeb (x y : Q) : bool := Qle_bool y x.
Definition Qgtb (x y : Q) : bool := Qltb y x.

Definition ofZ (z : Z) : Q := inject_Z z.

(** [Math.floor] and [Math.round] (which rounds halves up). *)
Definition Math_floor (x : Q) : Q := inject_Z (Qfloor x).
Definition Math_round (x : Q) : Q := inject_Z (Qfloor (x + (1 # 2))%Q).

(** An integer-valued number that may be [NaN] is an [option Z], [None]
    being [NaN]: arithmetic propagates it and every comparison with it is
    false. *)
Definition plusN (x : option Z) (k : Z) : option Z :=
  match x with Some z => Some (z + k) | None => None end.
Definition gtN (x : option Z) (k : Z) : bool :=
  match x with Some z => z >? k | None => false end.
Definition leN (x : option Z) (k : Z) : bool :=
  match x with Some z => z <=? k | None => false end.
Definition eqN (x : option Z) (k : Z) : bool :=
  match x with Some z => z =? k | None => false end.
Definition ltN (k : Z) (x : option Z) : bool :=
  match x with Some z => k <? z | None => false end.

(** [Math.min] and [Math.max] on finite numbers. *)
Definition Math_min (x y : Q) : Q := if Qle_bool x y then x else y.
Definition Math_max (x y : Q) : Q := if Qle_bool x y then y else x.

End Num.

(** ** Shared types ([types.ts]) *)

Inductive Suit := hearts | diamonds | clubs | spades.

Record Card := { suit : Suit; rank : string }.

Inductive Action := hit | stand | double | split.

(** [xs.includes(x)] on an array of strings. *)
Definition includes (xs : list string) (x : string) : bool :=
  existsb (String.eqb x) xs.

(** ** Configuration ([config.ts]) *)

Record Config := {
  botEnabled : bool;
  cardCountingEnabled : bool;
  learningEnabled : bool;
  minBet : Q;
  maxBet : Q;
  countThresholdBetIncrease : Q
}.

(** The values [config] takes when no environment variable is set. *)
Definition defaultConfig : Config := {|
  botEnabled := true;
  cardCountingEnabled := true;
  learningEnabled := true;
  minBet := 25 # 1;
  maxBet := 100 # 1;
  countThresholdBetIncrease := 2 # 1
|}.

(** ** The Hi-Lo card counter ([CardCounter.ts]) *)

Module CardCounter.

Import Num.

Record t := {
  runningCount : Z;
  cardsDealt : Z;
  enabled : bool
}.

Definition totalCards : Z := 416.

Definition new (en : bool) : t :=
  {| runningCount := 0; cardsDealt := 0; enabled := en |}.

Definition lowRanks : list string := ["2"; "3"; "4"; "5"; "6"]%string.
Definition highRanks : list string := ["10"; "J"; "Q"; "K"; "A"]%string.

Definition updateCount (card : Card) (st : t) : t :=
  if negb (enabled st) then st
  else
    let dealt := cardsDealt st + 1 in
    let r := rank card in
    if includes lowRanks r then
      {| runningCount := runningCount st + 1; cardsDealt := dealt;
         enabled := enabled st |}
    else if includes highRanks r then
      {| runningCount := runningCount st - 1; cardsDealt := dealt;
         enabled := enabled st |}
    else
      {| runningCount := runningCount st; cardsDealt := dealt;
         enabled := enabled st |}.

Definition getTrueCount (st : t) : Q :=
  if negb (enabled st) then 0%Q
  else
    let cardsRemaining := totalCards - cardsDealt st in
    let decksRemaining := (ofZ cardsRemaining / (52 # 1))%Q in
    if Qle_bool decksRemaining 0 then 0%Q
    else
      let trueCount := (ofZ (runningCount st) / decksRemaining)%Q in
      (Math_round (trueCount * (10 # 1)) / (10 # 1))%Q.

Definition getBet (config : Config) (st : t) (currentChips : Q) : Q :=
  if negb (enabled st) then minBet config
  else
    let trueCount := getTrueCount st in
    let maxBet' := Math_min (maxBet config) currentChips in
    if Qgeb trueCount (5 # 1) then maxBet'
    else if Qgeb trueCount (4 # 1) then
      Math_min (Math_floor (maxBet' * (8 # 10))) currentChips
    else if Qgeb trueCount (3 # 1) then
      Math_min (Math_floor (maxBet' * (6 # 10))) currentChips
    else if Qgeb trueCount (countThresholdBetIncrease config) then
      Math_min (Math_floor (maxBet' * (4 # 10))) currentChips
    else if Qle_bool trueCount (- (2 # 1)) then minBet config
    else minBet config.

Definition shouldTakeInsurance (st : t) : bool :=
  if negb (enabled st) then false
  else Qgeb (getTrueCount st) (3 # 1).

Definition getStrategyModifier (st : t) : Q :=
  if negb (enabled st) then 0%Q
  else
    Math_max (- (1 # 10)) (Math_min (1 # 10) (getTrueCount st * (2 # 100))).

Definition reset (st : t) : t :=
  {| runningCount := 0; cardsDealt := 0; enabled := enabled st |}.

Definition setEnabled (en : bool) (st : t) : t :=
  {| runningCount := runningCount st; cardsDealt := cardsDealt st;
     enabled := en |}.

Definition isEnabled (st : t) : bool := enabled st.

(** Observing a sequence of cards, first card first. *)
Definition observeAll (cards : list Card) (st : t) : t :=
  fold_left (fun s c => updateCount c s) cards st.

(** The calls a client can make on a counter between two reads. *)
Inductive Op := Observe (c : Card) | Reset.

Definition step (st : t) (op : Op) : t :=
  match op with
  | Observe c => updateCount c st
  | Reset => reset st
  end.

Definition run (ops : list Op) (st : t) : t := fold_left step ops st.

(** The Hi-Lo weight of a rank, as the specification tabulates it:
    2-6 count +1, 7-9 count 0, 10, J, Q, K and A count -1. *)
Definition hiLoWeight (r : string) : Z :=
  if bool_decide (r ∈ ["2"; "3"; "4"; "5"; "6"]%string) then 1
  else if bool_decide (r ∈ ["7"; "8"; "9"]%string) then 0
  else if bool_decide (r ∈ ["10"; "J"; "Q"; "K"; "A"]%string) then -1
  else 0.

Definition hiLoSum (cards : list Card) : Z :=
  foldr (fun c acc => hiLoWeight (rank c) + acc) 0 cards.

(** Number of [Observe] calls made after the last [Reset]. *)
Fixpoint observedSinceReset (acc : Z) (ops : list Op) : Z :=
  match ops with
  | [] => acc
  | Observe _ :: ops' => observedSinceReset (acc + 1) ops'
  | Reset :: ops' => observedSinceReset 0 ops'
  end.

End CardCounter.


(** ** JavaScript numbers that may be infinite

    The strategy engine initialises the value of an unavailable action to
    [-Infinity] and then adds to it, subtracts it and compares it.  Only
    those values need the non-finite part of IEEE arithmetic. *)

Module JSNum.

Import Num.

Inductive t := NaN | NegInf | PosInf | Fin (q : Q).

Definition add (x y : t) : t :=
  match x, y with
  | NaN, _ | _, NaN => NaN
  | NegInf, PosInf | PosInf, NegInf => NaN
  | NegInf, _ | _, NegInf => NegInf
  | PosInf, _ | _, PosInf => PosInf
  | Fin a, Fin b => Fin (a + b)
  end.

Definition sub (x y : t) : t :=
  match x, y with
  | NaN, _ | _, NaN => NaN
  | NegInf, NegInf | PosInf, PosInf => NaN
  | NegInf, _ | _, PosInf => NegInf
  | PosInf, _ | _, NegInf => PosInf
  | Fin a, Fin b => Fin (a - b)
  end.

(** Division by a positive finite constant. *)
Definition divPos (x : t) (d : Q) : t :=
  match x with
  | Fin a => Fin (a / d)
  | other => other
  end.

(** [x < 0] and [x > 0]; both are false on [NaN]. *)
Definition isNegative (x : t) : bool :=
  match x with
  | NegInf => true
  | Fin a => Qltb a 0
  | _ => false
  end.

Definition isPositive (x : t) : bool :=
  match x with
  | PosInf => true
  | Fin a => Qltb 0 a
  | _ => false
  end.

Definition Math_min (x y : t) : t :=
  match x, y with
  | NaN, _ | _, NaN => NaN
  | NegInf, _ | _, NegInf => NegInf
  | PosInf, z | z, PosInf => z
  | Fin a, Fin b => Fin (Num.Math_min a b)
  end.

Definition Math_max (x y : t) : t :=
  match x, y with
  | NaN, _ | _, NaN => NaN
  | PosInf, _ | _, PosInf => PosInf
  | NegInf, z | z, NegInf => z
  | Fin a, Fin b => Fin (Num.Math_max a b)
  end.

Definition isFinite (x : t) : bool :=
  match x with Fin _ => true | _ => false end.

End JSNum.

(** ** Situations and decisions ([types.ts]) *)

Record GameSituation := {
  playerHand : list Card;
  playerTotal : Z;
  isSoft : bool;
  dealerUpcard : Card;
  trueCount : Q;
  chipStack : Q;
  currentRank : Z;
  handsRemaining : Z;
  canDouble : bool;
  canSplit : bool
}.

Record BotDecision := {
  action : Action;
  confidence : JSNum.t;
  expectedValue : JSNum.t;
  betSize : option Q
}.

(** [Array.prototype.sort] with a comparison function: a stable sort, here
    by insertion.  An element moves in front of another only when the
    comparison of the two is negative; a [NaN] comparison counts as zero. *)
Fixpoint sortInsert {A} (cmp : A -> A -> JSNum.t) (x : A) (sorted : list A)
  : list A :=
  match sorted with
  | [] => [x]
  | y :: rest =>
      if JSNum.isNegative (cmp x y) then x :: y :: rest
      else y :: sortInsert cmp x rest
  end.

Definition sort {A} (cmp : A -> A -> JSNum.t) (xs : list A) : list A :=
  fold_left (fun sorted x => sortInsert cmp x sorted) xs [].

(** ** The strategy engine ([OptimalStrategy.ts]) *)

Module OptimalStrategy.

Import Num.

(** [parseInt] on a rank string: the value of its leading decimal digits,
    and [None], standing for [NaN], when it has none.  (Ranks carry no
    leading blanks, sign or radix prefix.) *)
Definition digitValue (c : Ascii.ascii) : option Z :=
  let n := Z.of_N (Ascii.N_of_ascii c) in
  if (48 <=? n) && (n <=? 57) then Some (n - 48) else None.

Fixpoint parseDigits (s : string) (acc : option Z) : option Z :=
  match s with
  | EmptyString => acc
  | String c s' =>
      match digitValue c with
      | Some d =>
          parseDigits s'
            (Some (match acc with Some a => 10 * a + d | None => d end))
      | None => acc
      end
  end.

Definition parseInt (s : string) : option Z := parseDigits s None.

Definition getRankValue (rank : string) : option Z :=
  if String.eqb rank "A" then Some 11
  else if includes ["K"; "Q"; "J"]%string rank then Some 10
  else parseInt rank.

(** A dealer final-hand distribution: the probabilities of the totals 17
    to 21 and of a bust. *)
Record Distribution := {
  p17 : Q; p18 : Q; p19 : Q; p20 : Q; p21 : Q; bust : Q
}.

Definition mkDist (a b c d e f : Z) : Distribution :=
  {| p17 := a # 10000; p18 := b # 10000; p19 := c # 10000;
     p20 := d # 10000; p21 := e # 10000; bust := f # 10000 |}.

Definition distributions (upcard : Z) : option Distribution :=
  match upcard with
  | 2 => Some (mkDist 1389 1311 1310 1176 775 3539)
  | 3 => Some (mkDist 1299 1299 1299 1164 693 3745)
  | 4 => Some (mkDist 1199 1199 1199 1152 1050 4002)
  | 5 => Some (mkDist 1199 1169 1169 1070 1111 4282)
  | 6 => Some (mkDist 1654 1061 1061 1061 958 4205)
  | 7 => Some (mkDist 3691 1378 790 790 732 2619)
  | 8 => Some (mkDist 1289 3594 1289 727 718 2383)
  | 9 => Some (mkDist 1189 1060 3481 1189 780 2301)
  | 10 => Some (mkDist 1102 1102 1102 3438 1127 2129)
  | 11 => Some (mkDist 1304 1304 1304 3045 1865 1178)
  | _ => None
  end.

Definition getDealerFinalDistribution (dealerUpcard : option Z)
  : Distribution :=
  match dealerUpcard ≫= distributions with
  | Some d => d
  | None => mkDist 1102 1102 1102 3438 1127 2129
  end.

(** [dealerDist[dealerTotal] || 0]. *)
Definition probOf (dealerDist : Distribution) (dealerTotal : Z) : Q :=
  match dealerTotal with
  | 17 => p17 dealerDist
  | 18 => p18 dealerDist
  | 19 => p19 dealerDist
  | 20 => p20 dealerDist
  | 21 => p21 dealerDist
  | _ => 0%Q
  end.

Definition calculateStandEV (playerTotal : option Z)
  (dealerUpcard : option Z) : Q :=
  if gtN playerTotal 21 then (- (1 # 1))%Q
  else if eqN playerTotal 21 then
    bust (getDealerFinalDistribution dealerUpcard)
  else
    let dealerDist := getDealerFinalDistribution dealerUpcard in
    let ev := (0 + bust dealerDist * 1)%Q in
    fold_left
      (fun ev dealerTotal =>
         let prob := probOf dealerDist dealerTotal in
         if ltN dealerTotal playerTotal then (ev + prob * 1)%Q
         else if eqN playerTotal dealerTotal then (ev + prob * 0)%Q
         else (ev + prob * - (1 # 1))%Q)
      [17; 18; 19; 20; 21] ev.

(** [Object.entries(cardProbs)]: integer keys come out in ascending order. *)
Definition cardProbs : list (Z * Q) :=
  [(1, (32 # 416)%Q); (2, (32 # 416)%Q); (3, (32 # 416)%Q);
   (4, (32 # 416)%Q); (5, (32 # 416)%Q); (6, (32 # 416)%Q);
   (7, (32 # 416)%Q); (8, (32 # 416)%Q); (9, (32 # 416)%Q);
   (10, (128 # 416)%Q)].

(** What a call of [calculateHitEV] costs: the number of invocations of
    [calculateHitEV] it gives rise to, itself included, and the number of
    iterations of the loop over [cardProbs] run in all of them. *)
Record Cost := { calls : nat; iterations : nat }.

Definition plusCost (a b : Cost) : Cost :=
  {| calls := calls a + calls b; iterations := iterations a + iterations b |}.

Definition oneCall : Cost := {| calls := 1; iterations := 0 |}.
Definition oneIteration : Cost := {| calls := 0; iterations := 1 |}.

(** The total and softness after drawing a card of value [cardValue]. *)
Definition drawCard (playerTotal : option Z) (isSoft : bool) (cardValue : Z)
  : option Z * bool :=
  let newTotal := plusN playerTotal cardValue in
  let newIsSoft := isSoft in
  let '(newTotal, newIsSoft) :=
    if cardValue =? 1 then
      if leN (plusN playerTotal 11) 21 then (plusN playerTotal 11, true)
      else (plusN playerTotal 1, newIsSoft)
    else (newTotal, newIsSoft) in
  if newIsSoft && gtN newTotal 21 then (plusN newTotal (-10), false)
  else (newTotal, newIsSoft).

(** One iteration of the loop of [calculateHitEV]; [hitAgain] is the
    recursive call. *)
Definition hitIteration (hitAgain : option Z -> bool -> option (Q * Cost))
  (playerTotal : option Z) (dealerUpcard : option Z) (isSoft : bool)
  (acc : option (Q * Cost)) (entry : Z * Q) : option (Q * Cost) :=
  match acc with
  | None => None
  | Some (ev, cost) =>
      let '(cardValue, prob) := entry in
      let '(newTotal, newIsSoft) := drawCard playerTotal isSoft cardValue in
      let cost := plusCost cost oneIteration in
      if gtN newTotal 21 then Some ((ev + prob * - (1 # 1))%Q, cost)
      else if eqN newTotal 21 then
        Some ((ev + prob * calculateStandEV (Some 21%Z) dealerUpcard)%Q, cost)
      else
        let standEV := calculateStandEV newTotal dealerUpcard in
        match hitAgain newTotal newIsSoft with
        | None => None
        | Some (hitAgainEV, cost') =>
            Some ((ev + prob * Math_max standEV hitAgainEV)%Q,
                  plusCost cost cost')
        end
  end.

(** [calculateHitEV] with its cost.  The recursion of the source is on
    [depth]; here every call consumes one unit of [fuel], and [None] means
    that the fuel ran out. *)
Fixpoint calculateHitEV_run (fuel : nat) (playerTotal : option Z)
  (dealerUpcard : option Z) (isSoft : bool) (depth : Z)
  : option (Q * Cost) :=
  match fuel with
  | O => None
  | S fuel' =>
      if gtN playerTotal 21 then Some ((- (1 # 1))%Q, oneCall)
      else if depth >? 5 then
        Some (calculateStandEV playerTotal dealerUpcard, oneCall)
      else
        fold_left
          (hitIteration
             (fun newTotal newIsSoft =>
                calculateHitEV_run fuel' newTotal dealerUpcard newIsSoft
                  (depth + 1))
             playerTotal dealerUpcard isSoft)
          cardProbs (Some (0%Q, oneCall))
  end.

(** Fuel that is enough for a call at [depth]: one unit for the call and
    one per level from there to depth 6. *)
Definition enoughFuel (depth : Z) : nat := S (Z.to_nat (6 - depth)).

Definition calculateHitEV (playerTotal : option Z) (dealerUpcard : option Z)
  (isSoft : bool) (depth : Z) : Q :=
  match calculateHitEV_run (enoughFuel depth) playerTotal dealerUpcard
          isSoft depth with
  | Some (ev, _) => ev
  | None => 0%Q
  end.

Definition calculateDoubleEV (playerTotal : option Z)
  (dealerUpcard : option Z) (isSoft : bool) : Q :=
  fold_left
    (fun ev '(cardValue, prob) =>
       let newTotal := plusN playerTotal cardValue in
       let newTotal :=
         if cardValue =? 1 then
           if leN (plusN playerTotal 11) 21 then plusN playerTotal 11
           else plusN playerTotal 1
         else newTotal in
       let newTotal :=
         if isSoft && gtN newTotal 21 then plusN newTotal (-10)
         else newTotal in
       let standEV := calculateStandEV newTotal dealerUpcard in
       (ev + prob * standEV * (2 # 1))%Q)
    cardProbs 0%Q.

Definition calculateSplitEV (pairRank : string) (dealerUpcard : option Z)
  : Q :=
  let pairValue := getRankValue pairRank in
  if String.eqb pairRank "A" then
    let evPerHand :=
      fold_left
        (fun evPerHand '(cardValue, prob) =>
           let total := 11 + cardValue in
           let total := if total >? 21 then 1 + cardValue else total in
           (evPerHand + prob * calculateStandEV (Some total) dealerUpcard)%Q)
        cardProbs 0%Q in
    (evPerHand * (2 # 1))%Q
  else
    let singleHandValue := pairValue in
    let hitEV := calculateHitEV singleHandValue dealerUpcard false 0 in
    (hitEV * (2 # 1))%Q.

(** [playerHand.length === 2 && playerHand[0].rank === playerHand[1].rank]. *)
Definition isPair (playerHand : list Card) : bool :=
  (length playerHand =? 2)%nat &&
  match playerHand !! 0%nat, playerHand !! 1%nat with
  | Some c0, Some c1 => String.eqb (rank c0) (rank c1)
  | _, _ => false
  end.

(** The entries of the [actions] array. *)
Record ActionEV := { act : Action; ev : JSNum.t }.

(** The loop that applies the card-counting modifier, on one entry. *)
Definition applyCountModifier (countModifier : Q) (a : ActionEV) : ActionEV :=
  match act a with
  | stand =>
      if Qltb 0 countModifier then
        {| act := act a; ev := JSNum.add (ev a) (JSNum.Fin countModifier) |}
      else a
  | hit =>
      if Qltb countModifier 0 then
        {| act := act a;
           ev := JSNum.add (ev a)
                   (JSNum.Fin (Qabs countModifier * (5 # 10))) |}
      else a
  | _ => a
  end.

(** The comparison function [(a, b) => b.ev - a.ev]. *)
Definition byDescendingEV (a b : ActionEV) : JSNum.t :=
  JSNum.sub (ev b) (ev a).

Definition getDecision (config : Config) (cardCounter : CardCounter.t)
  (situation : GameSituation) (learningAdjustment : JSNum.t) : BotDecision :=
  let dealerValue := getRankValue (rank (dealerUpcard situation)) in
  let total := Some (playerTotal situation) in
  let standEV := JSNum.Fin (calculateStandEV total dealerValue) in
  let hitEV :=
    JSNum.Fin (calculateHitEV total dealerValue (isSoft situation) 0) in
  let doubleEV :=
    if canDouble situation then
      JSNum.Fin (calculateDoubleEV total dealerValue (isSoft situation))
    else JSNum.NegInf in
  let splitEV :=
    if canSplit situation && isPair (playerHand situation) then
      match playerHand situation !! 0%nat with
      | Some c0 => JSNum.Fin (calculateSplitEV (rank c0) dealerValue)
      | None => JSNum.NegInf
      end
    else JSNum.NegInf in
  let actions :=
    [ {| act := stand; ev := JSNum.add standEV learningAdjustment |};
      {| act := hit; ev := JSNum.add hitEV learningAdjustment |};
      {| act := double; ev := JSNum.add doubleEV learningAdjustment |};
      {| act := split; ev := JSNum.add splitEV learningAdjustment |} ] in
  let countModifier := CardCounter.getStrategyModifier cardCounter in
  let actions := map (applyCountModifier countModifier) actions in
  let actions := sort byDescendingEV actions in
  match actions with
  | bestAction :: second :: _ =>
      let secondBestEV := ev second in
      let confidence :=
        JSNum.Math_min (JSNum.Fin 1)
          (JSNum.Math_max (JSNum.Fin 0)
             (JSNum.divPos (JSNum.sub (ev bestAction) secondBestEV)
                (5 # 10))) in
      let betSize := CardCounter.getBet config cardCounter
                       (chipStack situation) in
      {| action := act bestAction; confidence := confidence;
         expectedValue := ev bestAction; betSize := Some betSize |}
  | _ =>
      (* not reached: the array always has four entries *)
      {| action := stand; confidence := JSNum.NaN;
         expectedValue := JSNum.NaN; betSize := None |}
  end.

End OptimalStrategy.

(** ** Records of play ([types.ts]) *)

Inductive HandResult := win | loss | push.

Definition actionName (a : Action) : string :=
  match a with
  | hit => "hit"
  | stand => "stand"
  | double => "double"
  | split => "split"
  end.

Record GameExperience := {
  sessionId : string;
  handNumber : Z;
  expPlayerHand : list Card;
  expPlayerTotal : Z;
  expDealerUpcard : Card;
  expTrueCount : Q;
  expChipStack : Q;
  actionTaken : Action;
  expBetSize : Q;
  handResult : HandResult;
  chipsWon : Q;
  timestamp : Z;
  opponentWallets : list string
}.

Record OpponentSessionData := {
  osdWalletAddress : string;
  osdFinalRank : Z;
  osdFinalChips : Q;
  osdHandsWon : Z;
  osdAvgBetSize : Q;
  totalHits : Z;
  totalStands : Z;
  totalDoubles : Z;
  totalSplits : Z
}.

Record SessionResult := {
  srSessionId : string;
  finalRank : Z;
  totalPlayers : Z;
  finalChips : Q;
  handsPlayed : Z;
  handsWon : Z;
  totalWagered : Q;
  netProfit : Q;
  payout : Q;
  opponents : list OpponentSessionData;
  completedAt : Z
}.

(** [xs.push(x)] followed by [xs.shift()] when the array has grown beyond
    [cap]: the bounded buffers of the learning subsystem. *)
Definition pushCapped {A} (cap : nat) (xs : list A) (x : A) : list A :=
  let xs := xs ++ [x] in
  if (cap <? length xs)%nat then tail xs else xs.

(** ** The experience tracker ([ExperienceTracker.ts]) *)

Module ExperienceTracker.

Import Num.

Record t := {
  experiences : list GameExperience;
  sessions : list SessionResult
}.

Definition maxExperiences : nat := 1000.
Definition maxSessions : nat := 100.

Definition new (existingExperiences : option (list GameExperience))
  (existingSessions : option (list SessionResult)) : t :=
  {| experiences := default [] existingExperiences;
     sessions := default [] existingSessions |}.

Definition recordHand (experience : GameExperience) (st : t) : t :=
  {| experiences := pushCapped maxExperiences (experiences st) experience;
     sessions := sessions st |}.

Definition recordSession (session : SessionResult) (st : t) : t :=
  {| experiences := experiences st;
     sessions := pushCapped maxSessions (sessions st) session |}.

Definition getExperiences (st : t) : list GameExperience := experiences st.
Definition getSessions (st : t) : list SessionResult := sessions st.

Definition getLearnedEVAdjustment (st : t) (playerTotal : Z)
  (dealerUpcardRank : string) (action : string) : Q :=
  let relevantExperiences :=
    filter
      (fun e =>
         (expPlayerTotal e =? playerTotal) &&
         String.eqb (rank (expDealerUpcard e)) dealerUpcardRank &&
         String.eqb (actionName (actionTaken e)) action = true)
      (experiences st) in
  if (length relevantExperiences <? 5)%nat then 0%Q
  else
    let avgOutcome :=
      (fold_left (fun sum e => sum + chipsWon e) relevantExperiences 0
       / ofZ (Z.of_nat (length relevantExperiences)))%Q in
    Math_max (- (2 # 10)) (Math_min (2 # 10) (avgOutcome / (100 # 1))).

End ExperienceTracker.

(** ** Opponent profiles ([OpponentProfiler.ts]) *)

Record ProfileStats := {
  avgBetSize : Q;
  avgFinalChips : Q;
  avgFinalRank : Q;
  hitFrequency : Q;
  standFrequency : Q;
  doubleFrequency : Q;
  splitFrequency : Q;
  aggressionScore : Q;
  skillScore : Q;
  consistencyScore : Q
}.

Record ProfilePatterns := {
  hitOn16VsDealer7 : Q;
  standOn12VsDealer2 : Q;
  doubleOn11 : Q;
  splitAces : Q;
  split10s : Q;
  increaseBetAfterWin : Q;
  increaseBetAfterLoss : Q;
  averageRiskLevel : Q
}.

Record OpponentProfile := {
  walletAddress : string;
  sessionsPlayed : Z;
  lastSeenAt : Z;
  firstSeenAt : Z;
  bobWins : Z;
  opponentWins : Z;
  stats : ProfileStats;
  patterns : ProfilePatterns;
  weaknesses : list string
}.

Module OpponentProfiler.

Import Num.

(** The profiler is its map of profiles. *)
Abbreviation t := (gmap string OpponentProfile).

Definition new (existingProfiles : option t) : t :=
  default ∅ existingProfiles.

Definition createNewProfile (now : Z) (wallet : string) : OpponentProfile :=
  {| walletAddress := wallet;
     sessionsPlayed := 0;
     lastSeenAt := now;
     firstSeenAt := now;
     bobWins := 0;
     opponentWins := 0;
     stats :=
       {| avgBetSize := 0; avgFinalChips := 0; avgFinalRank := 0;
          hitFrequency := 0; standFrequency := 0; doubleFrequency := 0;
          splitFrequency := 0; aggressionScore := 5 # 10;
          skillScore := 5 # 10; consistencyScore := 5 # 10 |};
     patterns :=
       {| hitOn16VsDealer7 := 0; standOn12VsDealer2 := 0; doubleOn11 := 0;
          splitAces := 0; split10s := 0; increaseBetAfterWin := 0;
          increaseBetAfterLoss := 0; averageRiskLevel := 5 # 10 |};
     weaknesses := [] |}.

Definition runningAverage (currentAvg newValue : Q) (n : Z) : Q :=
  ((currentAvg * ofZ n + newValue) / (ofZ n + 1))%Q.

Definition updateFrequency (current observed : Q) (weight : Z) : Q :=
  let alpha := (1 / ofZ (Z.max 1 weight))%Q in
  (current * (1 - alpha) + observed * alpha)%Q.

Definition withStats (profile : OpponentProfile) (s : ProfileStats)
  : OpponentProfile :=
  {| walletAddress := walletAddress profile;
     sessionsPlayed := sessionsPlayed profile;
     lastSeenAt := lastSeenAt profile;
     firstSeenAt := firstSeenAt profile;
     bobWins := bobWins profile;
     opponentWins := opponentWins profile;
     stats := s;
     patterns := patterns profile;
     weaknesses := weaknesses profile |}.

Definition withPatterns (profile : OpponentProfile) (p : ProfilePatterns)
  : OpponentProfile :=
  {| walletAddress := walletAddress profile;
     sessionsPlayed := sessionsPlayed profile;
     lastSeenAt := lastSeenAt profile;
     firstSeenAt := firstSeenAt profile;
     bobWins := bobWins profile;
     opponentWins := opponentWins profile;
     stats := stats profile;
     patterns := p;
     weaknesses := weaknesses profile |}.

Definition withWeaknesses (profile : OpponentProfile) (w : list string)
  : OpponentProfile :=
  {| walletAddress := walletAddress profile;
     sessionsPlayed := sessionsPlayed profile;
     lastSeenAt := lastSeenAt profile;
     firstSeenAt := firstSeenAt profile;
     bobWins := bobWins profile;
     opponentWins := opponentWins profile;
     stats := stats profile;
     patterns := patterns profile;
     weaknesses := w |}.

Definition updateStats (profile : OpponentProfile)
  (sessionData : OpponentSessionData) : OpponentProfile :=
  let n := sessionsPlayed profile in
  let s := stats profile in
  let avgBetSize' := runningAverage (avgBetSize s) (osdAvgBetSize sessionData) n in
  let avgFinalChips' :=
    runningAverage (avgFinalChips s) (osdFinalChips sessionData) n in
  let avgFinalRank' :=
    runningAverage (avgFinalRank s) (ofZ (osdFinalRank sessionData)) n in
  let totalActions :=
    totalHits sessionData + totalStands sessionData +
    totalDoubles sessionData + totalSplits sessionData in
  let freq (old : Q) (count : Z) : Q :=
    if totalActions >? 0 then
      runningAverage old (ofZ count / ofZ totalActions)%Q n
    else old in
  withStats profile
    {| avgBetSize := avgBetSize';
       avgFinalChips := avgFinalChips';
       avgFinalRank := avgFinalRank';
       hitFrequency := freq (hitFrequency s) (totalHits sessionData);
       standFrequency := freq (standFrequency s) (totalStands sessionData);
       doubleFrequency := freq (doubleFrequency s) (totalDoubles sessionData);
       splitFrequency := freq (splitFrequency s) (totalSplits sessionData);
       aggressionScore := aggressionScore s;
       skillScore := skillScore s;
       consistencyScore := consistencyScore s |}.

Definition calculateScores (profile : OpponentProfile) : OpponentProfile :=
  let s := stats profile in
  let p := patterns profile in
  let avgBetNormalized := Math_min 1 (avgBetSize s / (75 # 1)) in
  let doubleFreqNormalized := (doubleFrequency s * (2 # 1))%Q in
  let aggression := ((avgBetNormalized + doubleFreqNormalized) / (2 # 1))%Q in
  let skill := (5 # 10)%Q in
  let skill := if Qgtb (doubleOn11 p) (8 # 10) then (skill + (1 # 10))%Q else skill in
  let skill := if Qgtb (splitAces p) (8 # 10) then (skill + (1 # 10))%Q else skill in
  let skill :=
    if Qgtb (hitOn16VsDealer7 p) (6 # 10) then (skill + (5 # 100))%Q
    else skill in
  let skill := if Qgtb (split10s p) (5 # 100) then (skill - (3 # 10))%Q else skill in
  let skill :=
    if Qgtb (standOn12VsDealer2 p) (6 # 10) then (skill - (1 # 10))%Q
    else skill in
  let skill :=
    if Qgtb (avgFinalRank s) (ofZ (sessionsPlayed profile) * (6 # 10)) then
      (skill - (1 # 10))%Q
    else skill in
  withStats profile
    {| avgBetSize := avgBetSize s;
       avgFinalChips := avgFinalChips s;
       avgFinalRank := avgFinalRank s;
       hitFrequency := hitFrequency s;
       standFrequency := standFrequency s;
       doubleFrequency := doubleFrequency s;
       splitFrequency := splitFrequency s;
       aggressionScore := aggression;
       skillScore := Math_max 0 (Math_min 1 skill);
       consistencyScore := 7 # 10 |}.

(** [if (cond) weaknesses.push(tag)]. *)
Definition pushIf (cond : bool) (tag : string) (tags : list string)
  : list string :=
  if cond then tags ++ [tag] else tags.

Definition identifyWeaknesses (profile : OpponentProfile) : OpponentProfile :=
  let s := stats profile in
  let p := patterns profile in
  let weaknesses := [] in
  let weaknesses :=
    pushIf (Qgtb (aggressionScore s) (75 # 100)) "overly_aggressive"
      weaknesses in
  let weaknesses :=
    pushIf (Qltb (aggressionScore s) (25 # 100)) "overly_conservative"
      weaknesses in
  let weaknesses :=
    pushIf (Qltb (skillScore s) (4 # 10)) "poor_strategy" weaknesses in
  let weaknesses :=
    pushIf (Qgtb (split10s p) (5 # 100)) "splits_tens" weaknesses in
  let weaknesses :=
    pushIf (Qltb (doubleOn11 p) (5 # 10)) "misses_double_opportunities"
      weaknesses in
  let weaknesses :=
    pushIf (Qltb (doubleFrequency s) (5 # 100)) "rarely_doubles"
      weaknesses in
  withWeaknesses profile weaknesses.

Definition updateProfile (now : Z) (wallet : string)
  (sessionData : OpponentSessionData) (bobRank : Z) (profiles : t) : t :=
  let profile :=
    match profiles !! wallet with
    | Some profile => profile
    | None => createNewProfile now wallet
    end in
  let profile :=
    {| walletAddress := walletAddress profile;
       sessionsPlayed := sessionsPlayed profile + 1;
       lastSeenAt := now;
       firstSeenAt := firstSeenAt profile;
       bobWins :=
         if bobRank <? osdFinalRank sessionData then bobWins profile + 1
         else bobWins profile;
       opponentWins :=
         if bobRank <? osdFinalRank sessionData then opponentWins profile
         else if bobRank >? osdFinalRank sessionData then
           opponentWins profile + 1
         else opponentWins profile;
       stats := stats profile;
       patterns := patterns profile;
       weaknesses := weaknesses profile |} in
  let profile := updateStats profile sessionData in
  let profile := calculateScores profile in
  let profile := identifyWeaknesses profile in
  <[wallet := profile]> profiles.

(** The observation passed to [updateWithHandObservation]. *)
Record Observation := { situation : string; obsAction : string }.

Definition updateWithHandObservation (wallet : string)
  (observation : Observation) (profiles : t) : t :=
  match profiles !! wallet with
  | None => profiles
  | Some profile =>
      let p := patterns profile in
      let matches (sit act : string) :=
        String.eqb (situation observation) sit &&
        String.eqb (obsAction observation) act in
      let bump (current : Q) :=
        updateFrequency current 1 (sessionsPlayed profile) in
      let store (hit16 stand12 dbl11 aces tens : Q) :=
        <[wallet :=
            withPatterns profile
              {| hitOn16VsDealer7 := hit16; standOn12VsDealer2 := stand12;
                 doubleOn11 := dbl11; splitAces := aces; split10s := tens;
                 increaseBetAfterWin := increaseBetAfterWin p;
                 increaseBetAfterLoss := increaseBetAfterLoss p;
                 averageRiskLevel := averageRiskLevel p |}]> profiles in
      if matches "16_vs_7" "hit" then
        store (bump (hitOn16VsDealer7 p)) (standOn12VsDealer2 p) (doubleOn11 p)
          (splitAces p) (split10s p)
      else if matches "12_vs_2" "stand" then
        store (hitOn16VsDealer7 p) (bump (standOn12VsDealer2 p)) (doubleOn11 p)
          (splitAces p) (split10s p)
      else if matches "11" "double" then
        store (hitOn16VsDealer7 p) (standOn12VsDealer2 p) (bump (doubleOn11 p))
          (splitAces p) (split10s p)
      else if matches "AA" "split" then
        store (hitOn16VsDealer7 p) (standOn12VsDealer2 p) (doubleOn11 p)
          (bump (splitAces p)) (split10s p)
      else if matches "TT" "split" then
        store (hitOn16VsDealer7 p) (standOn12VsDealer2 p) (doubleOn11 p)
          (splitAces p) (bump (split10s p))
      else profiles
  end.

Definition getProfile (wallet : string) (profiles : t)
  : option OpponentProfile := profiles !! wallet.

Definition getAllProfiles (profiles : t) : t := profiles.

End OpponentProfiler.

(** ** Persistent memory ([types.ts]) *)

Record Performance := {
  winRateBySession : list Z;
  avgRankBySession : list Z;
  avgChipsBySession : list Q;
  totalWins : Z;
  totalTop3 : Z;
  totalProfit : Q;
  winRateBeforeLearning : Q;
  winRateAfterLearning : Q
}.

Record StrategyAdjustment := {
  saTimestamp : Z;
  saSituation : string;
  saAdjustment : string;
  saReason : string
}.

(** [BobMemory], over the representation [P] of the profile collection: a
    map in memory, an array in the file. *)
Record BobMemoryOf (P : Type) := {
  version : string;
  totalSessionsPlayed : Z;
  totalHandsPlayed : Z;
  memLearningEnabled : bool;
  lastUpdated : Z;
  opponentProfiles : P;
  performance : Performance;
  recentExperiences : list GameExperience;
  recentSessions : list SessionResult;
  strategyAdjustments : list StrategyAdjustment
}.

Arguments version {P}.
Arguments totalSessionsPlayed {P}.
Arguments totalHandsPlayed {P}.
Arguments memLearningEnabled {P}.
Arguments lastUpdated {P}.
Arguments opponentProfiles {P}.
Arguments performance {P}.
Arguments recentExperiences {P}.
Arguments recentSessions {P}.
Arguments strategyAdjustments {P}.

Abbreviation BobMemory := (BobMemoryOf (gmap string OpponentProfile)).
Abbreviation SerializedMemory := (BobMemoryOf (list OpponentProfile)).

(** ** Effects: exceptions, the log and the file system *)

Inductive Error :=
  | NotFound
  | AlreadyExists
  | SyntaxError
  | OtherError (msg : string).

Inductive Result (A : Type) :=
  | Ok (a : A)
  | Throw (e : Error).

Arguments Ok {A}.
Arguments Throw {A}.

Inductive LogLevel := debug | info | warn | error.

Record LogEntry := { level : LogLevel; message : string }.

(** The text of the memory file, up to what [JSON.parse] makes of it. *)
Inductive FileContent :=
  | Unparsable
  | Json (loaded : SerializedMemory).

(** The file system as this run sees it: the memory file, the failure, if
    any, with which each kind of operation is going to end, and what a write
    that fails leaves of the file.  [Deno.writeTextFile] opens the file,
    truncating it, and writes in place, without a temporary file: a write
    that fails may leave the file as it was (it could not be opened), empty
    or partial. *)
Record FileSystem := {
  memoryFile : option FileContent;
  readFault : option Error;
  mkdirFault : option Error;
  writeFault : option Error;
  leftByFailedWrite : option FileContent
}.

Record World := {
  fs : FileSystem;
  log : list LogEntry;
  now : Z
}.

(** The state of a [LearningCoordinator] and of the objects it owns. *)
Record Coordinator := {
  profiler : gmap string OpponentProfile;
  tracker : ExperienceTracker.t;
  memory : BobMemory;
  enabled : bool;
  currentSessionId : option string;
  currentSessionHandCount : Z
}.

Record System := { coordinator : Coordinator; world : World }.

(** Computations that read and write the system and may throw.  What a
    computation did before it threw stays done. *)
Module Eff.

Definition M (A : Type) : Type := System -> Result A * System.

Definition ret {A} (a : A) : M A := fun s => (Ok a, s).

Definition bind {A B} (c : M A) (k : A -> M B) : M B :=
  fun s =>
    match c s with
    | (Ok a, s') => k a s'
    | (Throw e, s') => (Throw e, s')
    end.

Definition throw {A} (e : Error) : M A := fun s => (Throw e, s).

Definition tryCatch {A} (body : M A) (handler : Error -> M A) : M A :=
  fun s =>
    match body s with
    | (Ok a, s') => (Ok a, s')
    | (Throw e, s') => handler e s'
    end.

Definition gets {A} (f : System -> A) : M A := fun s => (Ok (f s), s).

Definition modify (f : System -> System) : M unit := fun s => (Ok tt, f s).

Definition when (b : bool) (c : M unit) : M unit := if b then c else ret tt.

End Eff.

#[global] Instance eff_ret : MRet Eff.M := @Eff.ret.
#[global] Instance eff_bind : MBind Eff.M := fun A B k c => Eff.bind c k.

Definition setCoordinator (f : Coordinator -> Coordinator) : Eff.M unit :=
  Eff.modify (fun s =>
    {| coordinator := f (coordinator s); world := world s |}).

Definition setWorld (f : World -> World) : Eff.M unit :=
  Eff.modify (fun s =>
    {| coordinator := coordinator s; world := f (world s) |}).

Definition setMemory (f : BobMemory -> BobMemory) : Eff.M unit :=
  setCoordinator (fun c =>
    {| profiler := profiler c; tracker := tracker c; memory := f (memory c);
       enabled := enabled c; currentSessionId := currentSessionId c;
       currentSessionHandCount := currentSessionHandCount c |}).

Definition setProfiler
  (f : gmap string OpponentProfile -> gmap string OpponentProfile)
  : Eff.M unit :=
  setCoordinator (fun c =>
    {| profiler := f (profiler c); tracker := tracker c; memory := memory c;
       enabled := enabled c; currentSessionId := currentSessionId c;
       currentSessionHandCount := currentSessionHandCount c |}).

Definition setTracker (f : ExperienceTracker.t -> ExperienceTracker.t)
  : Eff.M unit :=
  setCoordinator (fun c =>
    {| profiler := profiler c; tracker := f (tracker c); memory := memory c;
       enabled := enabled c; currentSessionId := currentSessionId c;
       currentSessionHandCount := currentSessionHandCount c |}).

Definition setSession (id : option string) (count : Z) : Eff.M unit :=
  setCoordinator (fun c =>
    {| profiler := profiler c; tracker := tracker c; memory := memory c;
       enabled := enabled c; currentSessionId := id;
       currentSessionHandCount := count |}).

(** [logger.debug], [logger.info], [logger.warn] and [logger.error]. *)
Definition logger (lvl : LogLevel) (msg : string) : Eff.M unit :=
  setWorld (fun w =>
    {| fs := fs w; log := log w ++ [ {| level := lvl; message := msg |} ];
       now := now w |}).

(** [Deno.readTextFile], [Deno.mkdir], [Deno.writeTextFile] on the memory
    file and its directory, and [JSON.parse]. *)
Definition readTextFile : Eff.M FileContent :=
  fun s =>
    match readFault (fs (world s)) with
    | Some e => (Throw e, s)
    | None =>
        match memoryFile (fs (world s)) with
        | Some content => (Ok content, s)
        | None => (Throw NotFound, s)
        end
    end.

Definition mkdir : Eff.M unit :=
  fun s =>
    match mkdirFault (fs (world s)) with
    | Some e => (Throw e, s)
    | None => (Ok tt, s)
    end.

Definition setMemoryFile (content : option FileContent) (s : System)
  : System :=
  let w := world s in
  {| coordinator := coordinator s;
     world :=
       {| fs :=
            {| memoryFile := content;
               readFault := readFault (fs w);
               mkdirFault := mkdirFault (fs w);
               writeFault := writeFault (fs w);
               leftByFailedWrite := leftByFailedWrite (fs w) |};
          log := log w; now := now w |} |}.

Definition writeTextFile (content : FileContent) : Eff.M unit :=
  fun s =>
    match writeFault (fs (world s)) with
    | Some e => (Throw e, setMemoryFile (leftByFailedWrite (fs (world s))) s)
    | None => (Ok tt, setMemoryFile (Some content) s)
    end.

Definition JSON_parse (data : FileContent) : Eff.M SerializedMemory :=
  match data with
  | Unparsable => Eff.throw SyntaxError
  | Json loaded => Eff.ret loaded
  end.

(** ** The memory manager ([MemoryManager.ts]) *)

Module MemoryManager.

Import Num.

Definition createEmptyMemory (config : Config) (now : Z) : BobMemory :=
  {| version := "1.0.0";
     totalSessionsPlayed := 0;
     totalHandsPlayed := 0;
     memLearningEnabled := botEnabled config;
     lastUpdated := now;
     opponentProfiles := ∅;
     performance :=
       {| winRateBySession := []; avgRankBySession := [];
          avgChipsBySession := []; totalWins := 0; totalTop3 := 0;
          totalProfit := 0; winRateBeforeLearning := 0;
          winRateAfterLearning := 0 |};
     recentExperiences := [];
     recentSessions := [];
     strategyAdjustments := [] |}.

(** The spread [{...loaded, opponentProfiles: profilesMap}]: the profiles
    of the array are entered in the map one after the other. *)
Definition hydrate (loaded : SerializedMemory) : BobMemory :=
  {| version := version loaded;
     totalSessionsPlayed := totalSessionsPlayed loaded;
     totalHandsPlayed := totalHandsPlayed loaded;
     memLearningEnabled := memLearningEnabled loaded;
     lastUpdated := lastUpdated loaded;
     opponentProfiles :=
       fold_left (fun m profile => <[walletAddress profile := profile]> m)
         (opponentProfiles loaded) ∅;
     performance := performance loaded;
     recentExperiences := recentExperiences loaded;
     recentSessions := recentSessions loaded;
     strategyAdjustments := strategyAdjustments loaded |}.

(** [{...this.memory, opponentProfiles: Array.from(...values()),
    lastUpdated: Date.now()}]; the array lists the profiles in the order of
    the map. *)
Definition serializable (m : BobMemory) (now : Z) : SerializedMemory :=
  {| version := version m;
     totalSessionsPlayed := totalSessionsPlayed m;
     totalHandsPlayed := totalHandsPlayed m;
     memLearningEnabled := memLearningEnabled m;
     lastUpdated := now;
     opponentProfiles := (map_to_list (opponentProfiles m)).*2;
     performance := performance m;
     recentExperiences := recentExperiences m;
     recentSessions := recentSessions m;
     strategyAdjustments := strategyAdjustments m |}.

Definition getMemory : Eff.M BobMemory :=
  Eff.gets (fun s => memory (coordinator s)).

Definition load : Eff.M BobMemory :=
  Eff.tryCatch
    (data ← readTextFile;
     loaded ← JSON_parse data;
     setMemory (fun _ => hydrate loaded);;
     logger info "[MemoryManager] Loaded memory";;
     getMemory)
    (fun e =>
       match e with
       | NotFound =>
           logger info
             "[MemoryManager] No existing memory found, starting fresh";;
           getMemory
       | _ =>
           logger error "[MemoryManager] Error loading memory:";;
           getMemory
       end).

Definition ensureDataDirectory : Eff.M unit :=
  Eff.tryCatch mkdir
    (fun e =>
       match e with
       | AlreadyExists => mret tt
       | _ => Eff.throw e
       end).

Definition save : Eff.M unit :=
  Eff.tryCatch
    (ensureDataDirectory;;
     m ← getMemory;
     t ← Eff.gets (fun s => now (world s));
     writeTextFile (Json (serializable m t));;
     logger debug "[MemoryManager] Memory saved successfully")
    (fun e =>
       logger error "[MemoryManager] Error saving memory:";;
       Eff.throw e).

Definition updateOpponentProfiles (profiles : gmap string OpponentProfile)
  : Eff.M unit :=
  setMemory (fun m =>
    {| version := version m;
       totalSessionsPlayed := totalSessionsPlayed m;
       totalHandsPlayed := totalHandsPlayed m;
       memLearningEnabled := memLearningEnabled m;
       lastUpdated := lastUpdated m;
       opponentProfiles := profiles;
       performance := performance m;
       recentExperiences := recentExperiences m;
       recentSessions := recentSessions m;
       strategyAdjustments := strategyAdjustments m |}).

Definition updateExperiences (experiences : list GameExperience)
  (sessions : list SessionResult) : Eff.M unit :=
  setMemory (fun m =>
    {| version := version m;
       totalSessionsPlayed := totalSessionsPlayed m;
       totalHandsPlayed :=
         totalHandsPlayed m + Z.of_nat (length experiences);
       memLearningEnabled := memLearningEnabled m;
       lastUpdated := lastUpdated m;
       opponentProfiles := opponentProfiles m;
       performance := performance m;
       recentExperiences := experiences;
       recentSessions := sessions;
       strategyAdjustments := strategyAdjustments m |}).

(** The number of wins among the entries of [winRateBySession]. *)
Definition countWins (ws : list Z) : Q :=
  ofZ (Z.of_nat (length (filter (fun w => w = 1) ws))).

Definition lengthQ {A} (xs : list A) : Q := ofZ (Z.of_nat (length xs)).

(** [xs.slice(-n)]. *)
Definition lastN {A} (n : nat) (xs : list A) : list A :=
  drop (length xs - n)%nat xs.

Definition updatePerformance (sessionResult : SessionResult)
  : Eff.M unit :=
  setMemory (fun m =>
    let perf := performance m in
    let winRates :=
      winRateBySession perf ++ [if finalRank sessionResult =? 1 then 1 else 0] in
    let ranks := avgRankBySession perf ++ [finalRank sessionResult] in
    let chips := avgChipsBySession perf ++ [finalChips sessionResult] in
    let over := (100 <? length winRates)%nat in
    let winRates := if over then tail winRates else winRates in
    let ranks := if over then tail ranks else ranks in
    let chips := if over then tail chips else chips in
    let baseline := totalSessionsPlayed m <=? 20 in
    let recent20 := lastN 20 winRates in
    {| version := version m;
       totalSessionsPlayed := totalSessionsPlayed m + 1;
       totalHandsPlayed := totalHandsPlayed m;
       memLearningEnabled := memLearningEnabled m;
       lastUpdated := lastUpdated m;
       opponentProfiles := opponentProfiles m;
       performance :=
         {| winRateBySession := winRates;
            avgRankBySession := ranks;
            avgChipsBySession := chips;
            totalWins :=
              if finalRank sessionResult =? 1 then totalWins perf + 1
              else totalWins perf;
            totalTop3 :=
              if finalRank sessionResult <=? 3 then totalTop3 perf + 1
              else totalTop3 perf;
            totalProfit := (totalProfit perf + netProfit sessionResult)%Q;
            winRateBeforeLearning :=
              if baseline then (countWins winRates / lengthQ winRates)%Q
              else winRateBeforeLearning perf;
            winRateAfterLearning :=
              if baseline then winRateAfterLearning perf
              else (countWins recent20 / lengthQ recent20)%Q |};
       recentExperiences := recentExperiences m;
       recentSessions := recentSessions m;
       strategyAdjustments := strategyAdjustments m |}).

End MemoryManager.

(** ** The learning coordinator ([LearningCoordinator.ts]) *)

Module LearningCoordinator.

Import Num.

(** A coordinator as its constructor leaves it. *)
Definition new (config : Config) (now : Z) : Coordinator :=
  {| profiler := OpponentProfiler.new None;
     tracker := ExperienceTracker.new None None;
     memory := MemoryManager.createEmptyMemory config now;
     enabled := botEnabled config;
     currentSessionId := None;
     currentSessionHandCount := 0 |}.

Definition isEnabled : Eff.M bool :=
  Eff.gets (fun s => enabled (coordinator s)).

Definition init : Eff.M unit :=
  en ← isEnabled;
  if negb en then logger info "[Learning] Learning system DISABLED"
  else
    bobMemory ← MemoryManager.load;
    setProfiler (fun _ =>
      OpponentProfiler.new (Some (opponentProfiles bobMemory)));;
    setTracker (fun _ =>
      ExperienceTracker.new (Some (recentExperiences bobMemory))
        (Some (recentSessions bobMemory)));;
    logger info "[Learning] Learning system initialized".

Definition startSession (sessionId : string) : Eff.M unit :=
  setSession (Some sessionId) 0;;
  logger debug "[Learning] Started tracking session".

(** A session identifier is truthy when it is present and not empty. *)
Definition hasSession (id : option string) : bool :=
  match id with
  | Some id => negb (String.eqb id "")
  | None => false
  end.

Definition recordHand (experience : GameExperience) : Eff.M unit :=
  c ← Eff.gets coordinator;
  if negb (enabled c) || negb (hasSession (currentSessionId c))
  then mret tt
  else
    setTracker (ExperienceTracker.recordHand experience);;
    setSession (currentSessionId c) (currentSessionHandCount c + 1).

Definition save : Eff.M unit := MemoryManager.save.

(** [generateInsights] followed by [logInsights]: they read the tracker and
    the profiler and write to the log only; the wording of the insights is
    left out. *)
Definition logInsights : Eff.M unit :=
  logger info "=== Session Insights ===".

Definition recordSession (sessionResult : SessionResult) (bobRank : Z)
  : Eff.M unit :=
  en ← isEnabled;
  if negb en then mret tt
  else
    setTracker (ExperienceTracker.recordSession sessionResult);;
    t ← Eff.gets (fun s => now (world s));
    setProfiler (fun profiles =>
      fold_left
        (fun profiles opponent =>
           OpponentProfiler.updateProfile t (osdWalletAddress opponent)
             opponent bobRank profiles)
        (opponents sessionResult) profiles);;
    MemoryManager.updatePerformance sessionResult;;
    c ← Eff.gets coordinator;
    MemoryManager.updateOpponentProfiles
      (OpponentProfiler.getAllProfiles (profiler c));;
    MemoryManager.updateExperiences
      (ExperienceTracker.getExperiences (tracker c))
      (ExperienceTracker.getSessions (tracker c));;
    logInsights;;
    save;;
    setSession None 0;;
    logger info "[Learning] Session recorded".

Definition getStrategyAdjustment (c : Coordinator) (playerTotal : Z)
  (dealerUpcardRank : string) (action : string) : Q :=
  if negb (enabled c) then 0%Q
  else
    ExperienceTracker.getLearnedEVAdjustment (tracker c) playerTotal
      dealerUpcardRank action.

(** [xs.reduce((sum, o) => sum + f(o), 0) / xs.length]. *)
Definition average {A} (f : A -> Q) (xs : list A) : Q :=
  (fold_left (fun sum o => sum + f o) xs 0 / ofZ (Z.of_nat (length xs)))%Q.

(** A [betSize] is truthy when it is present and not zero. *)
Definition truthy (betSize : option Q) : bool :=
  match betSize with
  | Some b => negb (Qeq_bool b 0)
  | None => false
  end.

Definition withBetSize (decision : BotDecision) (b : option Q)
  : BotDecision :=
  {| action := action decision; confidence := confidence decision;
     expectedValue := expectedValue decision; betSize := b |}.

Definition adjustDecisionForOpponent (c : Coordinator)
  (decision : BotDecision) (opponentWallets : list string) : BotDecision :=
  if negb (enabled c) || (length opponentWallets =? 0)%nat then decision
  else
    let opponents :=
      omap (fun w => OpponentProfiler.getProfile w (profiler c))
        opponentWallets in
    if (length opponents =? 0)%nat then decision
    else
      let avgSkill := average (fun o => skillScore (stats o)) opponents in
      let avgAggression :=
        average (fun o => aggressionScore (stats o)) opponents in
      if truthy (betSize decision) && Qltb avgSkill (4 # 10) then
        withBetSize decision
          (Some (Math_min (default 0%Q (betSize decision) * (12 # 10))
                   (100 # 1)))
      else if Qgtb avgAggression (7 # 10) then
        withBetSize decision
          (Some (if truthy (betSize decision)
                 then default 0%Q (betSize decision)
                 else (25 # 1)%Q))
      else decision.

End LearningCoordinator.

(** ** Completion of a session ([GameClient.ts]) *)

Module GameClient.

(** [handleSessionCompletion], given what [fetchSessionResults] returned. *)
Definition handleSessionCompletion (config : Config)
  (results : option SessionResult) : Eff.M unit :=
  Eff.tryCatch
    (match results with
     | None => logger warn "[GameClient] Could not fetch session results"
     | Some results =>
         logger info "[GameClient] Final Result";;
         if learningEnabled config then
           LearningCoordinator.recordSession results (finalRank results);;
           LearningCoordinator.save;;
           logger info "[Learning] Total sessions"
         else mret tt
     end)
    (fun e => logger error "[GameClient] Error handling session completion:").

End GameClient.


(** * Properties *)

(** ** Numbers *)

Section NumFacts.

Import Num.

Lemma Qltb_lt x y : Qltb x y = true <-> (x < y)%Q.
Proof.
  unfold Qltb. rewrite negb_true_iff.
  destruct (Qle_bool y x) eqn:E.
  - apply Qle_bool_iff in E. split; [discriminate|].
    intros H. exfalso. exact (Qlt_not_le _ _ H E).
  - split; [intros _|reflexivity].
    apply Qnot_le_lt. intros H. apply Qle_bool_iff in H. congruence.
Qed.

Lemma Qltb_ge x y : Qltb x y = false <-> (y <= x)%Q.
Proof.
  unfold Qltb. rewrite negb_false_iff. apply Qle_bool_iff.
Qed.

Lemma Qgeb_ge x y : Qgeb x y = true <-> (y <= x)%Q.
Proof. apply Qle_bool_iff. Qed.

Lemma Qgeb_lt x y : Qgeb x y = false <-> (x < y)%Q.
Proof.
  unfold Qgeb. rewrite <- (Qltb_lt x y). unfold Qltb.
  destruct (Qle_bool y x); simpl; split; congruence.
Qed.

Lemma Math_min_spec x y :
  ((x <= y)%Q /\ Math_min x y = x) \/ ((y < x)%Q /\ Math_min x y = y).
Proof.
  unfold Math_min. destruct (Qle_bool x y) eqn:E.
  - left. split; [by apply Qle_bool_iff|done].
  - right. split; [|done]. apply Qltb_lt. unfold Qltb. by rewrite E.
Qed.

Lemma Math_max_spec x y :
  ((x <= y)%Q /\ Math_max x y = y) \/ ((y < x)%Q /\ Math_max x y = x).
Proof.
  unfold Math_max. destruct (Qle_bool x y) eqn:E.
  - left. split; [by apply Qle_bool_iff|done].
  - right. split; [|done]. apply Qltb_lt. unfold Qltb. by rewrite E.
Qed.


Lemma includes_elem_of (xs : list string) (x : string) :
  includes xs x = true <-> x ∈ xs.
Proof.
  unfold includes. rewrite existsb_exists. split.
  - intros (y & Hy & E). apply String.eqb_eq in E. subst y.
    by apply list_elem_of_In.
  - intros H. exists x. split; [by apply list_elem_of_In|apply String.eqb_refl].
Qed.

End NumFacts.

(** ** The card counter *)

Section CardCounterFacts.

Import CardCounter.

Lemma updateCount_disabled card st :
  enabled st = false -> updateCount card st = st.
Proof. intros H. unfold updateCount. by rewrite H. Qed.

Lemma hiLoWeight_includes r :
  hiLoWeight r =
    if includes lowRanks r then 1
    else if includes highRanks r then -1 else 0.
Proof.
  unfold hiLoWeight.
  destruct (includes lowRanks r) eqn:Hlow.
  - apply includes_elem_of in Hlow. by rewrite bool_decide_eq_true_2.
  - rewrite bool_decide_eq_false_2.
    2:{ intros H. apply (includes_elem_of lowRanks) in H. congruence. }
    destruct (includes highRanks r) eqn:Hhigh.
    + apply includes_elem_of in Hhigh.
      rewrite bool_decide_eq_false_2.
      2:{ intros H. unfold highRanks in Hhigh.
          apply list_elem_of_In in H. apply list_elem_of_In in Hhigh.
          simpl in H, Hhigh.
          destruct Hhigh as [<-|[<-|[<-|[<-|[<-|[]]]]]];
            intuition discriminate. }
      by rewrite bool_decide_eq_true_2.
    + rewrite (bool_decide_eq_false_2 (r ∈ ["10"; "J"; "Q"; "K"; "A"]%string)).
      2:{ intros H. apply (includes_elem_of highRanks) in H. congruence. }
      by case_bool_decide.
Qed.

Lemma updateCount_enabled card st :
  enabled st = true ->
  updateCount card st =
    {| runningCount := runningCount st + hiLoWeight (rank card);
       cardsDealt := cardsDealt st + 1;
       enabled := true |}.
Proof.
  intros H. unfold updateCount. rewrite H, hiLoWeight_includes. cbn [negb].
  destruct (includes lowRanks (rank card)); [done|].
  destruct (includes highRanks (rank card)); [done|].
  f_equal. lia.
Qed.

Lemma observeAll_enabled cards st :
  enabled st = true ->
  observeAll cards st =
    {| runningCount := runningCount st + hiLoSum cards;
       cardsDealt := cardsDealt st + Z.of_nat (length cards);
       enabled := true |}.
Proof.
  unfold observeAll. revert st.
  induction cards as [|c cards IH]; intros st Hen; simpl.
  - destruct st; simpl in *. subst. f_equal; lia.
  - rewrite IH by (by rewrite updateCount_enabled).
    rewrite updateCount_enabled by done. simpl. f_equal; lia.
Qed.

Lemma hiLoSum_Permutation cards cards' :
  Permutation cards cards' -> hiLoSum cards = hiLoSum cards'.
Proof.
  induction 1; simpl; lia.
Qed.

(** C2. From a reset counter with counting enabled, the running count after
    observing a sequence of cards is the sum of the Hi-Lo weights of the
    cards (+1 for 2-6, 0 for 7-9, -1 for 10, J, Q, K, A); it is the same for
    every reordering of the cards; and with counting disabled observing a
    card changes nothing. *)
Theorem runningCount_hiLo (st : t) (cards cards' : list Card) (card : Card) :
  (enabled st = true ->
   runningCount (observeAll cards (reset st)) = hiLoSum cards) /\
  (enabled st = true -> Permutation cards cards' ->
   runningCount (observeAll cards (reset st)) =
   runningCount (observeAll cards' (reset st))) /\
  (enabled st = false -> updateCount card st = st).
Proof.
  split; [|split].
  - intros Hen. rewrite observeAll_enabled by done. simpl. lia.
  - intros Hen Hperm. rewrite !observeAll_enabled by done. simpl.
    by rewrite (hiLoSum_Permutation _ _ Hperm).
  - apply updateCount_disabled.
Qed.

(** The scenario of the specification: the six cards 2, 3, 4, 5, 6, 6 give
    a running count of +6, in this order and reversed. *)
Definition sixLowCards : list Card :=
  map (fun r => {| suit := hearts; rank := r |})
    ["2"; "3"; "4"; "5"; "6"; "6"]%string.

Lemma runningCount_hiLo_witness :
  runningCount (observeAll sixLowCards (reset (new true))) = 6 /\
  runningCount (observeAll sixLowCards (reset (new true))) =
  runningCount (observeAll (rev sixLowCards) (reset (new true))) /\
  updateCount {| suit := spades; rank := "A" |} (new false) = new false.
Proof.
  pose proof (runningCount_hiLo (new true) sixLowCards (rev sixLowCards)
                {| suit := spades; rank := "A" |}) as (Hsum & Hperm & _).
  pose proof (runningCount_hiLo (new false) [] []
                {| suit := spades; rank := "A" |}) as (_ & _ & Hoff).
  split; [|split].
  - rewrite Hsum; reflexivity.
  - apply Hperm; [reflexivity|]. apply Permutation_rev.
  - apply Hoff. reflexivity.
Defined.

(** The same six cards leave 410 cards, a true count of 0.8 and the
    minimum bet. *)
Example sixLowCards_bet :
  let st := observeAll sixLowCards (new true) in
  cardsDealt st = 6 /\ (getTrueCount st == 8 # 10)%Q /\
  (getBet defaultConfig st (1000 # 1) == 25 # 1)%Q /\
  shouldTakeInsurance st = false.
Proof. repeat split; vm_compute; reflexivity. Qed.

Lemma updateCount_flag card st : enabled (updateCount card st) = enabled st.
Proof.
  unfold updateCount. destruct (enabled st) eqn:E; simpl; [|done].
  by repeat case_match.
Qed.

Lemma run_enabled ops st : enabled (run ops st) = enabled st.
Proof.
  unfold run. revert st. induction ops as [|op ops IH]; intros st; [done|].
  simpl. rewrite IH. destruct op; simpl; [|done].
  apply updateCount_flag.
Qed.

Lemma updateCount_cardsDealt card st :
  cardsDealt (updateCount card st) =
    if enabled st then cardsDealt st + 1 else cardsDealt st.
Proof.
  unfold updateCount. destruct (enabled st); simpl; [|done].
  by repeat case_match.
Qed.

Lemma run_cardsDealt_enabled ops st :
  enabled st = true ->
  cardsDealt (run ops st) = observedSinceReset (cardsDealt st) ops.
Proof.
  unfold run. revert st. induction ops as [|op ops IH]; intros st Hen; [done|].
  simpl. destruct op as [c|]; simpl.
  - rewrite IH.
    + by rewrite updateCount_cardsDealt, Hen.
    + by rewrite updateCount_flag.
  - by rewrite IH.
Qed.

Lemma run_disabled ops st :
  enabled st = false -> cardsDealt st = 0 -> cardsDealt (run ops st) = 0.
Proof.
  unfold run. revert st. induction ops as [|op ops IH]; intros st Hen H0; [done|].
  simpl. apply IH; destruct op; simpl; try done.
  - by rewrite updateCount_disabled.
  - by rewrite updateCount_disabled.
Qed.

Lemma observedSinceReset_nonneg acc ops :
  0 <= acc -> 0 <= observedSinceReset acc ops.
Proof.
  revert acc. induction ops as [|[c|] ops IH]; intros acc Hacc; simpl.
  - done.
  - apply IH. lia.
  - by apply IH.
Qed.

(** Once the shoe is exhausted, or overrun, the true count is 0. *)
Lemma getTrueCount_exhausted st :
  totalCards <= cardsDealt st -> getTrueCount st = 0%Q.
Proof.
  intros H. unfold getTrueCount. destruct (enabled st); simpl; [|done].
  assert (Qle_bool (Num.ofZ (totalCards - cardsDealt st) / (52 # 1)) 0 = true)
    as ->; [|done].
  apply Qle_bool_iff. unfold Num.ofZ, Qdiv, Qle, Qmult, Qinv, inject_Z. simpl.
  nia.
Qed.

(** C8, as the code has it.  In every state reached from a reset counter by
    calls of [updateCount] and [reset], [cardsDealt] is the number of cards
    observed since the last reset (and 0 when counting is disabled) and is
    never negative.  It is within [totalCards] as long as no more than
    [totalCards] cards have been observed since the last reset, and beyond
    it otherwise: the counter does not stop at the size of the shoe, every
    further card adds one, and from there on the true count is 0. *)
Theorem cardsDealt_invariant (ops : list Op) (st : t) (card : Card) :
  let s := run ops (reset st) in
  cardsDealt s = (if enabled st then observedSinceReset 0 ops else 0) /\
  0 <= cardsDealt s /\
  (observedSinceReset 0 ops <= totalCards -> cardsDealt s <= totalCards) /\
  (enabled st = true -> totalCards < observedSinceReset 0 ops ->
   totalCards < cardsDealt s) /\
  (enabled st = true -> cardsDealt (updateCount card s) = cardsDealt s + 1) /\
  (totalCards <= cardsDealt s -> getTrueCount s = 0%Q).
Proof.
  intros s.
  assert (0 <= totalCards) by (unfold totalCards; lia).
  pose proof (observedSinceReset_nonneg 0 ops ltac:(lia)) as Hobs.
  assert (cardsDealt s = if enabled st then observedSinceReset 0 ops else 0)
    as E.
  { subst s. destruct (enabled st) eqn:Hen.
    - by rewrite run_cardsDealt_enabled.
    - by rewrite run_disabled. }
  split; [exact E|]. rewrite E.
  split; [destruct (enabled st); lia|].
  split; [destruct (enabled st); lia|].
  split; [intros ->; lia|].
  split; [|rewrite <- E; apply getTrueCount_exhausted].
  intros Hen. rewrite updateCount_cardsDealt.
  replace (enabled s) with true; [by rewrite E|].
  subst s. by rewrite run_enabled.
Qed.

Lemma cardsDealt_invariant_witness :
  let s := run [Observe {| suit := hearts; rank := "5" |}; Reset;
                Observe {| suit := clubs; rank := "K" |}]
             (reset (new true)) in
  cardsDealt s = 1 /\ cardsDealt s <= totalCards /\
  cardsDealt (updateCount {| suit := spades; rank := "9" |} s) = 2.
Proof.
  destruct (cardsDealt_invariant
              [Observe {| suit := hearts; rank := "5" |}; Reset;
               Observe {| suit := clubs; rank := "K" |}] (new true)
              {| suit := spades; rank := "9" |})
    as (E & _ & Hle & _ & Hstep & _).
  cbv zeta. split; [exact E|]. split.
  - apply Hle. vm_compute. discriminate.
  - rewrite Hstep by reflexivity. by rewrite E.
Defined.

(** C8, as stated, fails: nothing stops [cardsDealt] at the size of the
    shoe.  After 417 cards observed without a reset it is 417. *)
Lemma cardsDealt_exceeds_totalCards :
  let s := run (replicate 417 (Observe {| suit := hearts; rank := "5" |}))
             (reset (new true)) in
  cardsDealt s = 417 /\ ~ (0 <= cardsDealt s <= totalCards).
Proof.
  assert (cardsDealt
            (run (replicate 417 (Observe {| suit := hearts; rank := "5" |}))
               (reset (new true))) = 417) as E by (vm_compute; reflexivity).
  cbv zeta. rewrite E. unfold totalCards. split; [done|lia].
Qed.

(** The counter after sixteen fives: a running count of +16 with 400 cards
    left, that is, a true count of 2.1. *)
Definition sixteenFives : t :=
  observeAll (replicate 16 {| suit := hearts; rank := "5" |}) (new true).

(** C3 fails on a small stack.  With the default configuration and 50
    chips, the fresh counter (true count 0) bets the minimum, 25, while the
    counter at true count 2.1 bets 40 percent of 50, that is 20: the bet
    goes down as the true count goes up. *)
Theorem getBet_decreases_on_small_stack :
  (getTrueCount (new true) == 0)%Q /\
  (getTrueCount sixteenFives == 21 # 10)%Q /\
  (getBet defaultConfig (new true) (50 # 1) == 25 # 1)%Q /\
  (getBet defaultConfig sixteenFives (50 # 1) == 20 # 1)%Q /\
  (getTrueCount (new true) <= getTrueCount sixteenFives)%Q /\
  (getBet defaultConfig sixteenFives (50 # 1) <
   getBet defaultConfig (new true) (50 # 1))%Q.
Proof.
  repeat split; vm_compute; congruence.
Qed.

(** The bet as a function of the true count. *)
Definition betAt (config : Config) (currentChips trueCount : Q) : Q :=
  let maxBet' := Num.Math_min (maxBet config) currentChips in
  if Num.Qgeb trueCount (5 # 1) then maxBet'
  else if Num.Qgeb trueCount (4 # 1) then
    Num.Math_min (Num.Math_floor (maxBet' * (8 # 10))) currentChips
  else if Num.Qgeb trueCount (3 # 1) then
    Num.Math_min (Num.Math_floor (maxBet' * (6 # 10))) currentChips
  else if Num.Qgeb trueCount (countThresholdBetIncrease config) then
    Num.Math_min (Num.Math_floor (maxBet' * (4 # 10))) currentChips
  else minBet config.

Lemma getBet_betAt config st currentChips :
  enabled st = true ->
  getBet config st currentChips = betAt config currentChips (getTrueCount st).
Proof.
  intros Hen. unfold getBet, betAt. rewrite Hen. cbn [negb].
  by repeat case_match.
Qed.

Lemma Math_floor_le x : (Num.Math_floor x <= x)%Q.
Proof. apply Qfloor_le. Qed.

Lemma Math_floor_mono x y : (x <= y)%Q -> (Num.Math_floor x <= Num.Math_floor y)%Q.
Proof.
  intros H. unfold Num.Math_floor. rewrite <- Zle_Qle. by apply Qfloor_resp_le.
Qed.

(** Where the stack is large enough for the 40 percent tier to reach the
    table minimum, the bet does not decrease as the true count rises. *)
Lemma getBet_monotone config s1 s2 currentChips :
  enabled s1 = true -> enabled s2 = true ->
  (0 <= minBet config)%Q ->
  (minBet config <=
   Num.Math_floor (Num.Math_min (maxBet config) currentChips * (4 # 10)))%Q ->
  (getTrueCount s1 <= getTrueCount s2)%Q ->
  (getBet config s1 currentChips <= getBet config s2 currentChips)%Q.
Proof.
  intros H1 H2 Hmin Hlow Htc. rewrite !getBet_betAt by done.
  generalize dependent (getTrueCount s2). generalize (getTrueCount s1).
  intros t1 t2 Htc. unfold betAt.
  set (M := Num.Math_min (maxBet config) currentChips) in *.
  assert (M <= currentChips)%Q as HM.
  { subst M. destruct (Math_min_spec (maxBet config) currentChips)
      as [[? ->]|[? ->]]; lra. }
  pose proof (Math_floor_le (M * (4 # 10))) as F4.
  pose proof (Math_floor_le (M * (8 # 10))) as F8.
  assert (0 <= M)%Q as HM0 by lra.
  pose proof (Math_floor_mono (M * (4 # 10)) (M * (6 # 10))) as F46.
  pose proof (Math_floor_mono (M * (6 # 10)) (M * (8 # 10))) as F68.
  specialize (F46 ltac:(lra)). specialize (F68 ltac:(lra)).
  set (f4 := Num.Math_floor (M * (4 # 10))) in *.
  set (f6 := Num.Math_floor (M * (6 # 10))) in *.
  set (f8 := Num.Math_floor (M * (8 # 10))) in *.
  assert (Num.Math_min f4 currentChips == f4)%Q as E4.
  { destruct (Math_min_spec f4 currentChips) as [[? ->]|[? ->]]; lra. }
  assert (Num.Math_min f6 currentChips == f6)%Q as E6.
  { destruct (Math_min_spec f6 currentChips) as [[? ->]|[? ->]]; lra. }
  assert (Num.Math_min f8 currentChips == f8)%Q as E8.
  { destruct (Math_min_spec f8 currentChips) as [[? ->]|[? ->]]; lra. }
  clearbody M f4 f6 f8.
  repeat match goal with
         | |- context [Num.Qgeb ?a ?b] => destruct (Num.Qgeb a b) eqn:?
         end;
    repeat match goal with
           | H : Num.Qgeb _ _ = true |- _ => apply Qgeb_ge in H
           | H : Num.Qgeb _ _ = false |- _ => apply Qgeb_lt in H
           end;
    rewrite ?E4, ?E6, ?E8; lra.
Qed.

End CardCounterFacts.

(** ** The strategy engine: the bounded hit recursion *)

Section HitRecursion.

Import Num OptimalStrategy.

(** What one next card is worth when no further card is considered: a bust
    loses the stake, anything else is worth standing on it. *)
Definition branchValue (dealerUpcard : option Z) (newTotal : option Z) : Q :=
  if gtN newTotal 21 then (- (1 # 1))%Q
  else calculateStandEV newTotal dealerUpcard.

(** One level of work over the next-card distribution. *)
Definition oneLevelHitEV (playerTotal : option Z) (dealerUpcard : option Z)
  (isSoft : bool) : Q :=
  fold_left
    (fun ev '(cardValue, prob) =>
       (ev + prob *
          branchValue dealerUpcard (fst (drawCard playerTotal isSoft cardValue)))%Q)
    cardProbs 0%Q.

Lemma Math_max_idem x : Math_max x x = x.
Proof. unfold Math_max. by destruct (Qle_bool x x). Qed.

Lemma eqN_eq x k : eqN x k = true -> x = Some k.
Proof.
  destruct x as [z|]; simpl; [|done].
  intros H. apply Z.eqb_eq in H. by subst.
Qed.

(** The equation of [calculateHitEV]: one unit of fuel buys the body of the
    source function, with its recursive calls at [depth + 1]. *)
Lemma calculateHitEV_run_S fuel playerTotal dealerUpcard isSoft depth :
  calculateHitEV_run (S fuel) playerTotal dealerUpcard isSoft depth =
    if gtN playerTotal 21 then Some ((- (1 # 1))%Q, oneCall)
    else if depth >? 5 then
      Some (calculateStandEV playerTotal dealerUpcard, oneCall)
    else
      fold_left
        (hitIteration
           (fun newTotal newIsSoft =>
              calculateHitEV_run fuel newTotal dealerUpcard newIsSoft
                (depth + 1))
           playerTotal dealerUpcard isSoft)
        cardProbs (Some (0%Q, oneCall)).
Proof. reflexivity. Qed.

(** Beyond depth 5 a call returns the stand value at once. *)
Lemma calculateHitEV_run_beyond fuel playerTotal dealerUpcard isSoft depth :
  5 < depth ->
  calculateHitEV_run (S fuel) playerTotal dealerUpcard isSoft depth =
    Some (calculateStandEV playerTotal dealerUpcard, oneCall).
Proof.
  intros Hd. rewrite calculateHitEV_run_S. unfold calculateStandEV.
  destruct (gtN playerTotal 21); [done|].
  assert ((depth >? 5) = true) as -> by lia. done.
Qed.

(** An iteration of the loop at depth 5: the recursive call is at depth 6
    and returns at once. *)
Lemma hitIteration_depth5 fuel dealerUpcard playerTotal isSoft ev cost
  cardValue prob :
  exists cost',
    hitIteration
      (fun newTotal newIsSoft =>
         calculateHitEV_run (S fuel) newTotal dealerUpcard newIsSoft (5 + 1))
      playerTotal dealerUpcard isSoft (Some (ev, cost)) (cardValue, prob) =
    Some ((ev + prob *
             branchValue dealerUpcard
               (fst (drawCard playerTotal isSoft cardValue)))%Q, cost') /\
    iterations cost' = S (iterations cost) /\
    (calls cost <= calls cost' <= S (calls cost))%nat.
Proof.
  unfold hitIteration, branchValue.
  destruct (drawCard playerTotal isSoft cardValue) as [newTotal newIsSoft].
  cbn [fst].
  destruct (gtN newTotal 21) eqn:Hbust.
  { eexists. split; [reflexivity|]. simpl. lia. }
  destruct (eqN newTotal 21) eqn:H21.
  { apply eqN_eq in H21. subst newTotal.
    eexists. split; [reflexivity|]. simpl. lia. }
  rewrite calculateHitEV_run_beyond by lia.
  rewrite Math_max_idem.
  eexists. split; [reflexivity|]. simpl. lia.
Qed.

Lemma hit_loop_depth5 fuel dealerUpcard playerTotal isSoft entries ev cost :
  exists cost',
    fold_left
      (hitIteration
         (fun newTotal newIsSoft =>
            calculateHitEV_run (S fuel) newTotal dealerUpcard newIsSoft
              (5 + 1))
         playerTotal dealerUpcard isSoft)
      entries (Some (ev, cost)) =
    Some (fold_left
            (fun ev '(cardValue, prob) =>
               (ev + prob *
                  branchValue dealerUpcard
                    (fst (drawCard playerTotal isSoft cardValue)))%Q)
            entries ev, cost') /\
    iterations cost' = (iterations cost + length entries)%nat /\
    (calls cost <= calls cost' <= calls cost + length entries)%nat.
Proof.
  revert ev cost.
  induction entries as [|[cardValue prob] entries IH]; intros ev cost.
  - exists cost. simpl. split; [done|lia].
  - cbn [fold_left].
    destruct (hitIteration_depth5 fuel dealerUpcard playerTotal isSoft ev cost
                cardValue prob) as (c1 & -> & Hi & Hc).
    destruct (IH (ev + prob *
                    branchValue dealerUpcard
                      (fst (drawCard playerTotal isSoft cardValue)))%Q c1)
      as (c2 & -> & Hi2 & Hc2).
    exists c2. split; [done|]. simpl. lia.
Qed.

(** With enough fuel a call returns, whatever the depth. *)
Lemma hitIteration_is_Some hitAgain playerTotal dealerUpcard isSoft acc entry :
  (forall t s, is_Some (hitAgain t s)) ->
  is_Some acc ->
  is_Some (hitIteration hitAgain playerTotal dealerUpcard isSoft acc entry).
Proof.
  intros Hrec [[ev cost] ->]. unfold hitIteration.
  destruct entry as [cardValue prob].
  destruct (drawCard playerTotal isSoft cardValue) as [newTotal newIsSoft].
  destruct (gtN newTotal 21); [done|].
  destruct (eqN newTotal 21); [done|].
  destruct (Hrec newTotal newIsSoft) as [[v c] ->]. done.
Qed.

Lemma calculateHitEV_run_terminates fuel playerTotal dealerUpcard isSoft depth :
  Z.max 0 (6 - depth) < Z.of_nat fuel ->
  is_Some (calculateHitEV_run fuel playerTotal dealerUpcard isSoft depth).
Proof.
  revert playerTotal isSoft depth.
  induction fuel as [|fuel IH]; intros playerTotal isSoft depth Hfuel; [lia|].
  destruct (decide (5 < depth)) as [Hd|Hd].
  { rewrite calculateHitEV_run_beyond by lia. done. }
  rewrite calculateHitEV_run_S.
  destruct (gtN playerTotal 21); [done|].
  assert ((depth >? 5) = false) as -> by lia.
  assert (forall entries acc,
            is_Some acc ->
            is_Some
              (fold_left
                 (hitIteration
                    (fun newTotal newIsSoft =>
                       calculateHitEV_run fuel newTotal dealerUpcard
                         newIsSoft (depth + 1))
                    playerTotal dealerUpcard isSoft) entries acc)) as Hloop.
  { induction entries as [|entry entries IHe]; intros acc Hacc; [done|].
    cbn [fold_left]. apply IHe. apply hitIteration_is_Some; [|done].
    intros t s. apply IH. lia. }
  by apply Hloop.
Qed.

(** C1. A call of [calculateHitEV] at depth 5 on a total of at most 21
    returns, and does one level of work: its value is the one-level
    expectation over the next card, the loop over the card distribution
    runs 10 times in all, and the calls it makes at depth 6, at most one
    per card, each return the stand value at once.  Beyond depth 5 every
    call is such an immediate fallback to the stand value, and at every
    depth the call returns. *)
Theorem calculateHitEV_depth5 (total : Z) (dealerUpcard : option Z)
  (isSoft : bool) :
  total <= 21 ->
  (exists cost,
     calculateHitEV_run (enoughFuel 5) (Some total) dealerUpcard isSoft 5 =
       Some (oneLevelHitEV (Some total) dealerUpcard isSoft, cost) /\
     iterations cost = 10%nat /\ (calls cost <= 11)%nat) /\
  calculateHitEV (Some total) dealerUpcard isSoft 5 =
    oneLevelHitEV (Some total) dealerUpcard isSoft /\
  (forall depth playerTotal soft,
     5 < depth ->
     calculateHitEV_run (enoughFuel depth) playerTotal dealerUpcard soft depth =
       Some (calculateStandEV playerTotal dealerUpcard, oneCall)) /\
  (forall depth playerTotal soft,
     is_Some (calculateHitEV_run (enoughFuel depth) playerTotal dealerUpcard
                soft depth)).
Proof.
  intros Htotal.
  assert (exists cost,
            calculateHitEV_run (enoughFuel 5) (Some total) dealerUpcard isSoft 5 =
              Some (oneLevelHitEV (Some total) dealerUpcard isSoft, cost) /\
            iterations cost = 10%nat /\ (calls cost <= 11)%nat) as Hrun.
  { change (enoughFuel 5) with 2%nat. rewrite calculateHitEV_run_S.
    assert (gtN (Some total) 21 = false) as -> by (simpl; lia).
    change (5 >? 5) with false. cbv iota.
    destruct (hit_loop_depth5 0 dealerUpcard (Some total) isSoft cardProbs 0%Q
                oneCall) as (cost & -> & Hi & Hc).
    exists cost. split; [done|]. simpl in Hi, Hc. lia. }
  split; [exact Hrun|]. split.
  { unfold calculateHitEV. by destruct Hrun as (cost & -> & _). }
  split.
  { intros depth playerTotal soft Hd. by apply calculateHitEV_run_beyond. }
  intros depth playerTotal soft.
  apply calculateHitEV_run_terminates. unfold enoughFuel. lia.
Qed.

(** Sixteen against a dealer 7, the cell of the regression scenario. *)
Lemma calculateHitEV_depth5_witness :
  calculateHitEV (Some 16) (Some 7) false 5 =
    oneLevelHitEV (Some 16) (Some 7) false.
Proof.
  apply (calculateHitEV_depth5 16 (Some 7) false). lia.
Defined.

(** On 16 against a 7 the call at depth 5 costs ten iterations and five
    calls, and its value, about -0.466, is above the stand value -0.4762:
    depth 5 is still expanded, and hitting ranks above standing. *)
Example calculateHitEV_16_vs_7 :
  (snd <$> calculateHitEV_run 2 (Some 16) (Some 7) false 5) =
    Some {| calls := 5; iterations := 10 |} /\
  (calculateStandEV (Some 16%Z) (Some 7%Z) == - (4762 # 10000))%Q /\
  (calculateStandEV (Some 16%Z) (Some 7%Z) <
   calculateHitEV (Some 16%Z) (Some 7%Z) false 5%Z)%Q.
Proof. repeat split; vm_compute; reflexivity. Qed.

End HitRecursion.

(** ** The strategy engine: only available actions are chosen *)

Section Eligibility.

Import Num OptimalStrategy.

Lemma isPair_spec (playerHand : list Card) :
  isPair playerHand = true <->
  exists c0 c1, playerHand = [c0; c1] /\ rank c0 = rank c1.
Proof.
  unfold isPair. split.
  - destruct playerHand as [|c0 [|c1 [|c2 rest]]]; simpl; try done.
    intros H. apply String.eqb_eq in H. by exists c0, c1.
  - intros (c0 & c1 & -> & E). simpl. by apply String.eqb_eq.
Qed.

(** The best of the four entries is never one whose value is [-Infinity]:
    standing and hitting always have a finite value. *)
Lemma sort_best_available (s h : Q) (d p : JSNum.t) :
  (d = JSNum.NegInf \/ exists q, d = JSNum.Fin q) ->
  (p = JSNum.NegInf \/ exists q, p = JSNum.Fin q) ->
  exists best second rest,
    sort byDescendingEV
      [ {| act := stand; ev := JSNum.Fin s |};
        {| act := hit; ev := JSNum.Fin h |};
        {| act := double; ev := d |};
        {| act := split; ev := p |} ] = best :: second :: rest /\
    (d = JSNum.NegInf -> act best <> double) /\
    (p = JSNum.NegInf -> act best <> split).
Proof.
  intros [->|[qd ->]] [->|[qp ->]];
    unfold sort, byDescendingEV;
    cbn -[Qltb Qminus];
    repeat (match goal with
            | |- context [Qltb ?a ?b] => destruct (Qltb a b)
            end; cbn -[Qltb Qminus]);
    do 3 eexists; (split; [reflexivity|]); cbn; split; congruence.
Qed.

(** C10. [getDecision] never answers [double] when [canDouble] is false,
    and never answers [split] unless [canSplit] is true and the hand is
    exactly two cards of the same rank. *)
Theorem getDecision_available (config : Config) (cardCounter : CardCounter.t)
  (situation : GameSituation) (learningAdjustment : JSNum.t) :
  (canDouble situation = false ->
   action (getDecision config cardCounter situation learningAdjustment)
     <> double) /\
  (~ (canSplit situation = true /\
      exists c0 c1,
        playerHand situation = [c0; c1] /\ rank c0 = rank c1) ->
   action (getDecision config cardCounter situation learningAdjustment)
     <> split).
Proof.
  unfold getDecision.
  generalize (getRankValue (rank (dealerUpcard situation))).
  intros dealerValue.
  generalize (CardCounter.getStrategyModifier cardCounter).
  generalize (CardCounter.getBet config cardCounter (chipStack situation)).
  intros bet m.
  generalize (calculateStandEV (Some (playerTotal situation)) dealerValue).
  generalize (calculateHitEV (Some (playerTotal situation)) dealerValue
                (isSoft situation) 0).
  generalize (calculateDoubleEV (Some (playerTotal situation)) dealerValue
                (isSoft situation)).
  intros qd qh qs.
  assert (~ (canSplit situation = true /\
             exists c0 c1,
               playerHand situation = [c0; c1] /\ rank c0 = rank c1) ->
          canSplit situation && isPair (playerHand situation) = false)
    as HpOff.
  { intros Hno.
    destruct (canSplit situation) eqn:Ec; [|done].
    destruct (isPair (playerHand situation)) eqn:Ep; [|done].
    exfalso. apply Hno. split; [done|]. by apply isPair_spec. }
  set (pair := canSplit situation && isPair (playerHand situation)) in *.
  clearbody pair.
  set (sp := match playerHand situation !! 0%nat with
             | Some c0 => JSNum.Fin (calculateSplitEV (rank c0) dealerValue)
             | None => JSNum.NegInf
             end).
  assert (sp = JSNum.NegInf \/ exists q, sp = JSNum.Fin q) as Hsp.
  { subst sp. destruct (playerHand situation !! 0%nat); eauto. }
  clearbody sp.
  destruct learningAdjustment as [| | |adj].
  4:{ (* a finite adjustment *)
    set (d := JSNum.add (if canDouble situation then _ else _) _).
    set (p := JSNum.add (if pair then _ else _) _).
    assert (d = JSNum.NegInf \/ exists q, d = JSNum.Fin q) as Hd.
    { subst d. destruct (canDouble situation); simpl; eauto. }
    assert (p = JSNum.NegInf \/ exists q, p = JSNum.Fin q) as Hp.
    { subst p. destruct pair; simpl; eauto.
      destruct Hsp as [->|[q ->]]; simpl; eauto. }
    assert (canDouble situation = false -> d = JSNum.NegInf) as HdOff.
    { intros E. subst d. by rewrite E. }
    assert (pair = false -> p = JSNum.NegInf) as HpOff'.
    { intros E. subst p. by rewrite E. }
    clearbody d p.
    cbn [map].
    set (s' := applyCountModifier m {| act := stand; ev := _ |}).
    set (h' := applyCountModifier m {| act := hit; ev := _ |}).
    assert (exists q, s' = {| act := stand; ev := JSNum.Fin q |}) as [q1 ->].
    { subst s'. unfold applyCountModifier. simpl.
      destruct (Qltb 0 m); simpl; eauto. }
    assert (exists q, h' = {| act := hit; ev := JSNum.Fin q |}) as [q2 ->].
    { subst h'. unfold applyCountModifier. simpl.
      destruct (Qltb m 0); simpl; eauto. }
    change (applyCountModifier m {| act := double; ev := d |})
      with {| act := double; ev := d |}.
    change (applyCountModifier m {| act := split; ev := p |})
      with {| act := split; ev := p |}.
    destruct (sort_best_available q1 q2 d p Hd Hp)
      as (best & second & rest & -> & Hbd & Hbp).
    cbn [action]. split.
    - intros E. apply Hbd, HdOff, E.
    - intros Hno. apply Hbp, HpOff', HpOff, Hno. }
  (* an adjustment that is not finite makes all comparisons [NaN]: the
     array stays in its order, with [stand] in front *)
  all: destruct Hsp as [->|[q ->]];
    destruct (canDouble situation), pair;
    unfold applyCountModifier, sort, byDescendingEV;
    cbn -[Qltb Qabs Qmult];
    destruct (Qltb 0 m), (Qltb m 0); cbn -[Qltb Qabs Qmult];
    split; intros; discriminate.
Qed.

Lemma getDecision_available_witness :
  let kq :=
    {| playerHand :=
         [ {| suit := hearts; rank := "K" |};
           {| suit := spades; rank := "Q" |} ];
       playerTotal := 20; isSoft := false;
       dealerUpcard := {| suit := clubs; rank := "7" |};
       trueCount := 0; chipStack := 1000 # 1; currentRank := 1;
       handsRemaining := 5; canDouble := false; canSplit := true |} in
  action (getDecision defaultConfig (CardCounter.new true) kq (JSNum.Fin 0))
    <> double /\
  action (getDecision defaultConfig (CardCounter.new true) kq (JSNum.Fin 0))
    <> split.
Proof.
  intros kq.
  destruct (getDecision_available defaultConfig (CardCounter.new true) kq
              (JSNum.Fin 0)) as [Hd Hs].
  split.
  - apply Hd. reflexivity.
  - apply Hs. intros (_ & c0 & c1 & E & Hr).
    injection E as <- <-. discriminate Hr.
Defined.

(** The decision on that hand: stand, with full confidence. *)
Example getDecision_kq20 :
  let d :=
    getDecision defaultConfig (CardCounter.new true)
      {| playerHand :=
           [ {| suit := hearts; rank := "K" |};
             {| suit := spades; rank := "Q" |} ];
         playerTotal := 20; isSoft := false;
         dealerUpcard := {| suit := clubs; rank := "7" |};
         trueCount := 0; chipStack := 1000 # 1; currentRank := 1;
         handsRemaining := 5; canDouble := false; canSplit := true |}
      (JSNum.Fin 0) in
  action d = stand /\ confidence d = JSNum.Fin 1.
Proof. split; vm_compute; reflexivity. Qed.

End Eligibility.

(** ** The experience tracker: the learned adjustment *)

Section LearnedAdjustment.

Import Num ExperienceTracker.

(** A recorded hand matches a situation when it has the same player
    total, the same rank of the dealer's upcard and the same action. *)
Definition matchesSituation (playerTotal : Z) (dealerUpcardRank : string)
  (action : string) (e : GameExperience) : Prop :=
  expPlayerTotal e = playerTotal /\
  rank (expDealerUpcard e) = dealerUpcardRank /\
  actionName (actionTaken e) = action.

#[local] Instance matchesSituation_dec playerTotal dealerUpcardRank action e :
  Decision (matchesSituation playerTotal dealerUpcardRank action e).
Proof. unfold matchesSituation. apply _. Defined.

(** The sum and the average of the chips won over a list of hands. *)
Definition totalChipsWon (es : list GameExperience) : Q :=
  foldr (fun e acc => (chipsWon e + acc)%Q) 0%Q es.

Definition averageChipsWon (es : list GameExperience) : Q :=
  (totalChipsWon es / inject_Z (Z.of_nat (length es)))%Q.

(** [x] clamped to the interval from [lo] to [hi]. *)
Definition clamp (lo hi x : Q) : Q :=
  if Qlt_le_dec x lo then lo
  else if Qlt_le_dec hi x then hi
  else x.

Lemma fold_left_chips (es : list GameExperience) (acc : Q) :
  (fold_left (fun sum e => sum + chipsWon e) es acc == acc + totalChipsWon es)%Q.
Proof.
  revert acc. induction es as [|e es IH]; intros acc; simpl.
  - lra.
  - rewrite IH. lra.
Qed.

Lemma clamp_Math lo hi x x' :
  (lo <= hi)%Q -> (x == x')%Q ->
  (Math_max lo (Math_min hi x) == clamp lo hi x')%Q.
Proof.
  intros Hlh Hx. unfold clamp.
  destruct (Math_min_spec hi x) as [[H1 ->]|[H1 ->]];
    [destruct (Math_max_spec lo hi) as [[H2 ->]|[H2 ->]]
    |destruct (Math_max_spec lo x) as [[H2 ->]|[H2 ->]]];
    destruct (Qlt_le_dec x' lo); try destruct (Qlt_le_dec hi x'); lra.
Qed.

Lemma clamp_bounds lo hi x :
  (lo <= hi)%Q -> (lo <= clamp lo hi x <= hi)%Q.
Proof.
  intros Hlh. unfold clamp.
  destruct (Qlt_le_dec x lo); [lra|].
  destruct (Qlt_le_dec hi x); lra.
Qed.

Lemma relevant_filter st playerTotal dealerUpcardRank action :
  filter
    (fun e =>
       (expPlayerTotal e =? playerTotal) &&
       String.eqb (rank (expDealerUpcard e)) dealerUpcardRank &&
       String.eqb (actionName (actionTaken e)) action = true)
    (experiences st) =
  filter (matchesSituation playerTotal dealerUpcardRank action)
    (experiences st).
Proof.
  apply list_filter_iff. intros e. unfold matchesSituation.
  rewrite !andb_true_iff, Z.eqb_eq, !String.eqb_eq. tauto.
Qed.

(** C5. With fewer than 5 recorded hands matching (player total, dealer
    upcard rank, action), [getLearnedEVAdjustment] is exactly 0; with 5 or
    more it is the average of their [chipsWon] divided by 100, clamped to
    the interval from -0.2 to 0.2. *)
Theorem getLearnedEVAdjustment_spec (st : t) (playerTotal : Z)
  (dealerUpcardRank action : string) :
  let matching :=
    filter (matchesSituation playerTotal dealerUpcardRank action)
      (experiences st) in
  let adjustment :=
    getLearnedEVAdjustment st playerTotal dealerUpcardRank action in
  ((length matching < 5)%nat -> adjustment = 0%Q) /\
  ((5 <= length matching)%nat ->
   (adjustment ==
    clamp (- (2 # 10)) (2 # 10) (averageChipsWon matching / (100 # 1)))%Q /\
   (- (2 # 10) <= adjustment <= 2 # 10)%Q).
Proof.
  intros matching adjustment. subst adjustment.
  unfold getLearnedEVAdjustment. rewrite relevant_filter.
  fold matching. split.
  - intros Hn. by assert ((length matching <? 5)%nat = true) as ->
      by (apply Nat.ltb_lt; lia).
  - intros Hn.
    assert ((length matching <? 5)%nat = false) as ->
      by (apply Nat.ltb_ge; lia).
    assert (Math_max (- (2 # 10))
              (Math_min (2 # 10)
                 (fold_left (fun sum e => sum + chipsWon e) matching 0 /
                  ofZ (Z.of_nat (length matching)) / (100 # 1))) ==
            clamp (- (2 # 10)) (2 # 10)
              (averageChipsWon matching / (100 # 1)))%Q as E.
    { apply clamp_Math; [lra|].
      unfold averageChipsWon, ofZ. rewrite fold_left_chips.
      apply Qdiv_comp; [|reflexivity]. apply Qdiv_comp; [lra|reflexivity]. }
    split; [exact E|]. rewrite E. apply clamp_bounds. lra.
Qed.

(** Five hits on 16 against a 7 that won 50, -50, 25, 25 and 100 chips:
    the average of 30 gives 0.3, clamped to 0.2. *)
Definition hitOn16 (n : Z) (won : Q) : GameExperience :=
  {| sessionId := "s1"; handNumber := n; expPlayerHand := [];
     expPlayerTotal := 16;
     expDealerUpcard := {| suit := clubs; rank := "7" |};
     expTrueCount := 0; expChipStack := 1000 # 1; actionTaken := hit;
     expBetSize := 25 # 1; handResult := if Qle_bool 0 won then win else loss;
     chipsWon := won; timestamp := n; opponentWallets := [] |}.

Definition fiveHits : t :=
  {| experiences :=
       [hitOn16 1 (50 # 1); hitOn16 2 (- (50 # 1)); hitOn16 3 (25 # 1);
        hitOn16 4 (25 # 1); hitOn16 5 (100 # 1)];
     sessions := [] |}.

Lemma getLearnedEVAdjustment_spec_witness :
  getLearnedEVAdjustment (new None None) 16 "7" "hit" = 0%Q /\
  (getLearnedEVAdjustment fiveHits 16 "7" "hit" == 2 # 10)%Q.
Proof.
  split.
  - apply (getLearnedEVAdjustment_spec (new None None) 16 "7" "hit").
    vm_compute. lia.
  - destruct (getLearnedEVAdjustment_spec fiveHits 16 "7" "hit") as [_ H].
    destruct H as [H _]; [vm_compute; lia|].
    rewrite H. vm_compute. reflexivity.
Defined.

End LearnedAdjustment.

(** ** Opponent profiles: scores and weaknesses *)

Section ProfileFacts.

Import Num OpponentProfiler.

Lemma elem_of_pushIf (x tag : string) (cond : bool) (tags : list string) :
  x ∈ pushIf cond tag tags <-> x ∈ tags \/ (cond = true /\ x = tag).
Proof.
  unfold pushIf. destruct cond.
  - rewrite elem_of_app, list_elem_of_singleton. tauto.
  - split; [tauto|]. intros [H|[H _]]; [done|discriminate].
Qed.

(** The tags of [identifyWeaknesses] depend on the statistics and the
    patterns only: whatever tags the profile carried are dropped. *)
Lemma identifyWeaknesses_recomputes profile tags :
  weaknesses (identifyWeaknesses (withWeaknesses profile tags)) =
  weaknesses (identifyWeaknesses profile).
Proof. reflexivity. Qed.

Lemma identifyWeaknesses_splits_tens profile :
  "splits_tens" ∈ weaknesses (identifyWeaknesses profile) <->
  (5 # 100 < split10s (patterns profile))%Q.
Proof.
  unfold identifyWeaknesses. cbn [weaknesses withWeaknesses].
  rewrite !elem_of_pushIf, elem_of_nil.
  unfold Qgtb. rewrite <- Qltb_lt.
  split; [|tauto].
  intros [[[[[[[]|[_ ?]]|[_ ?]]|[_ ?]]|[? _]]|[_ ?]]|[_ ?]];
    try discriminate; done.
Qed.

Lemma identifyWeaknesses_patterns profile :
  patterns (identifyWeaknesses profile) = patterns profile.
Proof. reflexivity. Qed.

Lemma calculateScores_patterns profile :
  patterns (calculateScores profile) = patterns profile.
Proof. reflexivity. Qed.

Lemma updateStats_patterns profile sessionData :
  patterns (updateStats profile sessionData) = patterns profile.
Proof. reflexivity. Qed.

(** The profile on which an update works: the stored one, or a new one. *)
Definition profileBefore (now : Z) (wallet : string)
  (profiles : gmap string OpponentProfile) : OpponentProfile :=
  default (createNewProfile now wallet) (profiles !! wallet).

(** A hand observation adjusts a frequency and leaves the tags alone: they
    follow at the next update of the profile. *)
Lemma updateWithHandObservation_weaknesses wallet observation
  (profiles : gmap string OpponentProfile) :
  weaknesses <$> updateWithHandObservation wallet observation profiles !! wallet
  = weaknesses <$> profiles !! wallet.
Proof.
  unfold updateWithHandObservation.
  destruct (profiles !! wallet) as [profile|] eqn:E; [|by rewrite E].
  repeat case_match; rewrite ?lookup_insert_eq, ?E; reflexivity.
Qed.

(** The session update recomputes.  After every session update of a
    profile ([updateProfile]) its set of weaknesses contains ["splits_tens"]
    exactly when its split-tens frequency is above 0.05 at that point: the
    update leaves the frequency as it found it and builds the set anew, so
    a tag that the stored profile carried does not survive a frequency of
    0.05 or less, and a missing one appears above it.  A hand observation
    ([updateWithHandObservation]) changes a frequency and not the tags. *)
Theorem updateProfile_splits_tens (now : Z) (wallet : string)
  (sessionData : OpponentSessionData) (bobRank : Z)
  (observation : Observation)
  (profiles : gmap string OpponentProfile) :
  (exists profile,
     updateProfile now wallet sessionData bobRank profiles !! wallet =
       Some profile /\
     ("splits_tens" ∈ weaknesses profile <->
      (5 # 100 < split10s (patterns profile))%Q) /\
     patterns profile = patterns (profileBefore now wallet profiles) /\
     forall tags,
       updateProfile now wallet sessionData bobRank
         (<[wallet := withWeaknesses (profileBefore now wallet profiles) tags]>
            profiles) !! wallet = Some profile) /\
  weaknesses <$> updateWithHandObservation wallet observation profiles !! wallet
  = weaknesses <$> profiles !! wallet.
Proof.
  split; [|apply updateWithHandObservation_weaknesses].
  unfold updateProfile, profileBefore.
  match goal with
  | |- context [<[wallet := identifyWeaknesses ?x]> profiles] => set (p := x)
  end.
  exists (identifyWeaknesses p).
  split; [apply lookup_insert_eq|].
  split; [exact (identifyWeaknesses_splits_tens p)|].
  split.
  - subst p. cbn. by destruct (profiles !! wallet).
  - intros tags. rewrite !lookup_insert_eq. subst p.
    by destruct (profiles !! wallet).
Qed.

(** The data of an ordinary session: 25 chips a hand, one double in nine
    actions, no split. *)
Definition ordinarySession : OpponentSessionData :=
  {| osdWalletAddress := "opp"; osdFinalRank := 2;
     osdFinalChips := 900 # 1; osdHandsWon := 4;
     osdAvgBetSize := 25 # 1; totalHits := 4; totalStands := 4;
     totalDoubles := 1; totalSplits := 0 |}.

(** C9 fails after a hand observation.  An opponent met in one session and
    then seen splitting tens has a split-tens frequency of 1, above 0.05,
    and its set of weaknesses is still the one the session update computed,
    without ["splits_tens"]: [updateWithHandObservation], the one operation
    that moves the frequency, does not call [identifyWeaknesses].  The
    session update does, and the tag appears at the next one. *)
Theorem splits_tens_missing_after_observation :
  let met := updateProfile 1 "opp" ordinarySession 1 ∅ in
  let seen :=
    updateWithHandObservation "opp"
      {| situation := "TT"; obsAction := "split" |} met in
  let next := updateProfile 2 "opp" ordinarySession 1 seen in
  (exists profile,
     seen !! "opp" = Some profile /\
     (split10s (patterns profile) == 1)%Q /\
     (5 # 100 < split10s (patterns profile))%Q /\
     weaknesses profile =
       ["overly_conservative"; "misses_double_opportunities"] /\
     "splits_tens" ∉ weaknesses profile) /\
  (exists profile,
     next !! "opp" = Some profile /\
     (split10s (patterns profile) == 1)%Q /\
     "splits_tens" ∈ weaknesses profile).
Proof.
  cbv zeta. split.
  - eexists. split; [vm_compute; reflexivity|].
    split; [vm_compute; reflexivity|].
    split; [vm_compute; reflexivity|].
    split; [vm_compute; reflexivity|].
    cbn. intros H. apply list_elem_of_In in H. simpl in H.
    intuition discriminate.
  - destruct (updateProfile_splits_tens 2 "opp" ordinarySession 1
                {| situation := "TT"; obsAction := "split" |}
                (updateWithHandObservation "opp"
                   {| situation := "TT"; obsAction := "split" |}
                   (updateProfile 1 "opp" ordinarySession 1 ∅)))
      as ((profile & Hp & Htag & Hpat & _) & _).
    exists profile. split; [exact Hp|].
    assert (split10s (patterns profile) == 1)%Q as E.
    { rewrite Hpat. vm_compute. reflexivity. }
    split; [exact E|]. apply Htag. rewrite E. reflexivity.
Qed.

(** The scenario: a profile whose stored frequency is 0.1 gains the tag at
    its next update, and a profile that carries the tag with a frequency of
    0.05 loses it. *)
Definition sessionOf (wallet : string) (bet : Q) (doubles others : Z)
  : OpponentSessionData :=
  {| osdWalletAddress := wallet; osdFinalRank := 2; osdFinalChips := 900 # 1;
     osdHandsWon := 4; osdAvgBetSize := bet; totalHits := others;
     totalStands := others; totalDoubles := doubles; totalSplits := 0 |}.

Definition withSplit10s (profile : OpponentProfile) (frequency : Q)
  : OpponentProfile :=
  let p := patterns profile in
  withPatterns profile
    {| hitOn16VsDealer7 := hitOn16VsDealer7 p;
       standOn12VsDealer2 := standOn12VsDealer2 p;
       doubleOn11 := doubleOn11 p; splitAces := splitAces p;
       split10s := frequency;
       increaseBetAfterWin := increaseBetAfterWin p;
       increaseBetAfterLoss := increaseBetAfterLoss p;
       averageRiskLevel := averageRiskLevel p |}.

Example splits_tens_added_and_dropped :
  let fresh := createNewProfile 0 "opp" in
  let above := {["opp" := withSplit10s fresh (10 # 100)]} : gmap _ _ in
  let stale :=
    {["opp" :=
        withWeaknesses (withSplit10s fresh (5 # 100)) ["splits_tens"]]}
    : gmap _ _ in
  (weaknesses <$> updateProfile 1 "opp" (sessionOf "opp" (25 # 1) 1 4) 1 above
                    !! "opp") =
    Some ["overly_conservative"; "poor_strategy"; "splits_tens";
          "misses_double_opportunities"] /\
  (weaknesses <$> updateProfile 1 "opp" (sessionOf "opp" (25 # 1) 1 4) 1 stale
                    !! "opp") =
    Some ["overly_conservative"; "misses_double_opportunities"].
Proof. split; vm_compute; reflexivity. Qed.

(** [skillScore] and [consistencyScore] stay between 0 and 1. *)
Lemma calculateScores_skill_consistency profile :
  let s := stats (calculateScores profile) in
  (0 <= skillScore s <= 1)%Q /\ (consistencyScore s == 7 # 10)%Q.
Proof.
  cbn. split; [|reflexivity].
  match goal with |- context [Math_min 1 ?x] => generalize x end.
  intros x.
  destruct (Math_min_spec 1 x) as [[H1 ->]|[H1 ->]];
    [destruct (Math_max_spec 0 1) as [[H2 ->]|[H2 ->]]
    |destruct (Math_max_spec 0 x) as [[H2 ->]|[H2 ->]]]; lra.
Qed.

(** An opponent who bets 100 chips on average and doubles on every hand,
    met in two sessions. *)
Definition doublesEveryHand : OpponentSessionData := sessionOf "opp" (100 # 1) 10 0.

Definition afterTwoSessions : gmap string OpponentProfile :=
  updateProfile 2 "opp" doublesEveryHand 1
    (updateProfile 1 "opp" doublesEveryHand 1 ∅).

(** C4 fails for the aggression score.  After the two sessions the
    opponent's average bet is 200/3 and its double frequency 2/3, and the
    aggression score is (8/9 + 4/3) / 2 = 10/9, above 1; the skill and
    consistency scores are within bounds. *)
Theorem aggressionScore_exceeds_one :
  exists profile,
    afterTwoSessions !! "opp" = Some profile /\
    (aggressionScore (stats profile) == 10 # 9)%Q /\
    (1 < aggressionScore (stats profile))%Q /\
    (0 <= skillScore (stats profile) <= 1)%Q /\
    (0 <= consistencyScore (stats profile) <= 1)%Q.
Proof.
  eexists. split; [vm_compute; reflexivity|].
  repeat split; vm_compute; congruence.
Qed.

End ProfileFacts.

(** ** The learning coordinator: wagers against known opponents *)

Section OpponentAdjustment.

Import Num LearningCoordinator.

(** The profiles the coordinator has of the opponents at the table. *)
Definition knownOpponents (c : Coordinator) (opponentWallets : list string)
  : list OpponentProfile :=
  omap (fun w => OpponentProfiler.getProfile w (profiler c)) opponentWallets.

Definition avgSkill (opponents : list OpponentProfile) : Q :=
  average (fun o => skillScore (stats o)) opponents.

Definition avgAggression (opponents : list OpponentProfile) : Q :=
  average (fun o => aggressionScore (stats o)) opponents.

Lemma knownOpponents_nonempty c opponentWallets :
  knownOpponents c opponentWallets <> [] ->
  (length opponentWallets =? 0)%nat = false /\
  (length (knownOpponents c opponentWallets) =? 0)%nat = false.
Proof.
  intros Hne. split; apply Nat.eqb_neq.
  - destruct opponentWallets; [done|simpl; lia].
  - destruct (knownOpponents c opponentWallets); [done|simpl; lia].
Qed.

(** What the function does against weak opponents: the wager is multiplied
    by 1.2 and capped at the constant 100. *)
Lemma adjustDecisionForOpponent_weak c decision opponentWallets bet :
  enabled c = true ->
  knownOpponents c opponentWallets <> [] ->
  betSize decision = Some bet -> ~ (bet == 0)%Q ->
  (avgSkill (knownOpponents c opponentWallets) < 4 # 10)%Q ->
  betSize (adjustDecisionForOpponent c decision opponentWallets) =
    Some (Math_min (bet * (12 # 10)) (100 # 1)).
Proof.
  intros Hen Hne Hbet Hnz Hskill. unfold adjustDecisionForOpponent.
  destruct (knownOpponents_nonempty c opponentWallets Hne) as [-> E].
  fold (knownOpponents c opponentWallets). rewrite Hen, E. cbn [negb orb].
  fold (avgSkill (knownOpponents c opponentWallets)).
  apply Qltb_lt in Hskill. rewrite Hskill, Hbet. cbn [truthy default].
  destruct (Qeq_bool bet 0) eqn:Ez; [by apply Qeq_bool_iff in Ez|].
  reflexivity.
Qed.

(** Against aggressive opponents, when the weak-opponent rule does not
    apply, a wager that is present and not zero is left as it is. *)
Lemma adjustDecisionForOpponent_aggressive c decision opponentWallets bet :
  enabled c = true ->
  knownOpponents c opponentWallets <> [] ->
  betSize decision = Some bet -> ~ (bet == 0)%Q ->
  (4 # 10 <= avgSkill (knownOpponents c opponentWallets))%Q ->
  (7 # 10 < avgAggression (knownOpponents c opponentWallets))%Q ->
  betSize (adjustDecisionForOpponent c decision opponentWallets) = Some bet.
Proof.
  intros Hen Hne Hbet Hnz Hskill Hagg. unfold adjustDecisionForOpponent.
  destruct (knownOpponents_nonempty c opponentWallets Hne) as [-> E].
  fold (knownOpponents c opponentWallets). rewrite Hen, E. cbn [negb orb].
  fold (avgSkill (knownOpponents c opponentWallets)).
  fold (avgAggression (knownOpponents c opponentWallets)).
  apply Qltb_ge in Hskill. rewrite Hskill, andb_false_r.
  unfold Qgtb. apply Qltb_lt in Hagg. rewrite Hagg, Hbet. cbn [truthy default].
  destruct (Qeq_bool bet 0) eqn:Ez; [by apply Qeq_bool_iff in Ez|].
  reflexivity.
Qed.

(** A table whose maximum bet is configured as 200. *)
Definition config200 : Config := {|
  botEnabled := true;
  cardCountingEnabled := true;
  learningEnabled := true;
  minBet := 25 # 1;
  maxBet := 200 # 1;
  countThresholdBetIncrease := 2 # 1
|}.

(** A counter at a true count of 5.5: forty fives seen, 376 cards left. *)
Definition fortyFives : CardCounter.t :=
  CardCounter.observeAll (replicate 40 {| suit := hearts; rank := "5" |})
    (CardCounter.new true).

(** An opponent seen splitting tens, met in two sessions: its skill score
    is 0.1. *)
Definition tenSplitter : gmap string OpponentProfile :=
  OpponentProfiler.updateProfile 2 "opp" (sessionOf "opp" (25 # 1) 1 4) 1
    (OpponentProfiler.updateWithHandObservation "opp"
       {| OpponentProfiler.situation := "TT";
          OpponentProfiler.obsAction := "split" |}
       (OpponentProfiler.updateProfile 1 "opp" (sessionOf "opp" (25 # 1) 1 4)
          1 ∅)).

Definition againstTenSplitter : Coordinator :=
  {| profiler := tenSplitter;
     tracker := ExperienceTracker.new None None;
     memory := MemoryManager.createEmptyMemory config200 0;
     enabled := true;
     currentSessionId := Some "s1";
     currentSessionHandCount := 0 |}.

Definition maxBetDecision : BotDecision :=
  {| action := stand; confidence := JSNum.Fin 1;
     expectedValue := JSNum.Fin (7746 # 10000);
     betSize := Some (CardCounter.getBet config200 fortyFives (1000 # 1)) |}.

(** C7 fails when the table maximum is not 100.  With a configured
    maximum of 200 the counter recommends 200 at a true count of 5.5;
    against the weak opponent the wager should become
    min(200 * 1.2, 200) = 200, and the function returns 100: the cap is the
    constant 100, not the configured maximum. *)
Theorem adjustDecisionForOpponent_caps_at_100 :
  exists bet adjusted,
    betSize maxBetDecision = Some bet /\ (bet == 200 # 1)%Q /\
    (avgSkill (knownOpponents againstTenSplitter ["opp"]) < 4 # 10)%Q /\
    betSize (adjustDecisionForOpponent againstTenSplitter maxBetDecision
               ["opp"]) = Some adjusted /\
    (adjusted == 100 # 1)%Q /\
    (Math_min (bet * (12 # 10)) (maxBet config200) == 200 # 1)%Q /\
    (adjusted < bet)%Q.
Proof.
  do 2 eexists.
  split; [vm_compute; reflexivity|].
  split; [vm_compute; reflexivity|].
  split; [vm_compute; reflexivity|].
  split; [vm_compute; reflexivity|].
  repeat split; vm_compute; congruence.
Qed.

End OpponentAdjustment.

(** ** Persistence failures *)

Section Persistence.

Import LearningCoordinator.

(** The error with which [save] is going to end, if any: that of [mkdir],
    unless it says that the directory exists, else that of the write. *)
Definition saveFault (files : FileSystem) : option Error :=
  match mkdirFault files with
  | Some AlreadyExists | None => writeFault files
  | Some e => Some e
  end.

(** What [load] is going to find: the parsed content of the file, if it can
    be read and parsed. *)
Definition loadable (files : FileSystem) : option SerializedMemory :=
  match readFault files with
  | Some _ => None
  | None =>
      match memoryFile files with
      | Some (Json loaded) => Some loaded
      | _ => None
      end
  end.

(** Whether reading is going to end with [NotFound]: the file is not
    there. *)
Definition fileMissing (files : FileSystem) : bool :=
  match readFault files with
  | Some NotFound => true
  | Some _ => false
  | None =>
      match memoryFile files with
      | None => true
      | Some _ => false
      end
  end.

Definition logged (lvl : LogLevel) (msg : string) : LogEntry :=
  {| level := lvl; message := msg |}.

Lemma fileMissing_loadable (files : FileSystem) :
  fileMissing files = true -> loadable files = None.
Proof.
  unfold fileMissing, loadable.
  destruct (readFault files); [done|].
  by destruct (memoryFile files) as [[]|].
Qed.

Lemma load_cases (s : System) :
  exists m s' entry,
    MemoryManager.load s = (Ok m, s') /\
    m = memory (coordinator s') /\
    fs (world s') = fs (world s) /\
    log (world s') = log (world s) ++ [entry] /\
    match loadable (fs (world s)) with
    | Some loaded =>
        m = MemoryManager.hydrate loaded /\
        entry = logged info "[MemoryManager] Loaded memory"
    | None =>
        coordinator s' = coordinator s /\
        entry =
          if fileMissing (fs (world s)) then
            logged info
              "[MemoryManager] No existing memory found, starting fresh"
          else logged error "[MemoryManager] Error loading memory:"
    end.
Proof.
  unfold loadable, fileMissing, MemoryManager.load, Eff.tryCatch, mbind,
    eff_bind, Eff.bind, readTextFile.
  destruct (readFault (fs (world s))) as [e|] eqn:Erd.
  { destruct e; cbn; do 3 eexists; repeat split; reflexivity. }
  destruct (memoryFile (fs (world s))) as [[|loaded]|] eqn:Efile; cbn;
    do 3 eexists; repeat split; reflexivity.
Qed.

Lemma save_fails (s : System) (e : Error) :
  saveFault (fs (world s)) = Some e ->
  exists s',
    MemoryManager.save s = (Throw e, s') /\
    coordinator s' = coordinator s /\
    now (world s') = now (world s) /\
    readFault (fs (world s')) = readFault (fs (world s)) /\
    mkdirFault (fs (world s')) = mkdirFault (fs (world s)) /\
    writeFault (fs (world s')) = writeFault (fs (world s)) /\
    leftByFailedWrite (fs (world s')) = leftByFailedWrite (fs (world s)) /\
    memoryFile (fs (world s')) =
      match mkdirFault (fs (world s)) with
      | Some AlreadyExists | None => leftByFailedWrite (fs (world s))
      | Some _ => memoryFile (fs (world s))
      end /\
    log (world s') =
      log (world s) ++ [logged error "[MemoryManager] Error saving memory:"].
Proof.
  unfold saveFault, MemoryManager.save, MemoryManager.ensureDataDirectory,
    Eff.tryCatch, mbind, eff_bind, Eff.bind, mkdir, writeTextFile.
  destruct (mkdirFault (fs (world s))) as [[]|] eqn:Emk; cbn;
    intros Hfault; rewrite ?Hfault; try injection Hfault as <-; cbn;
    eexists; repeat split; try reflexivity; by rewrite ?Emk.
Qed.

Lemma handleSessionCompletion_returns config results (s : System) :
  exists s', GameClient.handleSessionCompletion config results s = (Ok tt, s').
Proof.
  unfold GameClient.handleSessionCompletion, Eff.tryCatch.
  match goal with |- context [match ?body s with _ => _ end] =>
    destruct (body s) as [[[]|e] s'] end; cbn; eauto.
Qed.

Lemma recordSession_save_failure sessionResult bobRank (s : System) e :
  enabled (coordinator s) = true ->
  saveFault (fs (world s)) = Some e ->
  exists s',
    recordSession sessionResult bobRank s = (Throw e, s') /\
    ExperienceTracker.sessions (tracker (coordinator s')) =
      pushCapped ExperienceTracker.maxSessions
        (ExperienceTracker.sessions (tracker (coordinator s))) sessionResult /\
    recentSessions (memory (coordinator s')) =
      ExperienceTracker.sessions (tracker (coordinator s')) /\
    opponentProfiles (memory (coordinator s')) = profiler (coordinator s') /\
    totalSessionsPlayed (memory (coordinator s')) =
      totalSessionsPlayed (memory (coordinator s)) + 1 /\
    currentSessionId (coordinator s') = currentSessionId (coordinator s) /\
    currentSessionHandCount (coordinator s') =
      currentSessionHandCount (coordinator s) /\
    last (log (world s')) =
      Some (logged error "[MemoryManager] Error saving memory:").
Proof.
  intros Hen Hsave.
  unfold recordSession, save, isEnabled.
  unfold mbind at 1. unfold eff_bind, Eff.bind, Eff.gets.
  rewrite Hen. cbn [negb].
  repeat (unfold mbind at 1; unfold eff_bind, Eff.bind;
          cbn -[MemoryManager.save pushCapped
                OpponentProfiler.updateProfile]).
  match goal with |- context [MemoryManager.save ?s1] =>
    destruct (save_fails s1 e) as (s' & -> & Hc & _ & _ & _ & _ & _ & _ & Hl);
      [exact Hsave|]
  end.
  exists s'. split; [done|]. rewrite Hc, Hl.
  cbn -[pushCapped OpponentProfiler.updateProfile].
  rewrite last_snoc. done.
Qed.

Lemma handleSessionCompletion_save_failure config sessionResult
  (s : System) e :
  learningEnabled config = true ->
  enabled (coordinator s) = true ->
  saveFault (fs (world s)) = Some e ->
  exists s1 s',
    recordSession sessionResult (finalRank sessionResult)
      (logger info "[GameClient] Final Result" s).2 = (Throw e, s1) /\
    GameClient.handleSessionCompletion config (Some sessionResult) s =
      (Ok tt, s') /\
    coordinator s' = coordinator s1 /\
    fs (world s') = fs (world s1) /\
    log (world s') =
      log (world s1) ++
      [logged error "[GameClient] Error handling session completion:"].
Proof.
  intros Hlearn Hen Hsave.
  destruct (recordSession_save_failure sessionResult (finalRank sessionResult)
              (logger info "[GameClient] Final Result" s).2 e Hen Hsave)
    as (s1 & E & _).
  exists s1. eexists. split; [exact E|].
  unfold GameClient.handleSessionCompletion, Eff.tryCatch.
  rewrite Hlearn.
  unfold mbind at 1. unfold eff_bind, Eff.bind.
  change (logger info "[GameClient] Final Result" s)
    with (Ok tt, (logger info "[GameClient] Final Result" s).2).
  unfold mbind at 1. unfold eff_bind, Eff.bind. rewrite E.
  cbn. repeat split; reflexivity.
Qed.

(** A first run on a disk that cannot be written: there is no memory
    file, and every write fails, leaving an empty file. *)
Definition diskFull : System :=
  {| coordinator := LearningCoordinator.new defaultConfig 0;
     world :=
       {| fs :=
            {| memoryFile := None; readFault := None; mkdirFault := None;
               writeFault := Some (OtherError "disk full");
               leftByFailedWrite := Some Unparsable |};
          log := [];
          now := 0 |} |}.

Definition firstSession : SessionResult :=
  {| srSessionId := "s1"; finalRank := 1; totalPlayers := 2;
     finalChips := 1150 # 1; handsPlayed := 10; handsWon := 6;
     totalWagered := 250 # 1; netProfit := 150 # 1; payout := 75 # 1000;
     opponents := [sessionOf "opp" (25 # 1) 0 0]; completedAt := 0 |}.

(** C6, as stated, fails for writes: [recordSession] ends with the error
    of the failed write. *)
Lemma recordSession_raises_write_failure :
  fst (recordSession firstSession 1 diskFull) =
    Throw (OtherError "disk full").
Proof. vm_compute. reflexivity. Qed.

(** C6, as the code has it.  Loading never raises and writes one line to
    the log: when the file cannot be read or parsed it returns the memory
    the manager already holds, which on a first run is the empty memory, and
    leaves the coordinator as it is; the line is at info level when the file
    is missing and an error otherwise.  A failure of [save] (the directory
    cannot be created or the file cannot be written) is logged as an error
    and raised again: it ends [recordSession] after the session has been
    recorded in the tracker and in the memory held by the process and before
    the session tracking is reset.  [handleSessionCompletion] never raises:
    it catches that error and logs it, and the coordinator keeps what
    [recordSession] had recorded. *)
Theorem persistence_failures (config : Config) (s : System)
  (startedAt : Z) (sessionResult : SessionResult) (bobRank : Z)
  (results : option SessionResult) (e : Error) :
  (exists m s' entry,
     MemoryManager.load s = (Ok m, s') /\
     m = memory (coordinator s') /\
     fs (world s') = fs (world s) /\
     log (world s') = log (world s) ++ [entry] /\
     match loadable (fs (world s)) with
     | Some loaded =>
         m = MemoryManager.hydrate loaded /\
         entry = logged info "[MemoryManager] Loaded memory"
     | None =>
         m = memory (coordinator s) /\
         coordinator s' = coordinator s /\
         entry =
           if fileMissing (fs (world s)) then
             logged info
               "[MemoryManager] No existing memory found, starting fresh"
           else logged error "[MemoryManager] Error loading memory:"
     end) /\
  (coordinator s = LearningCoordinator.new config startedAt ->
   fileMissing (fs (world s)) = true ->
   exists s',
     MemoryManager.load s =
       (Ok (MemoryManager.createEmptyMemory config startedAt), s')) /\
  (enabled (coordinator s) = true ->
   saveFault (fs (world s)) = Some e ->
   exists s',
     recordSession sessionResult bobRank s = (Throw e, s') /\
     ExperienceTracker.sessions (tracker (coordinator s')) =
       pushCapped ExperienceTracker.maxSessions
         (ExperienceTracker.sessions (tracker (coordinator s)))
         sessionResult /\
     recentSessions (memory (coordinator s')) =
       ExperienceTracker.sessions (tracker (coordinator s')) /\
     opponentProfiles (memory (coordinator s')) = profiler (coordinator s') /\
     totalSessionsPlayed (memory (coordinator s')) =
       totalSessionsPlayed (memory (coordinator s)) + 1 /\
     currentSessionId (coordinator s') = currentSessionId (coordinator s) /\
     currentSessionHandCount (coordinator s') =
       currentSessionHandCount (coordinator s) /\
     last (log (world s')) =
       Some (logged error "[MemoryManager] Error saving memory:")) /\
  (exists s',
     GameClient.handleSessionCompletion config results s = (Ok tt, s')) /\
  (learningEnabled config = true ->
   enabled (coordinator s) = true ->
   saveFault (fs (world s)) = Some e ->
   exists s1 s',
     recordSession sessionResult (finalRank sessionResult)
       (logger info "[GameClient] Final Result" s).2 = (Throw e, s1) /\
     GameClient.handleSessionCompletion config (Some sessionResult) s =
       (Ok tt, s') /\
     coordinator s' = coordinator s1 /\
     fs (world s') = fs (world s1) /\
     log (world s') =
       log (world s1) ++
       [logged error "[GameClient] Error handling session completion:"]).
Proof.
  split; [|split; [|split; [|split]]].
  - destruct (load_cases s) as (m & s' & entry & E & Hm & Hfs & Hlog & H).
    exists m, s', entry. repeat (split; [done|]).
    destruct (loadable (fs (world s))); [done|].
    destruct H as [Hc Hentry]. split; [by rewrite Hm, Hc|done].
  - intros Hnew Hmissing.
    destruct (load_cases s) as (m & s' & entry & E & Hm & _ & _ & H).
    rewrite (fileMissing_loadable _ Hmissing) in H. destruct H as [Hc _].
    exists s'. rewrite E, Hm, Hc, Hnew. reflexivity.
  - apply recordSession_save_failure.
  - apply handleSessionCompletion_returns.
  - apply handleSessionCompletion_save_failure.
Qed.

Lemma persistence_failures_witness :
  (exists s',
     MemoryManager.load diskFull =
       (Ok (MemoryManager.createEmptyMemory defaultConfig 0), s')) /\
  (exists s',
     recordSession firstSession 1 diskFull =
       (Throw (OtherError "disk full"), s') /\
     ExperienceTracker.sessions (tracker (coordinator s')) = [firstSession]) /\
  (exists s',
     GameClient.handleSessionCompletion defaultConfig (Some firstSession)
       diskFull = (Ok tt, s') /\
     last (log (world s')) =
       Some (logged error
               "[GameClient] Error handling session completion:")).
Proof.
  destruct (persistence_failures defaultConfig diskFull 0 firstSession 1
              (Some firstSession) (OtherError "disk full"))
    as (_ & Hload & Hrecord & _ & Hhandle).
  split; [|split].
  - apply Hload; reflexivity.
  - destruct Hrecord as (s' & E & Hs & _); [reflexivity|reflexivity|].
    exists s'. split; [exact E|exact Hs].
  - destruct Hhandle as (s1 & s' & _ & E & _ & _ & Hlog);
      [reflexivity|reflexivity|reflexivity|].
    exists s'. split; [exact E|]. rewrite Hlog. apply last_snoc.
Defined.

End Persistence.

(** * Further properties *)

(** ** The card counter: counts, true count, modifier and bets *)

Section CounterBounds.

Import Num CardCounter.

Lemma hiLoWeight_range r : -1 <= hiLoWeight r <= 1.
Proof. unfold hiLoWeight. repeat case_bool_decide; lia. Qed.

Lemma step_count_bound st op :
  - cardsDealt st <= runningCount st <= cardsDealt st ->
  - cardsDealt (step st op) <= runningCount (step st op)
    <= cardsDealt (step st op).
Proof.
  intros H. destruct op as [c|]; simpl; [|lia].
  destruct (enabled st) eqn:Hen.
  - rewrite updateCount_enabled by done. simpl.
    pose proof (hiLoWeight_range (rank c)). lia.
  - by rewrite updateCount_disabled.
Qed.

(** X1. The running count never leaves the range from [-cardsDealt] to
    [cardsDealt], in any state reached from a reset counter by calls of
    [updateCount] and [reset]. *)
Theorem runningCount_within_cardsDealt (ops : list Op) (st : t) :
  let s := run ops (reset st) in
  - cardsDealt s <= runningCount s <= cardsDealt s.
Proof.
  cbv zeta. unfold run.
  assert (- cardsDealt (reset st) <= runningCount (reset st)
          <= cardsDealt (reset st)) as H by (simpl; lia).
  revert H. generalize (reset st). clear st.
  induction ops as [|op ops IH]; intros st H; [done|].
  simpl. apply IH. by apply step_count_bound.
Qed.

(** The true count is 0 whenever counting is disabled and whenever no
    card is left in the shoe ([cardsDealt] at or beyond [totalCards]). *)
Theorem getTrueCount_zero (st : t) :
  enabled st = false \/ totalCards <= cardsDealt st ->
  getTrueCount st = 0%Q.
Proof.
  intros [H|H].
  - unfold getTrueCount. by rewrite H.
  - by apply getTrueCount_exhausted.
Qed.

Lemma getTrueCount_zero_witness :
  getTrueCount
    (observeAll (replicate 416 {| suit := hearts; rank := "5" |}) (new true))
  = 0%Q /\
  getTrueCount (observeAll sixLowCards (new false)) = 0%Q.
Proof.
  split; apply getTrueCount_zero.
  - right. vm_compute. discriminate.
  - left. reflexivity.
Defined.

(** The decks that remain, and the count per remaining deck before it is
    rounded. *)
Definition decksRemaining (st : t) : Q :=
  (ofZ (totalCards - cardsDealt st) / (52 # 1))%Q.

Definition exactTrueCount (st : t) : Q :=
  (ofZ (runningCount st) / decksRemaining st)%Q.

Lemma Math_round_bounds y :
  (y - (1 # 2) < Math_round y /\ Math_round y <= y + (1 # 2))%Q.
Proof.
  unfold Math_round.
  pose proof (Qfloor_le (y + (1 # 2))) as Hle.
  pose proof (Qlt_floor (y + (1 # 2))) as Hlt.
  rewrite inject_Z_plus in Hlt. change (inject_Z 1) with 1%Q in Hlt.
  split; lra.
Qed.

Lemma Math_round_sign y :
  ((0 <= y)%Q -> (0 <= Math_round y)%Q) /\
  ((y <= 0)%Q -> (Math_round y <= 0)%Q).
Proof.
  unfold Math_round. split; intros H.
  - change 0%Q with (inject_Z 0). rewrite <- Zle_Qle.
    change 0 with (Qfloor 0). apply Qfloor_resp_le. lra.
  - change 0%Q with (inject_Z 0). rewrite <- Zle_Qle.
    change 0 with (Qfloor (1 # 2)). apply Qfloor_resp_le. lra.
Qed.

Lemma decksRemaining_pos st :
  cardsDealt st < totalCards -> (0 < decksRemaining st)%Q.
Proof.
  intros H. unfold decksRemaining, ofZ.
  apply Qlt_shift_div_l; [reflexivity|].
  ring_simplify. change 0%Q with (inject_Z 0). rewrite <- Zlt_Qlt. lia.
Qed.

Lemma getTrueCount_rounded st :
  enabled st = true -> cardsDealt st < totalCards ->
  getTrueCount st =
    (Math_round (exactTrueCount st * (10 # 1)) / (10 # 1))%Q.
Proof.
  intros Hen Hcards. unfold getTrueCount. rewrite Hen. cbn [negb].
  fold (decksRemaining st).
  pose proof (decksRemaining_pos st Hcards) as Hpos.
  destruct (Qle_bool (decksRemaining st) 0) eqn:E; [|done].
  apply Qle_bool_iff in E. lra.
Qed.

Lemma getTrueCount_sign st :
  enabled st = true -> cardsDealt st < totalCards ->
  (0 <= runningCount st -> (0 <= getTrueCount st)%Q) /\
  (runningCount st <= 0 -> (getTrueCount st <= 0)%Q).
Proof.
  intros Hen Hcards. rewrite getTrueCount_rounded by done.
  pose proof (decksRemaining_pos st Hcards) as Hpos.
  set (x := exactTrueCount st).
  assert (0 <= runningCount st -> (0 <= x)%Q) as Hx0.
  { intros H. subst x. unfold exactTrueCount.
    apply Qle_shift_div_l; [done|]. ring_simplify.
    unfold ofZ. change 0%Q with (inject_Z 0). by rewrite <- Zle_Qle. }
  assert (runningCount st <= 0 -> (x <= 0)%Q) as Hx1.
  { intros H. subst x. unfold exactTrueCount.
    apply Qle_shift_div_r; [done|]. ring_simplify.
    unfold ofZ. change 0%Q with (inject_Z 0). by rewrite <- Zle_Qle. }
  clearbody x.
  destruct (Math_round_sign (x * (10 # 1))) as [Hs0 Hs1].
  set (r := Math_round (x * (10 # 1))) in *. clearbody r.
  assert (r / (10 # 1) == r * (1 # 10))%Q as E by (field).
  rewrite E. clear E.
  split; intros H.
  - specialize (Hx0 H). specialize (Hs0 ltac:(lra)). lra.
  - specialize (Hx1 H). specialize (Hs1 ltac:(lra)). lra.
Qed.

(** The counter at a running count of 4 after 96 cards: 320 cards remain
    and the count per remaining deck is 0.65, halfway between two tenths. *)
Definition fourAfter96 : t :=
  observeAll
    (replicate 4 {| suit := hearts; rank := "5" |} ++
     replicate 92 {| suit := clubs; rank := "8" |})
    (new true).

(** X2. While cards remain and counting is enabled, the true count is a
    whole number of tenths that differs from the running count per
    remaining deck by at most 0.05, and it never has the opposite sign of
    the running count.  Which of two tenths comes out when the quotient
    lies halfway between them is left open: the program rounds a quotient
    computed in floating point, which at a running count of 4 after 96
    cards is 0.6499999999999999 and gives 0.6, where the exact 0.65 gives
    0.7.  Both are within the bound. *)
Theorem getTrueCount_accuracy (st : t) :
  enabled st = true -> cardsDealt st < totalCards ->
  (exists tenths : Z, (getTrueCount st == ofZ tenths / (10 # 1))%Q) /\
  (exactTrueCount st - (1 # 20) <= getTrueCount st /\
   getTrueCount st <= exactTrueCount st + (1 # 20))%Q /\
  (0 <= runningCount st -> (0 <= getTrueCount st)%Q) /\
  (runningCount st <= 0 -> (getTrueCount st <= 0)%Q).
Proof.
  intros Hen Hcards.
  split; [|split; [|by apply getTrueCount_sign]].
  - rewrite getTrueCount_rounded by done.
    exists (Qfloor (exactTrueCount st * (10 # 1) + (1 # 2))). reflexivity.
  - rewrite getTrueCount_rounded by done.
    destruct (Math_round_bounds (exactTrueCount st * (10 # 1))) as [Hlo Hhi].
    set (x := exactTrueCount st) in *. clearbody x.
    set (r := Math_round (x * (10 # 1))) in *. clearbody r.
    assert (r / (10 # 1) == r * (1 # 10))%Q as E by (field).
    rewrite E. clear E. split; lra.
Qed.

Lemma getTrueCount_accuracy_witness :
  (exactTrueCount fourAfter96 == 65 # 100)%Q /\
  (exists tenths : Z, (getTrueCount fourAfter96 == ofZ tenths / (10 # 1))%Q) /\
  (6 # 10 <= getTrueCount fourAfter96 <= 7 # 10)%Q.
Proof.
  assert (exactTrueCount fourAfter96 == 65 # 100)%Q as E
    by (vm_compute; reflexivity).
  destruct (getTrueCount_accuracy fourAfter96) as (Htenths & H & _).
  - reflexivity.
  - vm_compute. reflexivity.
  - split; [exact E|]. split; [exact Htenths|].
    rewrite E in H. destruct H as [Hlo Hhi]. split; lra.
Defined.

Lemma clamp_tenth z :
  (- (1 # 10) <= Math_max (- (1 # 10)) (Math_min (1 # 10) z) <= 1 # 10)%Q /\
  ((0 <= z)%Q -> (0 <= Math_max (- (1 # 10)) (Math_min (1 # 10) z))%Q) /\
  ((z <= 0)%Q -> (Math_max (- (1 # 10)) (Math_min (1 # 10) z) <= 0)%Q).
Proof.
  destruct (Math_min_spec (1 # 10) z) as [[H1 ->]|[H1 ->]];
    [destruct (Math_max_spec (- (1 # 10)) (1 # 10)) as [[H2 ->]|[H2 ->]]
    |destruct (Math_max_spec (- (1 # 10)) z) as [[H2 ->]|[H2 ->]]];
    repeat split; intros; lra.
Qed.

(** X3. The strategy modifier always lies between -0.1 and 0.1; it is 0
    when counting is disabled, and while cards remain it never has the
    opposite sign of the running count. *)
Theorem getStrategyModifier_range (st : t) :
  (- (1 # 10) <= getStrategyModifier st <= 1 # 10)%Q /\
  (enabled st = false -> getStrategyModifier st = 0%Q) /\
  (cardsDealt st < totalCards -> 0 <= runningCount st ->
   (0 <= getStrategyModifier st)%Q) /\
  (cardsDealt st < totalCards -> runningCount st <= 0 ->
   (getStrategyModifier st <= 0)%Q).
Proof.
  unfold getStrategyModifier. destruct (enabled st) eqn:Hen; cbn [negb].
  2:{ repeat split; intros; lra. }
  destruct (clamp_tenth (getTrueCount st * (2 # 100))) as (Hr & Hp & Hn).
  split; [exact Hr|]. split; [discriminate|].
  split; intros Hcards Hrc.
  - apply Hp.
    destruct (getTrueCount_sign st Hen Hcards) as (H & _).
    specialize (H Hrc). lra.
  - apply Hn.
    destruct (getTrueCount_sign st Hen Hcards) as (_ & H).
    specialize (H Hrc). lra.
Qed.

Lemma getStrategyModifier_range_witness :
  (- (1 # 10) <= getStrategyModifier fortyFives <= 1 # 10)%Q /\
  (0 <= getStrategyModifier fortyFives)%Q /\
  getStrategyModifier (new false) = 0%Q.
Proof.
  destruct (getStrategyModifier_range fortyFives) as (Hr & _ & Hp & _).
  destruct (getStrategyModifier_range (new false)) as (_ & H0 & _).
  split; [exact Hr|]. split.
  - apply Hp; vm_compute; [reflexivity|discriminate].
  - apply H0. reflexivity.
Defined.

(** X4. The recommended bet is the table minimum when counting is
    disabled; otherwise, for a stack and a table maximum that are not
    negative, it is either the table minimum or an amount between 0 and
    both the stack and the table maximum. *)
Theorem getBet_range (config : Config) (st : t) (currentChips : Q) :
  (enabled st = false -> getBet config st currentChips = minBet config) /\
  ((0 <= currentChips)%Q -> (0 <= maxBet config)%Q ->
   getBet config st currentChips = minBet config \/
   (0 <= getBet config st currentChips /\
    getBet config st currentChips <= currentChips /\
    getBet config st currentChips <= maxBet config)%Q).
Proof.
  split.
  { intros H. unfold getBet. by rewrite H. }
  intros Hchips Hmax.
  destruct (enabled st) eqn:Hen.
  2:{ left. unfold getBet. by rewrite Hen. }
  rewrite getBet_betAt by done. unfold betAt.
  set (M := Math_min (maxBet config) currentChips).
  assert (0 <= M /\ M <= currentChips /\ M <= maxBet config)%Q as (HM0 & HMc & HMm).
  { subst M. destruct (Math_min_spec (maxBet config) currentChips)
      as [[? ->]|[? ->]]; lra. }
  assert (forall k, (0 <= k)%Q -> (k <= 1)%Q ->
            (0 <= Math_min (Math_floor (M * k)) currentChips /\
             Math_min (Math_floor (M * k)) currentChips <= currentChips /\
             Math_min (Math_floor (M * k)) currentChips <= maxBet config)%Q)
    as Htier.
  { intros k Hk0 Hk1.
    pose proof (Math_floor_le (M * k)) as Hfl.
    assert (0 <= Math_floor (M * k))%Q as Hf0.
    { unfold Math_floor. change 0%Q with (inject_Z 0). rewrite <- Zle_Qle.
      change 0 with (Qfloor 0). apply Qfloor_resp_le. nra. }
    assert (M * k <= M)%Q by nra.
    destruct (Math_min_spec (Math_floor (M * k)) currentChips)
      as [[? ->]|[? ->]]; lra. }
  clearbody M.
  repeat case_match; try (by left); right;
    first [apply Htier; lra | lra].
Qed.

Lemma getBet_range_witness :
  getBet defaultConfig (new false) (1000 # 1) = minBet defaultConfig /\
  (getBet defaultConfig fortyFives (60 # 1) = minBet defaultConfig \/
   (0 <= getBet defaultConfig fortyFives (60 # 1) /\
    getBet defaultConfig fortyFives (60 # 1) <= 60 # 1 /\
    getBet defaultConfig fortyFives (60 # 1) <= maxBet defaultConfig)%Q).
Proof.
  split.
  - apply (getBet_range defaultConfig (new false) (1000 # 1)). reflexivity.
  - apply (getBet_range defaultConfig fortyFives (60 # 1));
      vm_compute; discriminate.
Defined.

Lemma getBet_monotone_witness :
  (getBet defaultConfig (new true) (1000 # 1) <=
   getBet defaultConfig sixteenFives (1000 # 1))%Q.
Proof.
  apply getBet_monotone; try reflexivity; vm_compute; discriminate.
Defined.

End CounterBounds.

(** ** The value of a hand ([GameClient.calculateHandValue]) *)

Module HandValue.

Import Num OptimalStrategy.

(** [total += parseInt(card.rank)], [NaN] being [None]. *)
Definition plusParsed (total : option Z) (parsed : option Z) : option Z :=
  match total, parsed with
  | Some a, Some b => Some (a + b)
  | _, _ => None
  end.

(** The first loop: the total of the cards that are not aces, and the
    number of aces. *)
Definition countCards (cards : list Card) : option Z * nat :=
  fold_left
    (fun '(total, aces) card =>
       if String.eqb (rank card) "A" then (total, S aces)
       else if includes ["K"; "Q"; "J"]%string (rank card) then
         (plusN total 10, aces)
       else (plusParsed total (parseInt (rank card)), aces))
    cards (Some 0, O).

(** The second loop: the aces, one after the other, as 11 when the hand
    stays within 21 and as 1 otherwise. *)
Definition placeAces (aces : nat) (total : option Z) : option Z * bool :=
  fold_left
    (fun '(total, isSoft) (i : nat) =>
       if leN (plusN total (11 + (Z.of_nat aces - Z.of_nat i - 1))) 21 then
         (plusN total 11, true)
       else (plusN total 1, isSoft))
    (seq 0 aces) (total, false).

Definition calculateHandValue (cards : list Card) : option Z * bool :=
  let '(total, aces) := countCards cards in
  placeAces aces total.

(** The thirteen ranks of a deck. *)
Definition validRank (r : string) : Prop :=
  r ∈ ["2"; "3"; "4"; "5"; "6"; "7"; "8"; "9"; "10"; "J"; "Q"; "K"; "A"]%string.

(** The value of a card with its ace counted as 1, and the hard total of a
    hand. *)
Definition hardValue (r : string) : Z :=
  if String.eqb r "A" then 1
  else default 0 (getRankValue r).

Definition hardTotal (cards : list Card) : Z :=
  foldr (fun c acc => hardValue (rank c) + acc) 0 cards.

Definition hasAce (cards : list Card) : bool :=
  existsb (fun c => String.eqb (rank c) "A") cards.

End HandValue.

Section HandValueFacts.

Import Num OptimalStrategy HandValue.

Lemma validRank_cases r :
  validRank r ->
  (r = "A"%string /\ getRankValue r = Some 11) \/
  (String.eqb r "A" = false /\ includes ["K"; "Q"; "J"]%string r = true /\
   getRankValue r = Some 10) \/
  (String.eqb r "A" = false /\ includes ["K"; "Q"; "J"]%string r = false /\
   exists v, parseInt r = Some v /\ getRankValue r = Some v /\ 2 <= v <= 10).
Proof.
  unfold validRank. intros H. apply list_elem_of_In in H. simpl in H.
  destruct H as [<-|[<-|[<-|[<-|[<-|[<-|[<-|[<-|[<-|[<-|[<-|[<-|[<-|[]]]]]]]]]]]]]];
    first [ left; split; reflexivity
          | right; left; split; [reflexivity|]; split; reflexivity
          | right; right; split; [reflexivity|]; split; [reflexivity|];
            eexists; split; [vm_compute; reflexivity|];
            split; [reflexivity|]; lia ].
Qed.

(** X5. Every rank of a deck has a value between 2 and 11, and the table of
    dealer distributions has a row for that value: the default row is used
    for malformed ranks only. *)
Theorem getRankValue_valid (r : string) :
  validRank r ->
  exists v,
    getRankValue r = Some v /\ 2 <= v <= 11 /\
    is_Some (distributions v).
Proof.
  unfold validRank. intros H. apply list_elem_of_In in H. simpl in H.
  destruct H as [<-|[<-|[<-|[<-|[<-|[<-|[<-|[<-|[<-|[<-|[<-|[<-|[<-|[]]]]]]]]]]]]]];
    eexists; (split; [vm_compute; reflexivity|]); (split; [lia|]);
    by eexists.
Qed.

Lemma getRankValue_valid_witness :
  exists v, getRankValue "Q" = Some v /\ 2 <= v <= 11 /\
            is_Some (distributions v).
Proof.
  apply getRankValue_valid. unfold validRank.
  apply list_elem_of_In. simpl. tauto.
Defined.

Lemma countCards_valid cards :
  Forall (fun c => validRank (rank c)) cards ->
  forall base aces,
    0 <= base ->
    exists base',
      fold_left
        (fun '(total, aces) card =>
           if String.eqb (rank card) "A" then (total, S aces)
           else if includes ["K"; "Q"; "J"]%string (rank card) then
             (plusN total 10, aces)
           else (plusParsed total (parseInt (rank card)), aces))
        cards (Some base, aces) =
      (Some base',
       (aces + length (filter (fun c => rank c = "A"%string) cards))%nat) /\
      0 <= base' /\
      base' + Z.of_nat (aces +
                length (filter (fun c => rank c = "A"%string) cards)) =
      base + Z.of_nat aces + hardTotal cards.
Proof.
  induction 1 as [|c cards Hc Hcards IH]; intros base aces Hbase.
  - exists base. simpl. rewrite Nat.add_0_r. split; [done|]. lia.
  - cbn [fold_left hardTotal foldr]. fold (hardTotal cards).
    unfold hardValue.
    destruct (validRank_cases _ Hc)
      as [[Ea Ev]|[(Ea & Ek & Ev)|(Ea & Ek & v & Ep & Ev & Hv)]].
    + rewrite Ea. cbn [String.eqb Ascii.eqb Bool.eqb].
      rewrite filter_cons_True by done.
      destruct (IH base (S aces) Hbase) as (b' & -> & Hb' & Hsum).
      exists b'. cbn [length].
      replace (aces + S (length (filter (fun c => rank c = "A"%string) cards)))%nat
        with (S aces + length (filter (fun c => rank c = "A"%string) cards))%nat
        by lia.
      split; [done|]. split; [done|]. lia.
    + rewrite Ea, Ek, Ev. cbn [plusN default].
      rewrite filter_cons_False
        by (intros E; rewrite E in Ea; discriminate).
      destruct (IH (base + 10) aces ltac:(lia)) as (b' & -> & Hb' & Hsum).
      exists b'. split; [done|]. split; [done|]. cbv [id]. lia.
    + rewrite Ea, Ek, Ep, Ev. cbn [plusParsed default].
      rewrite filter_cons_False
        by (intros E; rewrite E in Ea; discriminate).
      destruct (IH (base + v) aces ltac:(lia)) as (b' & -> & Hb' & Hsum).
      exists b'. split; [done|]. split; [done|]. cbv [id]. lia.
Qed.

(** The aces, once the first has been placed: none of the others can count
    as 11. *)
Lemma placeAces_rest (aces : nat) (base : Z) (soft : bool) (i n : nat) :
  0 <= base -> (i + n = aces)%nat ->
  (soft = true /\ (1 <= i)%nat \/
   soft = false /\ 21 < base + 10 + Z.of_nat aces) ->
  fold_left
    (fun '(total, isSoft) (i : nat) =>
       if leN (plusN total (11 + (Z.of_nat aces - Z.of_nat i - 1))) 21 then
         (plusN total 11, true)
       else (plusN total 1, isSoft))
    (seq i n)
    (Some (base + Z.of_nat i + (if soft then 10 else 0)), soft) =
  (Some (base + Z.of_nat aces + (if soft then 10 else 0)), soft).
Proof.
  intros Hbase. revert i.
  induction n as [|n IH]; intros i Hin Htrack.
  - simpl. replace i with aces by lia. done.
  - cbn [seq fold_left plusN leN].
    assert ((base + Z.of_nat i + (if soft then 10 else 0) +
             (11 + (Z.of_nat aces - Z.of_nat i - 1)) <=? 21) = false) as ->.
    { apply Z.leb_gt. destruct Htrack as [[-> ?]|[-> ?]]; lia. }
    replace (base + Z.of_nat i + (if soft then 10 else 0) + 1)
      with (base + Z.of_nat (S i) + (if soft then 10 else 0)) by lia.
    apply IH; [lia|]. destruct Htrack as [[? ?]|?]; [left; split; [done|lia]|by right].
Qed.

Lemma placeAces_value (aces : nat) (base : Z) :
  0 <= base ->
  placeAces aces (Some base) =
    if bool_decide (1 <= aces)%nat && (base + 10 + Z.of_nat aces <=? 21) then
      (Some (base + Z.of_nat aces + 10), true)
    else (Some (base + Z.of_nat aces), false).
Proof.
  intros Hbase. unfold placeAces.
  destruct aces as [|aces].
  { simpl. f_equal. f_equal. lia. }
  rewrite bool_decide_eq_true_2 by lia. cbn [andb].
  cbn [seq fold_left plusN leN].
  replace (base + (11 + (Z.of_nat (S aces) - Z.of_nat 0 - 1)))
    with (base + 10 + Z.of_nat (S aces)) by lia.
  destruct (base + 10 + Z.of_nat (S aces) <=? 21) eqn:E.
  - pose proof (placeAces_rest (S aces) base true 1 aces Hbase ltac:(lia)
                  ltac:(left; split; [done|lia])) as H.
    cbn [Z.of_nat] in H |- *.
    replace (base + 11) with (base + Z.of_nat 1 + 10) by lia.
    exact H.
  - apply Z.leb_gt in E.
    pose proof (placeAces_rest (S aces) base false 1 aces Hbase ltac:(lia)
                  ltac:(right; split; [done|lia])) as H.
    replace (base + 1) with (base + Z.of_nat 1 + 0) by lia.
    rewrite H. f_equal. f_equal. lia.
Qed.

Lemma hasAce_filter cards :
  hasAce cards = bool_decide (1 <= length (filter (fun c => rank c = "A"%string) cards))%nat.
Proof.
  induction cards as [|c cards IH]; [done|].
  cbn [hasAce existsb]. fold (hasAce cards).
  destruct (String.eqb_spec (rank c) "A") as [E|E].
  - rewrite filter_cons_True by done. cbn [orb length].
    by rewrite bool_decide_eq_true_2 by lia.
  - rewrite filter_cons_False by done. cbn [orb]. exact IH.
Qed.

(** X6. On a hand of valid ranks [calculateHandValue] returns the hard
    total (aces as 1) plus 10 when the hand is soft; the hand is soft
    exactly when it holds an ace and the hard total plus 10 does not exceed
    21.  So a soft value never exceeds 21, and at most one ace counts as
    11. *)
Theorem calculateHandValue_valid (cards : list Card) :
  Forall (fun c => validRank (rank c)) cards ->
  exists value soft,
    calculateHandValue cards = (Some value, soft) /\
    value = hardTotal cards + (if soft then 10 else 0) /\
    soft = hasAce cards && (hardTotal cards + 10 <=? 21) /\
    (soft = true -> value <= 21).
Proof.
  intros Hvalid. unfold calculateHandValue, countCards.
  destruct (countCards_valid cards Hvalid 0 0%nat ltac:(lia))
    as (base & -> & Hbase & Hsum).
  cbn [Nat.add] in Hsum |- *.
  rewrite placeAces_value by done. rewrite hasAce_filter.
  set (aces := length (filter (fun c => rank c = "A"%string) cards)) in *.
  replace (base + 10 + Z.of_nat aces) with (hardTotal cards + 10) by lia.
  destruct (bool_decide (1 <= aces)%nat && (hardTotal cards + 10 <=? 21))
    eqn:E.
  - do 2 eexists. split; [reflexivity|]. split; [lia|]. split; [done|].
    intros _. apply andb_true_iff in E as [_ E]. lia.
  - do 2 eexists. split; [reflexivity|]. split; [lia|]. split; [done|].
    discriminate.
Qed.

Lemma calculateHandValue_valid_witness :
  exists value soft,
    calculateHandValue
      [ {| suit := hearts; rank := "A" |}; {| suit := spades; rank := "A" |};
        {| suit := clubs; rank := "7" |} ] = (Some value, soft) /\
    value = 19 /\ soft = true.
Proof.
  destruct (calculateHandValue_valid
              [ {| suit := hearts; rank := "A" |};
                {| suit := spades; rank := "A" |};
                {| suit := clubs; rank := "7" |} ])
    as (value & soft & E & Hv & Hs & _).
  - repeat constructor; unfold validRank; apply list_elem_of_In; simpl; tauto.
  - exists value, soft. split; [exact E|].
    subst soft. split; [subst value|]; reflexivity.
Defined.

End HandValueFacts.

(** ** The strategy engine: the tables and the range of the values *)

Section ValueRanges.

Import Num OptimalStrategy.

(** What the dealer tables have in common: no entry is negative, the
    entries of a row add up to at most 1, and a dealer 21 is less likely
    than a dealer 17, 18 or 19 taken together. *)
Definition wellFormedRow (d : Distribution) : Prop :=
  (0 <= p17 d /\ 0 <= p18 d /\ 0 <= p19 d /\ 0 <= p20 d /\ 0 <= p21 d /\
   0 <= bust d /\
   p17 d + p18 d + p19 d + p20 d + p21 d + bust d <= 1 /\
   p21 d < p17 d + p18 d + p19 d)%Q.

Definition wellFormedRowb (d : Distribution) : bool :=
  Qle_bool 0 (p17 d) && Qle_bool 0 (p18 d) && Qle_bool 0 (p19 d) &&
  Qle_bool 0 (p20 d) && Qle_bool 0 (p21 d) && Qle_bool 0 (bust d) &&
  Qle_bool (p17 d + p18 d + p19 d + p20 d + p21 d + bust d) 1 &&
  Qltb (p21 d) (p17 d + p18 d + p19 d).

Lemma wellFormedRowb_spec d : wellFormedRowb d = true -> wellFormedRow d.
Proof.
  unfold wellFormedRowb, wellFormedRow.
  rewrite !andb_true_iff, !Qle_bool_iff, Qltb_lt. tauto.
Qed.

Lemma getDealerFinalDistribution_wellFormed dealerUpcard :
  wellFormedRow (getDealerFinalDistribution dealerUpcard).
Proof.
  apply wellFormedRowb_spec.
  destruct dealerUpcard as [[|p|p]|]; [reflexivity| |reflexivity|reflexivity].
  do 5 (try destruct p as [p|p|]); reflexivity.
Qed.

Lemma cardProbs_nonneg : Forall (fun entry => (0 <= snd entry)%Q) cardProbs.
Proof. repeat constructor; vm_compute; discriminate. Qed.

Definition totalProb (entries : list (Z * Q)) : Q :=
  foldr (fun entry acc => (snd entry + acc)%Q) 0%Q entries.

Lemma cardProbs_total : (totalProb cardProbs == 1)%Q.
Proof. vm_compute. reflexivity. Qed.

Lemma calculateStandEV_range playerTotal dealerUpcard :
  (- (1 # 1) <= calculateStandEV playerTotal dealerUpcard <= 1)%Q.
Proof.
  unfold calculateStandEV.
  pose proof (getDealerFinalDistribution_wellFormed dealerUpcard) as H.
  revert H. generalize (getDealerFinalDistribution dealerUpcard).
  intros d (H17 & H18 & H19 & H20 & H21 & Hb & Hsum & _).
  cbn [fold_left probOf].
  repeat match goal with
         | |- context [if ?b then _ else _] => destruct b
         end; lra.
Qed.

Lemma Math_max_range lo hi x y :
  (lo <= x <= hi)%Q -> (lo <= y <= hi)%Q -> (lo <= Math_max x y <= hi)%Q.
Proof.
  intros Hx Hy. destruct (Math_max_spec x y) as [[_ ->]|[_ ->]]; done.
Qed.

Lemma hitIteration_range hitAgain playerTotal dealerUpcard isSoft
  ev cost cardValue prob bound ev' cost' :
  (forall t s v c,
     hitAgain t s = Some (v, c) -> (- (1 # 1) <= v <= 1)%Q) ->
  (0 <= prob)%Q -> (- bound <= ev <= bound)%Q ->
  hitIteration hitAgain playerTotal dealerUpcard isSoft (Some (ev, cost))
    (cardValue, prob) = Some (ev', cost') ->
  (- (bound + prob) <= ev' <= bound + prob)%Q.
Proof.
  intros Hrec Hprob Hev. unfold hitIteration.
  destruct (drawCard playerTotal isSoft cardValue) as [newTotal newIsSoft].
  destruct (gtN newTotal 21).
  { intros [= <- _]. lra. }
  destruct (eqN newTotal 21).
  { intros [= <- _].
    pose proof (calculateStandEV_range (Some 21) dealerUpcard). nra. }
  destruct (hitAgain newTotal newIsSoft) as [[v c]|] eqn:E; [|done].
  intros [= <- _].
  pose proof (Math_max_range (- (1 # 1)) 1 _ _
                (calculateStandEV_range newTotal dealerUpcard)
                (Hrec _ _ _ _ E)).
  nra.
Qed.

Lemma hit_loop_range hitAgain playerTotal dealerUpcard isSoft entries :
  (forall t s v c,
     hitAgain t s = Some (v, c) -> (- (1 # 1) <= v <= 1)%Q) ->
  Forall (fun entry => (0 <= snd entry)%Q) entries ->
  forall ev cost bound ev' cost',
    (- bound <= ev <= bound)%Q ->
    fold_left (hitIteration hitAgain playerTotal dealerUpcard isSoft) entries
      (Some (ev, cost)) = Some (ev', cost') ->
    (- (bound + totalProb entries) <= ev' <= bound + totalProb entries)%Q.
Proof.
  intros Hrec. induction 1 as [|[cardValue prob] entries Hp _ IH];
    intros ev cost bound ev' cost' Hev; cbn [fold_left];
    try change (totalProb ((cardValue, prob) :: entries))
      with (prob + totalProb entries)%Q.
  - intros [= <- _]. unfold totalProb; simpl. lra.
  - destruct (hitIteration hitAgain playerTotal dealerUpcard isSoft
                (Some (ev, cost)) (cardValue, prob)) as [[ev1 cost1]|] eqn:E.
    + intros Hfold.
      pose proof (hitIteration_range _ _ _ _ _ _ _ _ _ _ _ Hrec Hp Hev E) as H1.
      pose proof (IH _ _ _ _ _ H1 Hfold) as H2.
      cbn [snd] in H1, H2. lra.
    + assert (forall l,
                fold_left
                  (hitIteration hitAgain playerTotal dealerUpcard isSoft) l
                  None = None) as Hnone.
      { induction l as [|e l IHl]; [done|]. exact IHl. }
      rewrite Hnone. discriminate.
Qed.

Lemma calculateHitEV_run_range fuel playerTotal dealerUpcard isSoft depth v c :
  calculateHitEV_run fuel playerTotal dealerUpcard isSoft depth = Some (v, c) ->
  (- (1 # 1) <= v <= 1)%Q.
Proof.
  revert playerTotal isSoft depth v c.
  induction fuel as [|fuel IH]; intros playerTotal isSoft depth v c; [done|].
  rewrite calculateHitEV_run_S.
  destruct (gtN playerTotal 21); [intros [= <- _]; lra|].
  destruct (depth >? 5).
  { intros [= <- _]. apply calculateStandEV_range. }
  intros Hfold.
  pose proof (hit_loop_range _ playerTotal dealerUpcard isSoft cardProbs
                (fun t s v c => IH t s (depth + 1) v c) cardProbs_nonneg
                0%Q oneCall 0%Q v c ltac:(lra) Hfold) as H.
  rewrite cardProbs_total in H. lra.
Qed.

Lemma double_loop_range playerTotal dealerUpcard isSoft entries :
  Forall (fun entry => (0 <= snd entry)%Q) entries ->
  forall ev bound,
    (- bound <= ev <= bound)%Q ->
    let ev' :=
      fold_left
        (fun ev '(cardValue, prob) =>
           let newTotal := plusN playerTotal cardValue in
           let newTotal :=
             if cardValue =? 1 then
               if leN (plusN playerTotal 11) 21 then plusN playerTotal 11
               else plusN playerTotal 1
             else newTotal in
           let newTotal :=
             if isSoft && gtN newTotal 21 then plusN newTotal (-10)
             else newTotal in
           let standEV := calculateStandEV newTotal dealerUpcard in
           (ev + prob * standEV * (2 # 1))%Q)
        entries ev in
    (- (bound + (2 # 1) * totalProb entries) <= ev'
     <= bound + (2 # 1) * totalProb entries)%Q.
Proof.
  induction 1 as [|[cardValue prob] entries Hp _ IH]; intros ev bound Hev;
    cbn [fold_left];
    try change (totalProb ((cardValue, prob) :: entries))
      with (prob + totalProb entries)%Q.
  - cbv zeta. unfold totalProb; simpl. lra.
  - cbv zeta in IH |- *.
    match goal with
    | |- context [calculateStandEV ?t dealerUpcard] =>
        pose proof (calculateStandEV_range t dealerUpcard) as Hs;
        set (x := calculateStandEV t dealerUpcard) in *
    end.
    clearbody x. simpl in Hp.
    specialize (IH (ev + prob * x * (2 # 1))%Q (bound + (2 # 1) * prob)%Q
                  ltac:(nra)).
    lra.
Qed.

Lemma split_loop_range dealerUpcard entries :
  Forall (fun entry => (0 <= snd entry)%Q) entries ->
  forall ev bound,
    (- bound <= ev <= bound)%Q ->
    let ev' :=
      fold_left
        (fun evPerHand '(cardValue, prob) =>
           let total := 11 + cardValue in
           let total := if total >? 21 then 1 + cardValue else total in
           (evPerHand + prob * calculateStandEV (Some total) dealerUpcard)%Q)
        entries ev in
    (- (bound + totalProb entries) <= ev' <= bound + totalProb entries)%Q.
Proof.
  induction 1 as [|[cardValue prob] entries Hp _ IH]; intros ev bound Hev;
    cbn [fold_left];
    try change (totalProb ((cardValue, prob) :: entries))
      with (prob + totalProb entries)%Q.
  - cbv zeta. unfold totalProb; simpl. lra.
  - cbv zeta in IH |- *.
    match goal with
    | |- context [calculateStandEV ?t dealerUpcard] =>
        pose proof (calculateStandEV_range t dealerUpcard) as Hs;
        set (x := calculateStandEV t dealerUpcard) in *
    end.
    clearbody x. simpl in Hp.
    specialize (IH (ev + prob * x)%Q (bound + prob)%Q ltac:(nra)).
    lra.
Qed.

(** X7. Whatever the total, the upcard and the depth, the value of
    standing and the value of hitting lie between -1 and 1, and the values
    of doubling and of splitting between -2 and 2: the dealer rows and the
    card distribution are (sub)probability distributions. *)
Theorem expected_values_range (playerTotal dealerUpcard : option Z)
  (isSoft : bool) (depth : Z) (pairRank : string) :
  (- (1 # 1) <= calculateStandEV playerTotal dealerUpcard <= 1)%Q /\
  (- (1 # 1) <= calculateHitEV playerTotal dealerUpcard isSoft depth <= 1)%Q /\
  (- (2 # 1) <= calculateDoubleEV playerTotal dealerUpcard isSoft <= 2 # 1)%Q /\
  (- (2 # 1) <= calculateSplitEV pairRank dealerUpcard <= 2 # 1)%Q.
Proof.
  assert (forall t s d,
            (- (1 # 1) <= calculateHitEV t dealerUpcard s d <= 1)%Q) as Hhit.
  { intros t s d. unfold calculateHitEV.
    destruct (calculateHitEV_run (enoughFuel d) t dealerUpcard s d)
      as [[v c]|] eqn:E; [|lra].
    exact (calculateHitEV_run_range _ _ _ _ _ _ _ E). }
  split; [apply calculateStandEV_range|]. split; [apply Hhit|]. split.
  - unfold calculateDoubleEV.
    pose proof (double_loop_range playerTotal dealerUpcard isSoft cardProbs
                  cardProbs_nonneg 0%Q 0%Q ltac:(lra)) as H.
    cbv zeta in H. rewrite cardProbs_total in H. lra.
  - unfold calculateSplitEV. destruct (String.eqb pairRank "A").
    + pose proof (split_loop_range dealerUpcard cardProbs cardProbs_nonneg
                    0%Q 0%Q ltac:(lra)) as H.
      cbv zeta in H. rewrite cardProbs_total in H. lra.
    + cbv zeta. pose proof (Hhit (getRankValue pairRank) false 0). lra.
Qed.

End ValueRanges.

(** ** The strategy engine: the value of standing, total by total *)

Section StandShape.

Import Num OptimalStrategy.

Ltac zcases :=
  repeat (match goal with
          | |- context [Z.ltb ?a ?b] => destruct (Z.ltb_spec a b)
          | |- context [Z.eqb ?a ?b] => destruct (Z.eqb_spec a b)
          | |- context [Z.gtb ?a ?b] => rewrite (Z.gtb_ltb a b)
          end; try lia).

(** X8. For every dealer upcard the value of standing is the same on all
    totals up to 16 and does not decrease from one total to a higher one up
    to 20; a total of 21, which is valued at the dealer's bust probability
    alone, is worth strictly less than a total of 20. *)
Theorem calculateStandEV_by_total (dealerUpcard : option Z) (t t' : Z) :
  (t <= 16 -> t' <= 16 ->
   (calculateStandEV (Some t) dealerUpcard ==
    calculateStandEV (Some t') dealerUpcard)%Q) /\
  (t <= t' -> t' <= 20 ->
   (calculateStandEV (Some t) dealerUpcard <=
    calculateStandEV (Some t') dealerUpcard)%Q) /\
  (calculateStandEV (Some 21%Z) dealerUpcard <
   calculateStandEV (Some 20%Z) dealerUpcard)%Q.
Proof.
  unfold calculateStandEV.
  pose proof (getDealerFinalDistribution_wellFormed dealerUpcard) as H.
  revert H. generalize (getDealerFinalDistribution dealerUpcard).
  intros d (H17 & H18 & H19 & H20 & H21 & Hb & Hsum & Hlt).
  cbn [fold_left probOf gtN eqN ltN].
  split; [|split].
  - intros Ht Ht'. zcases. reflexivity.
  - intros Hle Ht'. zcases; lra.
  - zcases. lra.
Qed.

Lemma calculateStandEV_by_total_witness :
  (calculateStandEV (Some 12%Z) (Some 7%Z) == calculateStandEV (Some 16%Z) (Some 7%Z))%Q /\
  (calculateStandEV (Some 17%Z) (Some 7%Z) <= calculateStandEV (Some 19%Z) (Some 7%Z))%Q /\
  (calculateStandEV (Some 21%Z) (Some 7%Z) < calculateStandEV (Some 20%Z) (Some 7%Z))%Q.
Proof.
  destruct (calculateStandEV_by_total (Some 7%Z) 12 16) as (H1 & _ & H3).
  destruct (calculateStandEV_by_total (Some 7%Z) 17 19) as (_ & H2 & _).
  split; [apply H1; lia|]. split; [apply H2; lia|exact H3].
Defined.

End StandShape.

(** ** The strategy engine: which action wins *)

Section BestAction.

Import Num OptimalStrategy.

(** The [actions] array of [getDecision] as it is handed to [sort]: the
    four actions with their values, adjusted for learning and for the
    count. *)
Definition candidates (cardCounter : CardCounter.t)
  (situation : GameSituation) (learningAdjustment : JSNum.t)
  : list ActionEV :=
  let dealerValue := getRankValue (rank (dealerUpcard situation)) in
  let total := Some (playerTotal situation) in
  let standEV := JSNum.Fin (calculateStandEV total dealerValue) in
  let hitEV :=
    JSNum.Fin (calculateHitEV total dealerValue (isSoft situation) 0) in
  let doubleEV :=
    if canDouble situation then
      JSNum.Fin (calculateDoubleEV total dealerValue (isSoft situation))
    else JSNum.NegInf in
  let splitEV :=
    if canSplit situation && isPair (playerHand situation) then
      match playerHand situation !! 0%nat with
      | Some c0 => JSNum.Fin (calculateSplitEV (rank c0) dealerValue)
      | None => JSNum.NegInf
      end
    else JSNum.NegInf in
  map (applyCountModifier (CardCounter.getStrategyModifier cardCounter))
    [ {| act := stand; ev := JSNum.add standEV learningAdjustment |};
      {| act := hit; ev := JSNum.add hitEV learningAdjustment |};
      {| act := double; ev := JSNum.add doubleEV learningAdjustment |};
      {| act := split; ev := JSNum.add splitEV learningAdjustment |} ].

(** The confidence computed from the two best values. *)
Definition confidenceOf (best second : JSNum.t) : JSNum.t :=
  JSNum.Math_min (JSNum.Fin 1)
    (JSNum.Math_max (JSNum.Fin 0)
       (JSNum.divPos (JSNum.sub best second) (5 # 10))).

Lemma getDecision_candidates config cardCounter situation learningAdjustment :
  getDecision config cardCounter situation learningAdjustment =
    match sort byDescendingEV
            (candidates cardCounter situation learningAdjustment) with
    | best :: second :: _ =>
        {| action := act best;
           confidence := confidenceOf (ev best) (ev second);
           expectedValue := ev best;
           betSize :=
             Some (CardCounter.getBet config cardCounter
                     (chipStack situation)) |}
    | _ =>
        {| action := stand; confidence := JSNum.NaN;
           expectedValue := JSNum.NaN; betSize := None |}
    end.
Proof. reflexivity. Qed.

(** The order of values that are finite or [-Infinity]. *)
Definition leEV (x y : JSNum.t) : Prop :=
  match x, y with
  | JSNum.NegInf, JSNum.NegInf | JSNum.NegInf, JSNum.Fin _ => True
  | JSNum.Fin a, JSNum.Fin b => (a <= b)%Q
  | _, _ => False
  end.

Definition ltEV (x y : JSNum.t) : Prop :=
  match x, y with
  | JSNum.NegInf, JSNum.Fin _ => True
  | JSNum.Fin a, JSNum.Fin b => (a < b)%Q
  | _, _ => False
  end.

Definition finiteOrNegInf (x : JSNum.t) : Prop :=
  x = JSNum.NegInf \/ exists q, x = JSNum.Fin q.

Lemma candidates_shape cardCounter situation (adj : Q) :
  exists q1 q2 d p,
    candidates cardCounter situation (JSNum.Fin adj) =
      [ {| act := stand; ev := JSNum.Fin q1 |};
        {| act := hit; ev := JSNum.Fin q2 |};
        {| act := double; ev := d |};
        {| act := split; ev := p |} ] /\
    finiteOrNegInf d /\ finiteOrNegInf p.
Proof.
  unfold candidates, finiteOrNegInf. cbn [map].
  generalize (CardCounter.getStrategyModifier cardCounter). intros m.
  unfold applyCountModifier. cbn [act ev JSNum.add].
  destruct (Qltb 0 m), (Qltb m 0); cbn [act ev JSNum.add];
    do 4 eexists; (split; [reflexivity|]).
  all: split.
  all: first
         [ by (destruct (canDouble situation); cbn; eauto)
         | by (destruct (canSplit situation && isPair (playerHand situation));
               [destruct (playerHand situation !! 0%nat)|]; cbn; eauto) ].
Qed.

Ltac qbools :=
  repeat match goal with
         | H : Qltb _ _ = true |- _ => apply Qltb_lt in H
         | H : Qltb _ _ = false |- _ => apply Qltb_ge in H
         end.

Ltac pick_best i :=
  exists i; split; [reflexivity|]; split; [reflexivity|];
  split;
  [ intros [|[|[|[|j]]]] c Hj; inversion Hj; subst; cbn; qbools; try lra;
    exact I
  | split;
    [ intros [|[|[|[|j]]]] c Hlt Hj; inversion Hj; subst; cbn; qbools;
      try lia; try lra; exact I
    | split; [eauto|]; split; [eauto|]; cbn; qbools; try lra; exact I ] ].

(** The head of the sorted array is the first of the entries with the
    largest value, and the second entry is no larger. *)
Lemma sort_four (q1 q2 : Q) (d p : JSNum.t) :
  finiteOrNegInf d -> finiteOrNegInf p ->
  let cs :=
    [ {| act := stand; ev := JSNum.Fin q1 |};
      {| act := hit; ev := JSNum.Fin q2 |};
      {| act := double; ev := d |};
      {| act := split; ev := p |} ] in
  exists best second rest i,
    sort byDescendingEV cs = best :: second :: rest /\
    cs !! i = Some best /\
    (forall j c, cs !! j = Some c -> leEV (ev c) (ev best)) /\
    (forall j c, (j < i)%nat -> cs !! j = Some c -> ltEV (ev c) (ev best)) /\
    (exists b, ev best = JSNum.Fin b) /\
    finiteOrNegInf (ev second) /\
    leEV (ev second) (ev best).
Proof.
  unfold finiteOrNegInf.
  intros [->|[qd ->]] [->|[qp ->]]; cbv zeta;
    unfold sort, byDescendingEV;
    cbn -[Qltb Qminus];
    repeat (match goal with
            | |- context [Qltb ?a ?b] => destruct (Qltb a b) eqn:?
            end; cbn -[Qltb Qminus]);
    do 3 eexists;
    first [ pick_best 0%nat | pick_best 1%nat | pick_best 2%nat
          | pick_best 3%nat ].
Qed.

(** X9. With a finite learning adjustment, the expected value returned by
    [getDecision] is a finite number, no candidate action has a larger
    value, and the action returned is the first of the candidates, in the
    order stand, hit, double, split, that has this value: every candidate
    before it is strictly worse. *)
Theorem getDecision_first_best (config : Config) (cardCounter : CardCounter.t)
  (situation : GameSituation) (adj : Q) :
  let decision := getDecision config cardCounter situation (JSNum.Fin adj) in
  let cs := candidates cardCounter situation (JSNum.Fin adj) in
  map act cs = [stand; hit; double; split] /\
  exists i best,
    cs !! i = Some best /\
    action decision = act best /\
    expectedValue decision = ev best /\
    (exists b, ev best = JSNum.Fin b) /\
    (forall j c, cs !! j = Some c -> leEV (ev c) (ev best)) /\
    (forall j c, (j < i)%nat -> cs !! j = Some c -> ltEV (ev c) (ev best)).
Proof.
  cbv zeta. rewrite getDecision_candidates.
  destruct (candidates_shape cardCounter situation adj)
    as (q1 & q2 & d & p & -> & Hd & Hp).
  split; [reflexivity|].
  destruct (sort_four q1 q2 d p Hd Hp)
    as (best & second & rest & i & -> & Hi & Hle & Hlt & Hfin & _).
  exists i, best. cbn [action expectedValue]. eauto 10.
Qed.

Lemma Math_clamp01 x :
  (0 <= Math_min 1 (Math_max 0 x) <= 1)%Q.
Proof.
  destruct (Math_max_spec 0 x) as [[H1 ->]|[H1 ->]];
    [destruct (Math_min_spec 1 x) as [[H2 ->]|[H2 ->]]
    |destruct (Math_min_spec 1 0) as [[H2 ->]|[H2 ->]]]; lra.
Qed.

(** X10. With a finite learning adjustment the confidence returned by
    [getDecision] is a number between 0 and 1, and the bet size is the one
    the card counter recommends for the chip stack of the situation. *)
Theorem getDecision_confidence (config : Config) (cardCounter : CardCounter.t)
  (situation : GameSituation) (adj : Q) :
  let decision := getDecision config cardCounter situation (JSNum.Fin adj) in
  (exists c, confidence decision = JSNum.Fin c /\ (0 <= c <= 1)%Q) /\
  betSize decision =
    Some (CardCounter.getBet config cardCounter (chipStack situation)).
Proof.
  cbv zeta. rewrite getDecision_candidates.
  destruct (candidates_shape cardCounter situation adj)
    as (q1 & q2 & d & p & -> & Hd & Hp).
  destruct (sort_four q1 q2 d p Hd Hp)
    as (best & second & rest & i & -> & _ & _ & _ & [b Hb] & Hs & _).
  cbn [confidence betSize]. split; [|reflexivity].
  rewrite Hb. unfold confidenceOf.
  destruct Hs as [->|[x ->]]; cbn.
  - exists 1%Q. split; [reflexivity|lra].
  - eexists. split; [reflexivity|]. apply Math_clamp01.
Qed.

(** Two entries for the same action whose values differ by [q]. *)
Definition shiftedBy (q : Q) (a1 a2 : ActionEV) : Prop :=
  act a1 = act a2 /\
  match ev a1, ev a2 with
  | JSNum.NegInf, JSNum.NegInf => True
  | JSNum.Fin x1, JSNum.Fin x2 => (x1 == x2 + q)%Q
  | _, _ => False
  end.

Lemma Qltb_compat x y : (x == y)%Q -> Qltb x 0 = Qltb y 0.
Proof.
  intros E. destruct (Qltb x 0) eqn:Hx, (Qltb y 0) eqn:Hy; qbools;
    try reflexivity; lra.
Qed.

Lemma shiftedBy_compare q x1 x2 y1 y2 :
  shiftedBy q x1 x2 -> shiftedBy q y1 y2 ->
  JSNum.isNegative (byDescendingEV x1 y1) =
  JSNum.isNegative (byDescendingEV x2 y2).
Proof.
  unfold shiftedBy, byDescendingEV. intros [_ Hx] [_ Hy].
  destruct (ev x1), (ev x2), (ev y1), (ev y2); try done; cbn.
  apply Qltb_compat. lra.
Qed.

Lemma sortInsert_related {A} (R : A -> A -> Prop) (cmp1 cmp2 : A -> A -> JSNum.t) :
  (forall x1 x2 y1 y2,
     R x1 x2 -> R y1 y2 ->
     JSNum.isNegative (cmp1 x1 y1) = JSNum.isNegative (cmp2 x2 y2)) ->
  forall x1 x2 s1 s2,
    R x1 x2 -> Forall2 R s1 s2 ->
    Forall2 R (sortInsert cmp1 x1 s1) (sortInsert cmp2 x2 s2).
Proof.
  intros Hcmp x1 x2 s1 s2 Hx Hs.
  induction Hs as [|y1 y2 s1 s2 Hy Hs IH]; cbn [sortInsert].
  - by repeat constructor.
  - rewrite (Hcmp x1 x2 y1 y2 Hx Hy).
    destruct (JSNum.isNegative (cmp2 x2 y2)); by repeat constructor.
Qed.

Lemma sort_related {A} (R : A -> A -> Prop) (cmp1 cmp2 : A -> A -> JSNum.t) :
  (forall x1 x2 y1 y2,
     R x1 x2 -> R y1 y2 ->
     JSNum.isNegative (cmp1 x1 y1) = JSNum.isNegative (cmp2 x2 y2)) ->
  forall l1 l2, Forall2 R l1 l2 -> Forall2 R (sort cmp1 l1) (sort cmp2 l2).
Proof.
  intros Hcmp l1 l2 Hl. unfold sort.
  assert (Forall2 R (@nil A) []) as Hacc by constructor.
  revert Hacc. generalize (@nil A) at 1 3. generalize (@nil A).
  induction Hl as [|x1 x2 l1 l2 Hx Hl IH]; intros s2 s1 Hs; [done|].
  cbn [fold_left]. apply IH. by apply sortInsert_related.
Qed.

Lemma candidates_shifted cardCounter situation (adj : Q) :
  Forall2 (shiftedBy adj)
    (candidates cardCounter situation (JSNum.Fin adj))
    (candidates cardCounter situation (JSNum.Fin 0)).
Proof.
  unfold candidates. cbn [map].
  generalize (CardCounter.getStrategyModifier cardCounter). intros m.
  unfold applyCountModifier. cbn [act ev JSNum.add].
  repeat constructor; cbn [act ev].
  - by destruct (Qltb 0 m).
  - destruct (Qltb 0 m); cbn; lra.
  - by destruct (Qltb m 0).
  - destruct (Qltb m 0); cbn; lra.
  - destruct (canDouble situation); cbn; [lra|done].
  - destruct (canSplit situation && isPair (playerHand situation));
      [destruct (playerHand situation !! 0%nat)|]; cbn; try done; lra.
Qed.

(** A hard 20 against a dealer's 7. *)
Definition hard20vs7 : GameSituation :=
  {| playerHand :=
       [ {| suit := hearts; rank := "K" |};
         {| suit := spades; rank := "Q" |} ];
     playerTotal := 20; isSoft := false;
     dealerUpcard := {| suit := clubs; rank := "7" |};
     trueCount := 0; chipStack := 1000 # 1; currentRank := 1;
     handsRemaining := 5; canDouble := false; canSplit := true |}.

(** X11. A learning adjustment between -0.2 and 0.2, the range of
    [getStrategyAdjustment], changes neither the action nor the bet size:
    it is added to the value of every candidate alike, so the candidates
    keep the order they have without it.  The expected value returned moves
    with the sign of the adjustment: it is not below the unadjusted one
    when the adjustment is not negative, and not above it when the
    adjustment is not positive.  The range matters to the program, whose
    sums are floating-point sums: an adjustment many orders of magnitude
    above the values absorbs the differences between them. *)
Theorem getDecision_adjustment_shift (config : Config)
  (cardCounter : CardCounter.t) (situation : GameSituation) (adj : Q) :
  (- (2 # 10) <= adj <= 2 # 10)%Q ->
  let adjusted := getDecision config cardCounter situation (JSNum.Fin adj) in
  let plain := getDecision config cardCounter situation (JSNum.Fin 0) in
  action adjusted = action plain /\
  betSize adjusted = betSize plain /\
  ((0 <= adj)%Q -> leEV (expectedValue plain) (expectedValue adjusted)) /\
  ((adj <= 0)%Q -> leEV (expectedValue adjusted) (expectedValue plain)).
Proof.
  intros _. cbv zeta. rewrite !getDecision_candidates.
  pose proof (sort_related (shiftedBy adj) byDescendingEV byDescendingEV
                (shiftedBy_compare adj) _ _
                (candidates_shifted cardCounter situation adj)) as Hrel.
  destruct (candidates_shape cardCounter situation adj)
    as (q1 & q2 & d & p & E1 & Hd & Hp).
  destruct (candidates_shape cardCounter situation 0)
    as (q1' & q2' & d' & p' & E2 & Hd' & Hp').
  rewrite E1, E2 in Hrel |- *.
  destruct (sort_four q1 q2 d p Hd Hp)
    as (b1 & s1 & r1 & i1 & S1 & _ & _ & _ & [x1 Hx1] & _).
  destruct (sort_four q1' q2' d' p' Hd' Hp')
    as (b2 & s2 & r2 & i2 & S2 & _ & _ & _ & [x2 Hx2] & _).
  cbv zeta in S1, S2. rewrite S1, S2 in Hrel |- *.
  apply Forall2_cons_1 in Hrel as [[Hact Hev] _].
  cbn [action betSize expectedValue].
  rewrite Hx1, Hx2 in Hev |- *. cbn [leEV].
  split; [exact Hact|]. split; [reflexivity|]. split; intros H; lra.
Qed.

Lemma getDecision_adjustment_shift_witness :
  action
    (getDecision defaultConfig (CardCounter.new true) hard20vs7
       (JSNum.Fin (2 # 10))) = stand /\
  leEV
    (expectedValue
       (getDecision defaultConfig (CardCounter.new true) hard20vs7
          (JSNum.Fin 0)))
    (expectedValue
       (getDecision defaultConfig (CardCounter.new true) hard20vs7
          (JSNum.Fin (2 # 10)))).
Proof.
  destruct (getDecision_adjustment_shift defaultConfig (CardCounter.new true)
              hard20vs7 (2 # 10)) as (Hact & _ & Hup & _).
  - split; vm_compute; discriminate.
  - split.
    + rewrite Hact. vm_compute. reflexivity.
    + apply Hup. vm_compute. discriminate.
Defined.

End BestAction.


(** ** The experience tracker: bounded history and analysis *)

(** [xs.slice(start)]: a negative [start] counts from the end. *)
Definition slice {A} (start : Z) (xs : list A) : list A :=
  let len := Z.of_nat (length xs) in
  let from := if start <? 0 then Z.max (len + start) 0 else Z.min start len in
  drop (Z.to_nat from) xs.

Module TrackerAnalysis.

Import Num ExperienceTracker.

Record PerformanceSummary := {
  winRate : Q;
  avgRank : Q;
  avgChips : Q;
  totalProfitOf : Q
}.

(** The number of sessions finished in first place, and the sums that
    [reduce] computes. *)
Definition countFirst (ss : list SessionResult) : Q :=
  ofZ (Z.of_nat (length (filter (fun s => finalRank s = 1) ss))).

Definition sumBy {A} (f : A -> Q) (xs : list A) : Q :=
  fold_left (fun sum x => (sum + f x)%Q) xs 0%Q.

Definition count {A} (xs : list A) : Q := ofZ (Z.of_nat (length xs)).

Definition analyzePerformance (st : t) (recentSessionCount : Z)
  : PerformanceSummary :=
  let recentSessions := slice (- recentSessionCount) (sessions st) in
  if (length recentSessions =? 0)%nat then
    {| winRate := 0; avgRank := 0; avgChips := 0; totalProfitOf := 0 |}
  else
    let wins := countFirst recentSessions in
    let totalRank := sumBy (fun s => ofZ (finalRank s)) recentSessions in
    let totalChips := sumBy finalChips recentSessions in
    let totalProfit := sumBy netProfit recentSessions in
    {| winRate := (wins / count recentSessions)%Q;
       avgRank := (totalRank / count recentSessions)%Q;
       avgChips := (totalChips / count recentSessions)%Q;
       totalProfitOf := totalProfit |}.

Inductive Trend := improving | stable | declining.

Definition getPerformanceTrend (st : t) : Trend :=
  if (length (sessions st) <? 10)%nat then stable
  else
    let mid := (length (sessions st) / 2)%nat in
    let firstHalf := take mid (sessions st) in
    let secondHalf := drop mid (sessions st) in
    let firstHalfWinRate := (countFirst firstHalf / count firstHalf)%Q in
    let secondHalfWinRate := (countFirst secondHalf / count secondHalf)%Q in
    let improvement := (secondHalfWinRate - firstHalfWinRate)%Q in
    if Qgtb improvement (1 # 10) then improving
    else if Qltb improvement (- (1 # 10)) then declining
    else stable.

Definition getExperiencesForSituation (st : t) (playerTotal : Z)
  (dealerUpcardRank : string) : list GameExperience :=
  filter
    (fun e =>
       (expPlayerTotal e =? playerTotal) &&
       String.eqb (rank (expDealerUpcard e)) dealerUpcardRank = true)
    (experiences st).

Record SummaryStats := {
  totalHands : Z;
  totalSessions : Z;
  overallWinRate : Q;
  statsAvgRank : Q;
  statsAvgChips : Q;
  statsTotalProfit : Q
}.

Definition getSummaryStats (st : t) : SummaryStats :=
  let totalHands := Z.of_nat (length (experiences st)) in
  let totalSessions := Z.of_nat (length (sessions st)) in
  if totalSessions =? 0 then
    {| totalHands := 0; totalSessions := 0; overallWinRate := 0;
       statsAvgRank := 0; statsAvgChips := 0; statsTotalProfit := 0 |}
  else
    let wins := countFirst (sessions st) in
    let totalRank := sumBy (fun s => ofZ (finalRank s)) (sessions st) in
    let totalChips := sumBy finalChips (sessions st) in
    let totalProfit := sumBy netProfit (sessions st) in
    {| totalHands := totalHands;
       totalSessions := totalSessions;
       overallWinRate := (wins / ofZ totalSessions)%Q;
       statsAvgRank := (totalRank / ofZ totalSessions)%Q;
       statsAvgChips := (totalChips / ofZ totalSessions)%Q;
       statsTotalProfit := totalProfit |}.

(** The values of the [actionStats] map. *)
Record ActionStats := { wins : Z; total : Z; totalChips : Q }.

(** [actionStats.get(key) || {wins: 0, total: 0, totalChips: 0}] and
    [actionStats.set(key, stats)] on a map that keeps its keys in the order
    of their first insertion. *)
Fixpoint getStats (key : Action) (m : list (Action * ActionStats))
  : ActionStats :=
  match m with
  | [] => {| wins := 0; total := 0; totalChips := 0 |}
  | (k, v) :: m' =>
      if String.eqb (actionName k) (actionName key) then v
      else getStats key m'
  end.

Fixpoint setStats (key : Action) (v : ActionStats)
  (m : list (Action * ActionStats)) : list (Action * ActionStats) :=
  match m with
  | [] => [(key, v)]
  | (k, v') :: m' =>
      if String.eqb (actionName k) (actionName key) then (k, v) :: m'
      else (k, v') :: setStats key v m'
  end.

Definition isWin (r : HandResult) : bool :=
  match r with win => true | _ => false end.

Definition tally (m : list (Action * ActionStats)) (exp : GameExperience)
  : list (Action * ActionStats) :=
  let key := actionTaken exp in
  let stats := getStats key m in
  setStats key
    {| wins := if isWin (handResult exp) then wins stats + 1 else wins stats;
       total := total stats + 1;
       totalChips := (totalChips stats + chipsWon exp)%Q |}
    m.

Record ActionEffectiveness := {
  effAction : Action;
  totalUses : Z;
  effWinRate : Q;
  avgChipsWon : Q
}.

Definition analyzeActionEffectiveness (st : t) : list ActionEffectiveness :=
  map
    (fun '(action, stats) =>
       {| effAction := action;
          totalUses := total stats;
          effWinRate := (ofZ (wins stats) / ofZ (total stats))%Q;
          avgChipsWon := (totalChips stats / ofZ (total stats))%Q |})
    (fold_left tally (experiences st) []).

End TrackerAnalysis.

Section TrackerFacts.

Import Num ExperienceTracker TrackerAnalysis.

Lemma pushCapped_fold {A} (cap : nat) (ys xs : list A) :
  (length xs <= cap)%nat ->
  fold_left (pushCapped cap) ys xs =
    drop (length (xs ++ ys) - cap) (xs ++ ys) /\
  (length (fold_left (pushCapped cap) ys xs) <= cap)%nat.
Proof.
  revert xs. induction ys as [|y ys IH]; intros xs Hlen.
  - simpl. rewrite app_nil_r.
    replace (length xs - cap)%nat with 0%nat by lia. done.
  - cbn [fold_left].
    assert (pushCapped cap xs y =
              drop (length (xs ++ [y]) - cap) (xs ++ [y]) /\
            (length (pushCapped cap xs y) <= cap)%nat) as [E Hl].
    { unfold pushCapped. rewrite length_app. cbn [length].
      destruct (cap <? length xs + 1)%nat eqn:Ec.
      - apply Nat.ltb_lt in Ec.
        replace (length xs + 1 - cap)%nat with 1%nat by lia.
        destruct (xs ++ [y]) as [|z zs] eqn:Ez.
        + by destruct xs.
        + cbn [tail drop]. split; [reflexivity|].
          assert (length (z :: zs) = length xs + 1)%nat as Hz
            by (rewrite <- Ez, length_app; simpl; lia).
          simpl in Hz. lia.
      - apply Nat.ltb_ge in Ec.
        replace (length xs + 1 - cap)%nat with 0%nat by lia.
        split; [reflexivity|]. rewrite length_app. simpl. lia. }
    destruct (IH (pushCapped cap xs y) Hl) as [-> Hl'].
    split; [|exact Hl'].
    rewrite E. set (l := xs ++ [y]). set (k := (length l - cap)%nat).
    replace (xs ++ y :: ys) with (l ++ ys)
      by (subst l; rewrite <- app_assoc; reflexivity).
    rewrite <- (drop_app_le l ys k) by lia.
    rewrite drop_drop. f_equal. rewrite length_drop, !length_app. lia.
Qed.

(** X12. The two histories are bounded first-in first-out buffers: from a
    tracker that holds at most 1000 hands (100 sessions), recording any
    number of hands (sessions) one after the other leaves the most recent
    1000 (100) of all of them, in their order of arrival. *)
Theorem recordHand_bounded (st : t) (hands : list GameExperience)
  (results : list SessionResult) :
  (length (experiences st) <= maxExperiences)%nat ->
  (length (sessions st) <= maxSessions)%nat ->
  let st' :=
    fold_left (fun s r => recordSession r s) results
      (fold_left (fun s h => recordHand h s) hands st) in
  experiences st' =
    slice (- Z.of_nat maxExperiences) (experiences st ++ hands) /\
  sessions st' = slice (- Z.of_nat maxSessions) (sessions st ++ results) /\
  (length (experiences st') <= maxExperiences)%nat /\
  (length (sessions st') <= maxSessions)%nat.
Proof.
  intros He Hs. cbv zeta.
  assert (forall hs s,
            fold_left (fun s h => recordHand h s) hs s =
              {| experiences :=
                   fold_left (pushCapped maxExperiences) hs (experiences s);
                 sessions := sessions s |}) as Hhands.
  { induction hs as [|h hs IH]; intros s; [by destruct s|].
    cbn [fold_left]. rewrite IH. reflexivity. }
  assert (forall rs s,
            fold_left (fun s r => recordSession r s) rs s =
              {| experiences := experiences s;
                 sessions :=
                   fold_left (pushCapped maxSessions) rs (sessions s) |})
    as Hsessions.
  { induction rs as [|r rs IH]; intros s; [by destruct s|].
    cbn [fold_left]. rewrite IH. reflexivity. }
  rewrite Hsessions, Hhands. cbn [experiences sessions].
  destruct (pushCapped_fold maxExperiences hands (experiences st) He)
    as [-> Hl1].
  destruct (pushCapped_fold maxSessions results (sessions st) Hs)
    as [-> Hl2].
  assert (forall A (cap : nat) (l : list A),
            (1 <= cap)%nat ->
            slice (- Z.of_nat cap) l = drop (length l - cap) l) as Hslice.
  { intros A cap l Hcap. unfold slice.
    assert ((- Z.of_nat cap <? 0) = true) as -> by lia.
    f_equal. lia. }
  rewrite !Hslice by (unfold maxExperiences, maxSessions; lia). done.
Qed.

Lemma recordHand_bounded_witness :
  let hands := replicate 3 (hitOn16 1 (25 # 1)) in
  let st' := fold_left (fun s h => recordHand h s) hands (new None None) in
  experiences st' = slice (- Z.of_nat maxExperiences) hands /\
  (length (experiences st') <= maxExperiences)%nat.
Proof.
  intros hands st'.
  destruct (recordHand_bounded (new None None) hands [])
    as (H1 & _ & H2 & _).
  - unfold maxExperiences. simpl. lia.
  - unfold maxSessions. simpl. lia.
  - split; [exact H1|exact H2].
Defined.

Lemma rate_range (a b : Z) :
  0 <= a <= b -> 0 < b -> (0 <= ofZ a / ofZ b <= 1)%Q.
Proof.
  intros Ha Hb. unfold ofZ.
  assert (0 < inject_Z b)%Q as Hb'
    by (change 0%Q with (inject_Z 0); by rewrite <- Zlt_Qlt).
  split.
  - apply Qle_shift_div_l; [done|]. ring_simplify.
    change 0%Q with (inject_Z 0). rewrite <- Zle_Qle. lia.
  - apply Qle_shift_div_r; [done|]. ring_simplify.
    rewrite <- Zle_Qle. lia.
Qed.

Lemma countFirst_range (ss : list SessionResult) :
  ss <> [] -> (0 <= countFirst ss / count ss <= 1)%Q.
Proof.
  intros Hne. unfold countFirst, count. apply rate_range.
  - split; [lia|]. apply inj_le, length_filter.
  - destruct ss; [done|]. simpl. lia.
Qed.

Lemma slice_all {A} (n : Z) (xs : list A) :
  n = 0 \/ Z.of_nat (length xs) <= n -> slice (- n) xs = xs.
Proof.
  intros H. unfold slice.
  destruct (- n <? 0) eqn:E.
  - apply Z.ltb_lt in E. rewrite Z.max_r by lia. done.
  - apply Z.ltb_ge in E. assert (n = 0) as -> by lia.
    rewrite Z.min_l by lia. done.
Qed.

(** X13. [analyzePerformance] returns all zeros when no session is
    recorded; its win rate always lies between 0 and 1; and it analyses
    every recorded session both when the count asked for is at least the
    number of sessions and when it is 0. *)
Theorem analyzePerformance_facts (st : t) (recentSessionCount : Z) :
  (sessions st = [] ->
   analyzePerformance st recentSessionCount =
     {| winRate := 0; avgRank := 0; avgChips := 0; totalProfitOf := 0 |}) /\
  (0 <= winRate (analyzePerformance st recentSessionCount) <= 1)%Q /\
  (recentSessionCount = 0 \/
   Z.of_nat (length (sessions st)) <= recentSessionCount ->
   sessions st <> [] ->
   (winRate (analyzePerformance st recentSessionCount) ==
    countFirst (sessions st) / count (sessions st))%Q).
Proof.
  unfold analyzePerformance. split; [|split].
  - intros ->. unfold slice. by rewrite drop_nil.
  - destruct (slice (- recentSessionCount) (sessions st)) as [|s ss] eqn:E.
    + simpl. lra.
    + cbn [length Nat.eqb winRate]. by apply countFirst_range.
  - intros Hn Hne. rewrite slice_all by done.
    destruct (sessions st) as [|s ss]; [done|]. reflexivity.
Qed.

Definition wonSession (n : Z) : SessionResult :=
  {| srSessionId := "s"; finalRank := n; totalPlayers := 2;
     finalChips := 1100 # 1; handsPlayed := 10; handsWon := 6;
     totalWagered := 250 # 1; netProfit := 100 # 1; payout := 75 # 1000;
     opponents := []; completedAt := 0 |}.

Lemma analyzePerformance_facts_witness :
  analyzePerformance (new None None) 20 =
    {| winRate := 0; avgRank := 0; avgChips := 0; totalProfitOf := 0 |} /\
  (winRate
     (analyzePerformance
        {| experiences := []; sessions := [wonSession 1; wonSession 2] |} 0)
   == 1 # 2)%Q.
Proof.
  split.
  - apply (analyzePerformance_facts (new None None) 20). reflexivity.
  - destruct (analyzePerformance_facts
                {| experiences := [];
                   sessions := [wonSession 1; wonSession 2] |} 0)
      as (_ & _ & H).
    rewrite H; [vm_compute; reflexivity|by left|discriminate].
Defined.

Lemma countFirst_all (ss : list SessionResult) :
  Forall (fun s => finalRank s = 1) ss -> countFirst ss = count ss.
Proof.
  intros H. unfold countFirst, count. do 3 f_equal.
  induction H as [|s ss Hs _ IH]; [done|].
  rewrite filter_cons_True by done. simpl. by rewrite IH.
Qed.

Lemma countFirst_none (ss : list SessionResult) :
  Forall (fun s => finalRank s <> 1) ss -> countFirst ss = 0%Q.
Proof.
  intros H. unfold countFirst.
  assert (filter (fun s => finalRank s = 1) ss = []) as ->; [|done].
  induction H as [|s ss Hs _ IH]; [done|].
  by rewrite filter_cons_False.
Qed.

Lemma count_pos {A} (xs : list A) : xs <> [] -> (0 < count xs)%Q.
Proof.
  intros H. unfold count, ofZ. change 0%Q with (inject_Z 0).
  rewrite <- Zlt_Qlt. destruct xs; [done|simpl; lia].
Qed.

(** X14. The performance trend is [stable] with fewer than 10 recorded
    sessions, and also when all recorded sessions were won or none was: the
    two halves of the history then have the same win rate. *)
Theorem getPerformanceTrend_stable (st : t) :
  (length (sessions st) < 10)%nat \/
  Forall (fun s => finalRank s = 1) (sessions st) \/
  Forall (fun s => finalRank s <> 1) (sessions st) ->
  getPerformanceTrend st = stable.
Proof.
  unfold getPerformanceTrend. intros H.
  destruct (length (sessions st) <? 10)%nat eqn:E; [done|].
  apply Nat.ltb_ge in E. destruct H as [H|H]; [lia|].
  set (mid := (length (sessions st) / 2)%nat).
  assert (mid < length (sessions st) /\ 1 <= mid)%nat as [Hmid1 Hmid2].
  { subst mid. split.
    - apply Nat.div_lt; lia.
    - apply Nat.div_le_lower_bound; lia. }
  assert (take mid (sessions st) <> []) as Hne1.
  { intros E1. apply (f_equal length) in E1.
    rewrite length_take in E1. simpl in E1. lia. }
  assert (drop mid (sessions st) <> []) as Hne2.
  { intros E1. apply (f_equal length) in E1.
    rewrite length_drop in E1. simpl in E1. lia. }
  pose proof (count_pos _ Hne1) as Hc1. pose proof (count_pos _ Hne2) as Hc2.
  assert (countFirst (take mid (sessions st)) / count (take mid (sessions st))
          == countFirst (drop mid (sessions st)) /
             count (drop mid (sessions st)))%Q as Heq.
  { destruct H as [H|H].
    - rewrite !countFirst_all
        by (first [by apply Forall_take | by apply Forall_drop]).
      field. split; lra.
    - rewrite !countFirst_none
        by (first [by apply Forall_take | by apply Forall_drop]).
      field. split; lra. }
  cbv zeta. fold mid.
  set (a := (countFirst (take mid (sessions st)) /
             count (take mid (sessions st)))%Q) in *.
  set (b := (countFirst (drop mid (sessions st)) /
             count (drop mid (sessions st)))%Q) in *.
  unfold Qgtb.
  destruct (Qltb (1 # 10) (b - a)) eqn:E1; [apply Qltb_lt in E1; lra|].
  destruct (Qltb (b - a) (- (1 # 10))) eqn:E2; [apply Qltb_lt in E2; lra|].
  reflexivity.
Qed.

Lemma getPerformanceTrend_stable_witness :
  getPerformanceTrend
    {| experiences := []; sessions := replicate 12 (wonSession 1) |} = stable /\
  getPerformanceTrend (new None None) = stable.
Proof.
  split; apply getPerformanceTrend_stable.
  - right. left. repeat constructor.
  - left. simpl. lia.
Defined.

(** X15. With no session recorded [getSummaryStats] reports zeros
    throughout, the number of hands included, however many hands are
    stored; with sessions it reports the stored hands and sessions and a win
    rate between 0 and 1. *)
Theorem getSummaryStats_facts (st : t) :
  (sessions st = [] ->
   getSummaryStats st =
     {| totalHands := 0; totalSessions := 0; overallWinRate := 0;
        statsAvgRank := 0; statsAvgChips := 0; statsTotalProfit := 0 |}) /\
  (sessions st <> [] ->
   totalHands (getSummaryStats st) = Z.of_nat (length (experiences st)) /\
   totalSessions (getSummaryStats st) = Z.of_nat (length (sessions st)) /\
   (0 <= overallWinRate (getSummaryStats st) <= 1)%Q).
Proof.
  unfold getSummaryStats. split.
  - intros ->. reflexivity.
  - intros Hne.
    destruct (Z.of_nat (length (sessions st)) =? 0) eqn:E.
    { apply Z.eqb_eq in E. destruct (sessions st); [done|simpl in E; lia]. }
    cbn [totalHands totalSessions overallWinRate].
    split; [done|]. split; [done|]. by apply countFirst_range.
Qed.

Lemma getSummaryStats_facts_witness :
  totalHands (getSummaryStats fiveHits) = 0 /\
  totalHands
    (getSummaryStats
       {| experiences := experiences fiveHits; sessions := [wonSession 1] |})
  = 5.
Proof.
  destruct (getSummaryStats_facts fiveHits) as [H0 _].
  destruct (getSummaryStats_facts
              {| experiences := experiences fiveHits;
                 sessions := [wonSession 1] |}) as [_ H1].
  split.
  - rewrite H0; reflexivity.
  - destruct H1 as [H _]; [discriminate|]. exact H.
Defined.

(** *** Action effectiveness *)

Definition usesOf (a : Action) (exps : list GameExperience) : Z :=
  Z.of_nat
    (length
       (filter
          (fun e => String.eqb (actionName (actionTaken e)) (actionName a)
                    = true)
          exps)).

Definition sumTotals (m : list (Action * ActionStats)) : Z :=
  foldr (fun kv acc => total kv.2 + acc) 0 m.

Lemma actionName_eqb (k key : Action) :
  String.eqb (actionName k) (actionName key) = true <-> k = key.
Proof. destruct k, key; vm_compute; split; congruence. Qed.

Lemma setStats_cases (key : Action) (v : ActionStats)
  (m : list (Action * ActionStats)) :
  ((key ∉ m.*1) /\
   getStats key m = {| wins := 0; total := 0; totalChips := 0 |} /\
   setStats key v m = m ++ [(key, v)]) \/
  (exists m1 v0 m2,
     m = m1 ++ (key, v0) :: m2 /\ (key ∉ m1.*1) /\
     getStats key m = v0 /\
     setStats key v m = m1 ++ (key, v) :: m2).
Proof.
  induction m as [|[k v'] m IH].
  - left. split; [apply not_elem_of_nil|]. done.
  - cbn [getStats setStats].
    destruct (String.eqb (actionName k) (actionName key)) eqn:E.
    + apply actionName_eqb in E. subst k. right.
      exists [], v', m. split; [done|]. split; [apply not_elem_of_nil|]. done.
    + assert (k <> key) as Hne.
      { intros ->. rewrite (proj2 (actionName_eqb key key)) in E; done. }
      destruct IH as [(Hn & Hg & Hs)|(m1 & v0 & m2 & Hm & Hn & Hg & Hs)].
      * left. split; [|split].
        -- rewrite fmap_cons. cbn [fst]. rewrite not_elem_of_cons. done.
        -- done.
        -- rewrite Hs. done.
      * right. exists ((k, v') :: m1), v0, m2. split; [|split; [|split]].
        -- rewrite Hm. done.
        -- rewrite fmap_cons. cbn [fst]. rewrite not_elem_of_cons. done.
        -- done.
        -- rewrite Hs. done.
Qed.

Lemma usesOf_snoc (a : Action) (exps : list GameExperience)
  (e : GameExperience) :
  usesOf a (exps ++ [e]) =
    usesOf a exps +
    (if String.eqb (actionName (actionTaken e)) (actionName a) then 1 else 0).
Proof.
  unfold usesOf. rewrite filter_app, length_app.
  destruct (String.eqb (actionName (actionTaken e)) (actionName a)) eqn:E.
  - rewrite filter_cons_True by done. simpl. lia.
  - rewrite filter_cons_False by (rewrite E; done). simpl. lia.
Qed.

Lemma sumTotals_app (m1 m2 : list (Action * ActionStats)) :
  sumTotals (m1 ++ m2) = sumTotals m1 + sumTotals m2.
Proof.
  unfold sumTotals. induction m1 as [|kv m1 IH]; [simpl; lia|].
  simpl. rewrite IH. lia.
Qed.

(** What holds of the [actionStats] map after the loop has run over
    [exps]. *)
Record tallied (m : list (Action * ActionStats))
  (exps : list GameExperience) : Prop := {
  tallied_keys : NoDup m.*1;
  tallied_entry k v :
    (k, v) ∈ m ->
    total v = usesOf k exps /\ 1 <= total v /\ 0 <= wins v <= total v;
  tallied_absent k : k ∉ m.*1 -> usesOf k exps = 0;
  tallied_sum : sumTotals m = Z.of_nat (length exps)
}.

Lemma tallied_nil : tallied [] [].
Proof.
  split.
  - constructor.
  - intros k v H. by apply elem_of_nil in H.
  - done.
  - done.
Qed.

Lemma tallied_step (m : list (Action * ActionStats))
  (exps : list GameExperience) (e : GameExperience) :
  tallied m exps -> tallied (tally m e) (exps ++ [e]).
Proof.
  intros [Hk He Ha Hs]. unfold tally.
  set (key := actionTaken e).
  set (v := {| wins := _; total := _; totalChips := _ |}).
  assert (forall a, usesOf a (exps ++ [e]) =
                    usesOf a exps +
                    (if String.eqb (actionName key) (actionName a)
                     then 1 else 0)) as Hu
    by (intros a; apply usesOf_snoc).
  assert (forall a, a <> key ->
                    String.eqb (actionName key) (actionName a) = false)
    as Hneq.
  { intros a Hne.
    destruct (String.eqb (actionName key) (actionName a)) eqn:E; [|done].
    apply actionName_eqb in E. congruence. }
  assert (String.eqb (actionName key) (actionName key) = true) as Hrefl
    by (by apply actionName_eqb).
  destruct (setStats_cases key v m)
    as [(Hn & Hg & ->)|(m1 & v0 & m2 & Hm & Hn & Hg & ->)].
  - assert (total v = 1 /\ 0 <= wins v <= 1) as [Ht Hw].
    { subst v. cbn [total wins]. rewrite Hg. cbn [total wins].
      destruct (isWin (handResult e)); lia. }
    split.
    + rewrite fmap_app. apply NoDup_app. split; [done|]. split.
      * intros k Hin Hin'. apply list_elem_of_singleton in Hin'.
        cbn [fst] in Hin'. congruence.
      * apply NoDup_singleton.
    + intros k v1 Hin. apply elem_of_app in Hin. destruct Hin as [Hin|Hin].
      * destruct (He k v1 Hin) as (H1 & H2 & H3).
        assert (k <> key) as Hne.
        { intros ->. apply Hn. apply list_elem_of_fmap.
          exists (key, v1). done. }
        rewrite Hu, (Hneq k Hne). lia.
      * apply list_elem_of_singleton in Hin. injection Hin as -> ->.
        rewrite Hu, Hrefl, (Ha key Hn). lia.
    + intros k Hk'. rewrite fmap_app in Hk'.
      rewrite not_elem_of_app in Hk'. destruct Hk' as [Hk1 Hk2].
      assert (k <> key) as Hne.
      { intros ->. apply Hk2. apply list_elem_of_singleton. done. }
      rewrite Hu, (Hneq k Hne), (Ha k Hk1). lia.
    + rewrite sumTotals_app, Hs, length_app. unfold sumTotals.
      cbn [foldr snd length]. lia.
  - subst m.
    assert ((key, v0) ∈ m1 ++ (key, v0) :: m2) as Hin0
      by (apply elem_of_app; right; apply elem_of_cons; by left).
    destruct (He key v0 Hin0) as (H1 & H2 & H3).
    assert (total v = total v0 + 1 /\ 0 <= wins v <= total v0 + 1)
      as [Ht Hw].
    { subst v. cbn [total wins]. rewrite Hg.
      destruct (isWin (handResult e)); lia. }
    assert ((m1 ++ (key, v) :: m2).*1 = (m1 ++ (key, v0) :: m2).*1) as Hkeys
      by (rewrite !fmap_app, !fmap_cons; done).
    split.
    + by rewrite Hkeys.
    + intros k v1 Hin. apply elem_of_app in Hin.
      rewrite elem_of_cons in Hin.
      destruct Hin as [Hin|[Hin|Hin]].
      * assert (k <> key) as Hne.
        { intros ->. apply Hn. apply list_elem_of_fmap.
          exists (key, v1). done. }
        destruct (He k v1) as (H1' & H2' & H3').
        { apply elem_of_app. by left. }
        rewrite Hu, (Hneq k Hne). lia.
      * injection Hin as -> ->. rewrite Hu, Hrefl. lia.
      * assert (k <> key) as Hne.
        { intros ->. rewrite fmap_app, fmap_cons in Hk. cbn [fst] in Hk.
          apply NoDup_app in Hk. destruct Hk as (_ & _ & Hk).
          apply NoDup_cons in Hk. destruct Hk as [Hk _]. apply Hk.
          apply list_elem_of_fmap. exists (key, v1). done. }
        destruct (He k v1) as (H1' & H2' & H3').
        { apply elem_of_app. right. apply elem_of_cons. by right. }
        rewrite Hu, (Hneq k Hne). lia.
    + intros k Hk'. rewrite Hkeys in Hk'.
      assert (k <> key) as Hne.
      { intros ->. apply Hk'. rewrite fmap_app, fmap_cons.
        apply elem_of_app. right. apply elem_of_cons. by left. }
      rewrite Hu, (Hneq k Hne), (Ha k Hk'). lia.
    + rewrite sumTotals_app in Hs |- *. unfold sumTotals in Hs |- *.
      cbn [foldr snd] in Hs |- *. rewrite length_app. cbn [length].
      lia.
Qed.

Lemma tallied_fold (exps : list GameExperience) :
  tallied (fold_left tally exps []) exps.
Proof.
  induction exps as [|e exps IH] using rev_ind; [apply tallied_nil|].
  rewrite fold_left_app. cbn [fold_left]. by apply tallied_step.
Qed.

(** X16. [analyzeActionEffectiveness] reports each action that was taken
    exactly once; an entry's [totalUses] is the number of stored hands
    played with that action and is at least 1, so that no rate divides by
    zero and the win rate lies between 0 and 1; an action never taken has no
    entry; and the [totalUses] add up to the number of stored hands. *)
Theorem analyzeActionEffectiveness_facts (st : t) :
  let report := analyzeActionEffectiveness st in
  NoDup (effAction <$> report) /\
  (forall r, r ∈ report ->
     totalUses r = usesOf (effAction r) (experiences st) /\
     1 <= totalUses r /\ (0 <= effWinRate r <= 1)%Q) /\
  (forall a, a ∉ effAction <$> report -> usesOf a (experiences st) = 0) /\
  foldr (fun r acc => totalUses r + acc) 0 report =
    Z.of_nat (length (experiences st)).
Proof.
  cbv zeta. unfold analyzeActionEffectiveness.
  destruct (tallied_fold (experiences st)) as [Hk He Ha Hs].
  set (m := fold_left tally (experiences st) []) in *.
  set (f := fun '(action, stats) => _).
  assert (effAction <$> (map f m) = m.*1) as Hkeys.
  { clear. induction m as [|[k v] m IH]; [done|].
    cbn [map fmap list_fmap]. f_equal. exact IH. }
  split; [by rewrite Hkeys|]. split; [|split].
  - intros r Hr. apply list_elem_of_fmap in Hr.
    destruct Hr as ([k v] & -> & Hin).
    destruct (He k v Hin) as (H1 & H2 & H3).
    cbn [f effAction totalUses effWinRate].
    split; [done|]. split; [done|]. apply rate_range; lia.
  - intros a Hn. rewrite Hkeys in Hn. by apply Ha.
  - rewrite <- Hs. clear. unfold sumTotals.
    induction m as [|[k v] m IH]; [done|].
    cbn [map foldr f totalUses snd]. by rewrite IH.
Qed.

End TrackerFacts.


(** ** Opponent profiles over a history of sessions and observed hands *)

Section ProfileHistory.

Import Num OpponentProfiler.

(** What reaches the profiler: the end of a session in which an opponent
    took part, or a hand an opponent was seen to play. *)
Inductive ProfilerOp :=
  | sessionSeen (now : Z) (wallet : string)
      (sessionData : OpponentSessionData) (bobRank : Z)
  | handSeen (wallet : string) (observation : Observation).

Definition applyOp (profiles : gmap string OpponentProfile)
  (op : ProfilerOp) : gmap string OpponentProfile :=
  match op with
  | sessionSeen now wallet sessionData bobRank =>
      updateProfile now wallet sessionData bobRank profiles
  | handSeen wallet observation =>
      updateWithHandObservation wallet observation profiles
  end.

Definition runOps (ops : list ProfilerOp)
  (profiles : gmap string OpponentProfile) : gmap string OpponentProfile :=
  fold_left applyOp ops profiles.

(** The five pattern frequencies that hand observations move. *)
Definition observedPatterns (p : ProfilePatterns) : list Q :=
  [hitOn16VsDealer7 p; standOn12VsDealer2 p; doubleOn11 p; splitAces p;
   split10s p].

Definition unitRange (x : Q) : Prop := (0 <= x <= 1)%Q.

(** A profile as the profiler keeps it under the key [key]. *)
Record wellKept (key : string) (p : OpponentProfile) : Prop := {
  kept_key : walletAddress p = key;
  kept_sessions : 1 <= sessionsPlayed p;
  kept_bobWins : 0 <= bobWins p;
  kept_opponentWins : 0 <= opponentWins p;
  kept_record : bobWins p + opponentWins p <= sessionsPlayed p;
  kept_skill : unitRange (skillScore (stats p));
  kept_patterns : Forall unitRange (observedPatterns (patterns p))
}.

Lemma updateProfile_lookup now wallet sessionData bobRank
  (profiles : gmap string OpponentProfile) :
  let old := profileBefore now wallet profiles in
  exists p,
    updateProfile now wallet sessionData bobRank profiles !! wallet = Some p /\
    walletAddress p = walletAddress old /\
    sessionsPlayed p = sessionsPlayed old + 1 /\
    lastSeenAt p = now /\
    firstSeenAt p = firstSeenAt old /\
    patterns p = patterns old /\
    bobWins p =
      (if bobRank <? osdFinalRank sessionData then bobWins old + 1
       else bobWins old) /\
    opponentWins p =
      (if osdFinalRank sessionData <? bobRank then opponentWins old + 1
       else opponentWins old) /\
    unitRange (skillScore (stats p)) /\
    avgBetSize (stats p) =
      runningAverage (avgBetSize (stats old)) (osdAvgBetSize sessionData)
        (sessionsPlayed old + 1).
Proof.
  cbv zeta. unfold updateProfile, profileBefore.
  set (old := match profiles !! wallet with
              | Some profile => profile
              | None => createNewProfile now wallet
              end).
  assert (default (createNewProfile now wallet) (profiles !! wallet) = old)
    as -> by (subst old; by destruct (profiles !! wallet)).
  eexists. split; [apply lookup_insert_eq|].
  split; [reflexivity|]. split; [reflexivity|]. split; [reflexivity|].
  split; [reflexivity|]. split; [reflexivity|]. split; [reflexivity|].
  split; [|split].
  - cbn [opponentWins identifyWeaknesses withWeaknesses calculateScores
         withStats updateStats].
    rewrite Z.gtb_ltb.
    destruct (bobRank <? osdFinalRank sessionData) eqn:E1;
      destruct (osdFinalRank sessionData <? bobRank) eqn:E2; try reflexivity.
    apply Z.ltb_lt in E1, E2. lia.
  - match goal with
    | |- unitRange (skillScore (stats (identifyWeaknesses
                                         (calculateScores ?p)))) =>
        exact (proj1 (calculateScores_skill_consistency p))
    end.
  - reflexivity.
Qed.

(** X17. A session update touches the profile of its wallet and no other:
    the profile, created if the wallet is new, has one more session, the
    time of the update as [lastSeenAt], its [firstSeenAt], its pattern
    frequencies and its wallet unchanged, and a win more for Bob when he
    ranked better, for the opponent when Bob ranked worse, for neither on
    equal ranks. *)
Theorem updateProfile_bookkeeping (now : Z) (wallet : string)
  (sessionData : OpponentSessionData) (bobRank : Z)
  (profiles : gmap string OpponentProfile) :
  let old := profileBefore now wallet profiles in
  let profiles' := updateProfile now wallet sessionData bobRank profiles in
  (forall other, other <> wallet -> profiles' !! other = profiles !! other) /\
  exists p,
    profiles' !! wallet = Some p /\
    walletAddress p = walletAddress old /\
    sessionsPlayed p = sessionsPlayed old + 1 /\
    lastSeenAt p = now /\
    firstSeenAt p = firstSeenAt old /\
    patterns p = patterns old /\
    bobWins p + opponentWins p =
      bobWins old + opponentWins old +
      (if bobRank =? osdFinalRank sessionData then 0 else 1) /\
    (bobRank < osdFinalRank sessionData -> bobWins p = bobWins old + 1) /\
    (osdFinalRank sessionData < bobRank ->
     opponentWins p = opponentWins old + 1).
Proof.
  cbv zeta. split.
  - intros other Hne. unfold updateProfile. by rewrite lookup_insert_ne.
  - destruct (updateProfile_lookup now wallet sessionData bobRank profiles)
      as (p & Hp & Hw & Hs & Hl & Hf & Hpat & Hb & Ho & _).
    exists p.
    split; [done|]. split; [done|]. split; [done|]. split; [done|].
    split; [done|]. split; [done|]. rewrite Hb, Ho. split; [|split].
    + destruct (Z.ltb_spec bobRank (osdFinalRank sessionData));
        destruct (Z.ltb_spec (osdFinalRank sessionData) bobRank);
        destruct (Z.eqb_spec bobRank (osdFinalRank sessionData)); lia.
    + intros H. apply Z.ltb_lt in H. by rewrite H.
    + intros H. apply Z.ltb_lt in H. by rewrite H.
Qed.

Lemma createNewProfile_patterns now wallet :
  Forall unitRange (observedPatterns (patterns (createNewProfile now wallet))).
Proof. repeat constructor; vm_compute; congruence. Qed.

Lemma updateProfile_wellKept now wallet sessionData bobRank
  (profiles : gmap string OpponentProfile) :
  map_Forall wellKept profiles ->
  map_Forall wellKept (updateProfile now wallet sessionData bobRank profiles).
Proof.
  intros Hall key p Hp.
  destruct (decide (key = wallet)) as [->|Hne].
  - destruct (updateProfile_lookup now wallet sessionData bobRank profiles)
      as (p' & Hp' & Hw & Hs & _ & _ & Hpat & Hb & Ho & Hskill & _).
    rewrite Hp in Hp'. injection Hp' as <-.
    unfold profileBefore in *.
    destruct (profiles !! wallet) as [old|] eqn:E;
      cbv [default from_option id] in Hw, Hs, Hpat, Hb, Ho.
    + destruct (Hall wallet old E) as [K1 K2 K3 K4 K5 K6 K7].
      split.
      * congruence.
      * lia.
      * rewrite Hb. destruct (bobRank <? osdFinalRank sessionData); lia.
      * rewrite Ho. destruct (osdFinalRank sessionData <? bobRank); lia.
      * rewrite Hb, Ho, Hs.
        destruct (Z.ltb_spec bobRank (osdFinalRank sessionData));
          destruct (Z.ltb_spec (osdFinalRank sessionData) bobRank); lia.
      * done.
      * by rewrite Hpat.
    + split.
      * by rewrite Hw.
      * rewrite Hs. cbn. lia.
      * rewrite Hb. cbn. destruct (bobRank <? osdFinalRank sessionData); lia.
      * rewrite Ho. cbn. destruct (osdFinalRank sessionData <? bobRank); lia.
      * rewrite Hb, Ho, Hs. cbn.
        destruct (Z.ltb_spec bobRank (osdFinalRank sessionData));
          destruct (Z.ltb_spec (osdFinalRank sessionData) bobRank); lia.
      * done.
      * rewrite Hpat. apply createNewProfile_patterns.
  - apply (Hall key p). unfold updateProfile in Hp.
    by rewrite lookup_insert_ne in Hp.
Qed.

Lemma alpha_range (weight : Z) :
  (0 < 1 / ofZ (Z.max 1 weight) <= 1)%Q.
Proof.
  unfold ofZ.
  assert (1 <= inject_Z (Z.max 1 weight))%Q as H.
  { change 1%Q with (inject_Z 1). rewrite <- Zle_Qle. lia. }
  split.
  - apply Qlt_shift_div_l; lra.
  - apply Qle_shift_div_r; lra.
Qed.

Lemma updateFrequency_observed (current : Q) (weight : Z) :
  unitRange current ->
  unitRange (updateFrequency current 1 weight) /\
  (current <= updateFrequency current 1 weight)%Q.
Proof.
  unfold unitRange, updateFrequency. intros [H0 H1].
  pose proof (alpha_range weight) as [Ha0 Ha1].
  set (alpha := (1 / ofZ (Z.max 1 weight))%Q) in *. clearbody alpha.
  repeat split; nra.
Qed.

Lemma updateFrequency_first (current : Q) (weight : Z) :
  weight <= 1 -> (updateFrequency current 1 weight == 1)%Q.
Proof.
  intros H. unfold updateFrequency. rewrite Z.max_l by lia.
  unfold ofZ. change (inject_Z 1) with 1%Q. field.
Qed.

(** How a hand observation relates the profile it finds to the one it
    leaves: everything but the five observed frequencies is the same, and
    none of these has gone down. *)
Definition observedFrom (old p : OpponentProfile) : Prop :=
  walletAddress p = walletAddress old /\
  sessionsPlayed p = sessionsPlayed old /\
  lastSeenAt p = lastSeenAt old /\
  firstSeenAt p = firstSeenAt old /\
  bobWins p = bobWins old /\
  opponentWins p = opponentWins old /\
  stats p = stats old /\
  weaknesses p = weaknesses old /\
  increaseBetAfterWin (patterns p) = increaseBetAfterWin (patterns old) /\
  increaseBetAfterLoss (patterns p) = increaseBetAfterLoss (patterns old) /\
  averageRiskLevel (patterns p) = averageRiskLevel (patterns old) /\
  Forall unitRange (observedPatterns (patterns p)) /\
  Forall2 Qle (observedPatterns (patterns old))
    (observedPatterns (patterns p)).

Lemma observedFrom_refl (old : OpponentProfile) :
  Forall unitRange (observedPatterns (patterns old)) -> observedFrom old old.
Proof.
  intros H. unfold observedFrom. do 11 (split; [reflexivity|]).
  split; [done|]. unfold observedPatterns.
  repeat (constructor 2; [apply Qle_refl|]). constructor 1.
Qed.

Lemma updateWithHandObservation_lookup wallet observation
  (profiles : gmap string OpponentProfile) (old : OpponentProfile) :
  profiles !! wallet = Some old ->
  Forall unitRange (observedPatterns (patterns old)) ->
  exists p,
    updateWithHandObservation wallet observation profiles !! wallet = Some p /\
    observedFrom old p.
Proof.
  intros Hold Hpat. unfold updateWithHandObservation. rewrite Hold.
  unfold observedPatterns in Hpat.
  apply Forall_cons in Hpat as [P1 Hpat].
  apply Forall_cons in Hpat as [P2 Hpat].
  apply Forall_cons in Hpat as [P3 Hpat].
  apply Forall_cons in Hpat as [P4 Hpat].
  apply Forall_cons in Hpat as [P5 _].
  pose proof (updateFrequency_observed _ (sessionsPlayed old) P1) as [B1 M1].
  pose proof (updateFrequency_observed _ (sessionsPlayed old) P2) as [B2 M2].
  pose proof (updateFrequency_observed _ (sessionsPlayed old) P3) as [B3 M3].
  pose proof (updateFrequency_observed _ (sessionsPlayed old) P4) as [B4 M4].
  pose proof (updateFrequency_observed _ (sessionsPlayed old) P5) as [B5 M5].
  repeat case_match;
    (eexists; split; [first [apply lookup_insert_eq | exact Hold]|]);
    unfold observedFrom, observedPatterns;
    cbn [walletAddress sessionsPlayed lastSeenAt firstSeenAt bobWins
         opponentWins stats weaknesses patterns withPatterns
         hitOn16VsDealer7 standOn12VsDealer2 doubleOn11 splitAces split10s
         increaseBetAfterWin increaseBetAfterLoss averageRiskLevel];
    (split; [reflexivity|]); (split; [reflexivity|]);
    (split; [reflexivity|]); (split; [reflexivity|]);
    (split; [reflexivity|]); (split; [reflexivity|]);
    (split; [reflexivity|]); (split; [reflexivity|]);
    (split; [reflexivity|]); (split; [reflexivity|]);
    (split; [reflexivity|]);
    (split;
     [repeat (constructor 2; [assumption|]); constructor 1
     |repeat (constructor 2; [first [assumption|apply Qle_refl]|]);
      constructor 1]).
Qed.

Lemma updateWithHandObservation_unknown wallet observation
  (profiles : gmap string OpponentProfile) :
  profiles !! wallet = None ->
  updateWithHandObservation wallet observation profiles = profiles.
Proof. intros H. unfold updateWithHandObservation. by rewrite H. Qed.

Lemma updateWithHandObservation_other wallet observation
  (profiles : gmap string OpponentProfile) (other : string) :
  other <> wallet ->
  updateWithHandObservation wallet observation profiles !! other =
    profiles !! other.
Proof.
  intros Hne. unfold updateWithHandObservation.
  destruct (profiles !! wallet); [|done].
  repeat case_match; by rewrite ?lookup_insert_ne.
Qed.

(** X18. A hand observation does nothing for a wallet without a profile and
    never touches another wallet's profile.  For a known wallet whose
    observed frequencies lie between 0 and 1 it changes these frequencies at
    most: they stay between 0 and 1 and none of them decreases, since every
    recognised observation counts as an occurrence. *)
Theorem updateWithHandObservation_effect (wallet : string)
  (observation : Observation) (profiles : gmap string OpponentProfile) :
  let profiles' := updateWithHandObservation wallet observation profiles in
  (profiles !! wallet = None -> profiles' = profiles) /\
  (forall other, other <> wallet -> profiles' !! other = profiles !! other) /\
  (forall old,
     profiles !! wallet = Some old ->
     Forall unitRange (observedPatterns (patterns old)) ->
     exists p, profiles' !! wallet = Some p /\ observedFrom old p).
Proof.
  cbv zeta. split; [|split].
  - apply updateWithHandObservation_unknown.
  - intros other. apply updateWithHandObservation_other.
  - apply updateWithHandObservation_lookup.
Qed.

Lemma updateWithHandObservation_wellKept wallet observation
  (profiles : gmap string OpponentProfile) :
  map_Forall wellKept profiles ->
  map_Forall wellKept (updateWithHandObservation wallet observation profiles).
Proof.
  intros Hall key p Hp.
  destruct (decide (key = wallet)) as [->|Hne].
  - destruct (profiles !! wallet) as [old|] eqn:E.
    + destruct (Hall wallet old E) as [K1 K2 K3 K4 K5 K6 K7].
      destruct (updateWithHandObservation_lookup wallet observation
                  profiles old E K7)
        as (p' & Hp' & O1 & O2 & _ & _ & O5 & O6 & O7 & _ & _ & _ & _ & O12
            & _).
      rewrite Hp in Hp'. injection Hp' as <-.
      split; [congruence|lia|lia|lia|lia|by rewrite O7|done].
    + rewrite (updateWithHandObservation_unknown _ _ _ E) in Hp. congruence.
  - rewrite (updateWithHandObservation_other _ _ _ _ Hne) in Hp.
    by apply (Hall key p).
Qed.

(** X19. Whatever sessions and hands reach the profiler, in whatever order,
    every profile is stored under its own wallet address, has played at
    least one session, has a win/loss record that counts at most one result
    per session, a skill score between 0 and 1 and observed frequencies
    between 0 and 1, provided the profiles it started with (those read from
    the memory file) had. *)
Theorem profiles_wellKept (ops : list ProfilerOp)
  (profiles : gmap string OpponentProfile) :
  map_Forall wellKept profiles ->
  map_Forall wellKept (runOps ops profiles).
Proof.
  unfold runOps. revert profiles.
  induction ops as [|op ops IH]; intros profiles H; [done|].
  cbn [fold_left]. apply IH. destruct op; cbn [applyOp].
  - by apply updateProfile_wellKept.
  - by apply updateWithHandObservation_wellKept.
Qed.

Definition splitTens : Observation :=
  {| situation := "TT"; obsAction := "split" |}.

Lemma profiles_wellKept_witness :
  map_Forall wellKept
    (runOps
       [sessionSeen 1 "opp" (sessionOf "opp" (50 # 1) 2 8) 1;
        handSeen "opp" splitTens;
        sessionSeen 2 "opp" (sessionOf "opp" (50 # 1) 2 8) 3]
       (new None)).
Proof.
  apply profiles_wellKept. unfold new. cbn [default].
  apply map_Forall_empty.
Defined.

(** *** The running averages *)

Lemma updateProfile_avgBetSize now wallet sessionData bobRank
  (profiles : gmap string OpponentProfile) :
  exists p,
    updateProfile now wallet sessionData bobRank profiles !! wallet = Some p /\
    sessionsPlayed p = sessionsPlayed (profileBefore now wallet profiles) + 1 /\
    avgBetSize (stats p) =
      runningAverage
        (avgBetSize (stats (profileBefore now wallet profiles)))
        (osdAvgBetSize sessionData)
        (sessionsPlayed (profileBefore now wallet profiles) + 1).
Proof.
  destruct (updateProfile_lookup now wallet sessionData bobRank profiles)
    as (p & Hp & _ & Hs & _ & _ & _ & _ & _ & _ & Havg).
  exists p. done.
Qed.

(** The sessions of one opponent, as [recordSession] hands them over. *)
Definition seeSessions (wallet : string)
  (sessions : list (Z * OpponentSessionData * Z))
  (profiles : gmap string OpponentProfile) : gmap string OpponentProfile :=
  fold_left
    (fun profiles '(now, sessionData, bobRank) =>
       updateProfile now wallet sessionData bobRank profiles)
    sessions profiles.

(** X20. The average bet size lags behind: the session counter is
    incremented before the running average uses it, so for a new opponent
    who bets [b] on average in each of [k] sessions the stored average is
    [b * k / (k + 1)], which is half of [b] after the first session. *)
Theorem avgBetSize_lags (wallet : string)
  (sessions : list (Z * OpponentSessionData * Z)) (b : Q)
  (profiles : gmap string OpponentProfile) :
  profiles !! wallet = None ->
  sessions <> [] ->
  Forall (fun s => (osdAvgBetSize s.1.2 == b)%Q) sessions ->
  exists p,
    seeSessions wallet sessions profiles !! wallet = Some p /\
    sessionsPlayed p = Z.of_nat (length sessions) /\
    (avgBetSize (stats p) ==
     b * ofZ (Z.of_nat (length sessions)) /
     (ofZ (Z.of_nat (length sessions)) + 1))%Q.
Proof.
  intros Hnew. unfold seeSessions.
  induction sessions as [|[[now sessionData] bobRank] sessions IH]
    using rev_ind; [done|].
  intros _ Hall. apply Forall_app in Hall as [Hall Hlast].
  apply List.Forall_inv in Hlast. cbn [fst snd] in Hlast.
  rewrite fold_left_app. cbn [fold_left].
  set (before := fold_left _ sessions profiles) in *.
  destruct (updateProfile_avgBetSize now wallet sessionData bobRank before)
    as (p & Hp & Hs & Havg).
  exists p. split; [exact Hp|].
  rewrite Hs, Havg, length_app. cbn [length].
  unfold runningAverage, profileBefore.
  destruct sessions as [|s sessions].
  - subst before. cbn [fold_left]. rewrite Hnew.
    cbv [default from_option id].
    cbn [createNewProfile sessionsPlayed stats avgBetSize length Nat.add].
    split; [reflexivity|]. rewrite Hlast. unfold ofZ.
    change (inject_Z (0 + 1)) with 1%Q. change (inject_Z 1) with 1%Q.
    change (inject_Z (Z.of_nat 1)) with 1%Q. field.
  - destruct (IH ltac:(done) Hall) as (q & -> & Hqs & Hq).
    cbv [default from_option id]. rewrite Hqs. split; [lia|].
    rewrite Hq, Hlast.
    set (k := Z.of_nat (length (s :: sessions))).
    replace (Z.of_nat (length (s :: sessions) + 1)) with (k + 1)
      by (subst k; lia).
    assert (0 <= k) by (subst k; lia).
    unfold ofZ. rewrite !inject_Z_plus. change (inject_Z 1) with 1%Q.
    assert (0 <= inject_Z k)%Q
      by (change 0%Q with (inject_Z 0); rewrite <- Zle_Qle; lia).
    field. split; lra.
Qed.

Lemma avgBetSize_lags_witness :
  exists p,
    seeSessions "opp"
      [(1, sessionOf "opp" (60 # 1) 1 9, 1);
       (2, sessionOf "opp" (60 # 1) 0 7, 2)] ∅ !! "opp" = Some p /\
    sessionsPlayed p = 2 /\
    (avgBetSize (stats p) == 40 # 1)%Q.
Proof.
  destruct (avgBetSize_lags "opp"
              [(1, sessionOf "opp" (60 # 1) 1 9, 1);
               (2, sessionOf "opp" (60 # 1) 0 7, 2)] (60 # 1) ∅)
    as (p & Hp & Hs & Havg).
  - apply lookup_empty.
  - discriminate.
  - repeat constructor.
  - exists p. split; [exact Hp|]. split; [exact Hs|].
    rewrite Havg. vm_compute. reflexivity.
Defined.

(** *** The statistics *)

(** Session data as a table reports it: counts and the average bet are not
    negative. *)
Definition plausible (sessionData : OpponentSessionData) : Prop :=
  (0 <= osdAvgBetSize sessionData)%Q /\
  0 <= totalHits sessionData /\ 0 <= totalStands sessionData /\
  0 <= totalDoubles sessionData /\ 0 <= totalSplits sessionData.

Definition plausibleOp (op : ProfilerOp) : Prop :=
  match op with
  | sessionSeen _ _ sessionData _ => plausible sessionData
  | handSeen _ _ => True
  end.

Record wellMeasured (p : OpponentProfile) : Prop := {
  measured_sessions : 0 <= sessionsPlayed p;
  measured_bet : (0 <= avgBetSize (stats p))%Q;
  measured_hit : (0 <= hitFrequency (stats p))%Q;
  measured_stand : (0 <= standFrequency (stats p))%Q;
  measured_double : (0 <= doubleFrequency (stats p))%Q;
  measured_split : (0 <= splitFrequency (stats p))%Q;
  measured_total :
    (hitFrequency (stats p) + standFrequency (stats p) +
     doubleFrequency (stats p) + splitFrequency (stats p) <= 1)%Q;
  measured_aggression : (0 <= aggressionScore (stats p) <= 3 # 2)%Q
}.

Lemma ofZ_nonneg (n : Z) : 0 <= n -> (0 <= ofZ n)%Q.
Proof.
  intros H. unfold ofZ. change 0%Q with (inject_Z 0). by rewrite <- Zle_Qle.
Qed.

Lemma runningAverage_nonneg (currentAvg newValue : Q) (n : Z) :
  (0 <= currentAvg)%Q -> (0 <= newValue)%Q -> 0 <= n ->
  (0 <= runningAverage currentAvg newValue n)%Q.
Proof.
  intros Hc Hv Hn. apply ofZ_nonneg in Hn. unfold runningAverage.
  apply Qle_shift_div_l; [lra|]. nra.
Qed.

Lemma runningAverage_total (a b c d x y z w : Q) (n : Z) :
  0 <= n -> (a + b + c + d <= 1)%Q -> (x + y + z + w == 1)%Q ->
  (runningAverage a x n + runningAverage b y n + runningAverage c z n +
   runningAverage d w n <= 1)%Q.
Proof.
  intros Hn Hs Hx. apply ofZ_nonneg in Hn. unfold runningAverage.
  assert ((a * ofZ n + x) / (ofZ n + 1) + (b * ofZ n + y) / (ofZ n + 1) +
          (c * ofZ n + z) / (ofZ n + 1) + (d * ofZ n + w) / (ofZ n + 1)
          == ((a + b + c + d) * ofZ n + (x + y + z + w)) / (ofZ n + 1))%Q
    as -> by (field; lra).
  rewrite Hx. apply Qle_shift_div_r; [lra|]. nra.
Qed.

Lemma shares_total (h s d p : Z) :
  0 < h + s + d + p ->
  (ofZ h / ofZ (h + s + d + p) + ofZ s / ofZ (h + s + d + p) +
   ofZ d / ofZ (h + s + d + p) + ofZ p / ofZ (h + s + d + p) == 1)%Q.
Proof.
  intros H. unfold ofZ. rewrite !inject_Z_plus.
  assert (0 < inject_Z h + inject_Z s + inject_Z d + inject_Z p)%Q as H'.
  { rewrite <- !inject_Z_plus. change 0%Q with (inject_Z 0).
    by rewrite <- Zlt_Qlt. }
  field. lra.
Qed.

Lemma share_nonneg (count total : Z) :
  0 <= count -> 0 < total -> (0 <= ofZ count / ofZ total)%Q.
Proof.
  intros Hc Ht. apply Qle_shift_div_l.
  - unfold ofZ. change 0%Q with (inject_Z 0). by rewrite <- Zlt_Qlt.
  - apply ofZ_nonneg in Hc. lra.
Qed.

Lemma updateProfile_stats now wallet sessionData bobRank
  (profiles : gmap string OpponentProfile) :
  let old := profileBefore now wallet profiles in
  let n := sessionsPlayed old + 1 in
  let totalActions :=
    totalHits sessionData + totalStands sessionData +
    totalDoubles sessionData + totalSplits sessionData in
  let freq (current : Q) (count : Z) : Q :=
    if totalActions >? 0 then
      runningAverage current (ofZ count / ofZ totalActions)%Q n
    else current in
  exists p,
    updateProfile now wallet sessionData bobRank profiles !! wallet = Some p /\
    sessionsPlayed p = n /\
    avgBetSize (stats p) =
      runningAverage (avgBetSize (stats old)) (osdAvgBetSize sessionData) n /\
    hitFrequency (stats p) =
      freq (hitFrequency (stats old)) (totalHits sessionData) /\
    standFrequency (stats p) =
      freq (standFrequency (stats old)) (totalStands sessionData) /\
    doubleFrequency (stats p) =
      freq (doubleFrequency (stats old)) (totalDoubles sessionData) /\
    splitFrequency (stats p) =
      freq (splitFrequency (stats old)) (totalSplits sessionData) /\
    aggressionScore (stats p) =
      ((Math_min 1 (avgBetSize (stats p) / (75 # 1)) +
        doubleFrequency (stats p) * (2 # 1)) / (2 # 1))%Q.
Proof.
  cbv zeta. unfold updateProfile, profileBefore.
  set (old := match profiles !! wallet with
              | Some profile => profile
              | None => createNewProfile now wallet
              end).
  assert (default (createNewProfile now wallet) (profiles !! wallet) = old)
    as -> by (subst old; by destruct (profiles !! wallet)).
  eexists. split; [apply lookup_insert_eq|].
  repeat (split; [reflexivity|]). reflexivity.
Qed.

Lemma createNewProfile_wellMeasured now wallet :
  wellMeasured (createNewProfile now wallet).
Proof. split; cbn; try lia; try lra; vm_compute; split; congruence. Qed.

Lemma updateProfile_wellMeasured now wallet sessionData bobRank
  (profiles : gmap string OpponentProfile) :
  plausible sessionData ->
  map_Forall (fun _ => wellMeasured) profiles ->
  map_Forall (fun _ => wellMeasured)
    (updateProfile now wallet sessionData bobRank profiles).
Proof.
  intros (Hbet & Hh & Hs & Hd & Hp) Hall key p Hlook.
  destruct (decide (key = wallet)) as [->|Hne].
  2:{ unfold updateProfile in Hlook. rewrite lookup_insert_ne in Hlook by done.
      by apply (Hall key p). }
  destruct (updateProfile_stats now wallet sessionData bobRank profiles)
    as (p' & Hp' & En & Ebet & Ehit & Estand & Edouble & Esplit & Eagg).
  rewrite Hlook in Hp'. injection Hp' as <-.
  assert (wellMeasured (profileBefore now wallet profiles))
    as [M1 M2 M3 M4 M5 M6 M7 _].
  { unfold profileBefore. destruct (profiles !! wallet) as [old|] eqn:E.
    - exact (Hall wallet old E).
    - apply createNewProfile_wellMeasured. }
  set (old := profileBefore now wallet profiles) in *.
  set (n := sessionsPlayed old + 1) in *.
  assert (0 <= n) as Hn by (subst n; lia).
  set (T := totalHits sessionData + totalStands sessionData +
            totalDoubles sessionData + totalSplits sessionData) in *.
  assert ((0 <= avgBetSize (stats p))%Q) as Rbet
    by (rewrite Ebet; by apply runningAverage_nonneg).
  assert ((0 <= hitFrequency (stats p))%Q /\
          (0 <= standFrequency (stats p))%Q /\
          (0 <= doubleFrequency (stats p))%Q /\
          (0 <= splitFrequency (stats p))%Q /\
          (hitFrequency (stats p) + standFrequency (stats p) +
           doubleFrequency (stats p) + splitFrequency (stats p) <= 1)%Q)
    as (R1 & R2 & R3 & R4 & R5).
  { rewrite Ehit, Estand, Edouble, Esplit.
    destruct (T >? 0) eqn:ET; [|done].
    apply Z.gtb_lt in ET.
    repeat split;
      try (apply runningAverage_nonneg; [done| |done];
           by apply share_nonneg).
    apply runningAverage_total; [done|done|].
    subst T. by apply shares_total. }
  split; [by rewrite En|done|done|done|done|done|done|].
  rewrite Eagg.
  destruct (Math_min_spec 1 (avgBetSize (stats p) / (75 # 1)))
    as [[Hm ->]|[Hm ->]].
  - split.
    + apply Qle_shift_div_l; [lra|]. lra.
    + apply Qle_shift_div_r; [lra|]. lra.
  - assert (0 <= avgBetSize (stats p) / (75 # 1))%Q
      by (apply Qle_shift_div_l; lra).
    split.
    + apply Qle_shift_div_l; [lra|]. lra.
    + apply Qle_shift_div_r; [lra|]. lra.
Qed.

Lemma updateWithHandObservation_wellMeasured wallet observation
  (profiles : gmap string OpponentProfile) :
  map_Forall (fun _ => wellMeasured) profiles ->
  map_Forall (fun _ => wellMeasured)
    (updateWithHandObservation wallet observation profiles).
Proof.
  intros Hall key p Hp. unfold updateWithHandObservation in Hp.
  destruct (profiles !! wallet) as [old|] eqn:E; [|by apply (Hall key p)].
  assert (forall q,
            <[wallet := withPatterns old q]> profiles !! key = Some p ->
            wellMeasured p) as Hins.
  { intros q Hq. destruct (decide (key = wallet)) as [->|Hne].
    - rewrite lookup_insert_eq in Hq. injection Hq as <-.
      destruct (Hall wallet old E). by split.
    - rewrite lookup_insert_ne in Hq by done. by apply (Hall key p). }
  repeat case_match; first [by eapply Hins | by apply (Hall key p)].
Qed.

(** X21. Fed with session data whose counts and average bet are not
    negative, the profiler keeps every profile's statistics in range: the
    average bet and the four action frequencies are not negative, the
    frequencies add up to at most 1, and the aggression score lies between 0
    and 1.5 (it is half the sum of a term capped at 1 and of twice the
    double frequency). *)
Theorem profiles_wellMeasured (ops : list ProfilerOp)
  (profiles : gmap string OpponentProfile) :
  Forall plausibleOp ops ->
  map_Forall (fun _ => wellMeasured) profiles ->
  map_Forall (fun _ => wellMeasured) (runOps ops profiles).
Proof.
  unfold runOps. revert profiles.
  induction ops as [|op ops IH]; intros profiles Hops H; [done|].
  apply Forall_cons in Hops as [Hop Hops].
  cbn [fold_left]. apply IH; [done|]. destruct op; cbn [applyOp].
  - by apply updateProfile_wellMeasured.
  - by apply updateWithHandObservation_wellMeasured.
Qed.

Lemma profiles_wellMeasured_witness :
  map_Forall (fun _ => wellMeasured)
    (runOps
       [sessionSeen 1 "opp" doublesEveryHand 1;
        handSeen "opp" splitTens;
        sessionSeen 2 "opp" doublesEveryHand 1]
       ∅).
Proof.
  apply profiles_wellMeasured.
  - repeat (constructor 2;
            [first [exact I | vm_compute; repeat split; congruence]|]).
    constructor 1.
  - apply map_Forall_empty.
Defined.

End ProfileHistory.


(** ** The memory file: what [save] writes and [load] reads back *)

Section MemoryFile.

Import Num MemoryManager.

Lemma save_succeeds (s : System) :
  saveFault (fs (world s)) = None ->
  exists s',
    save s = (Ok tt, s') /\
    coordinator s' = coordinator s /\
    now (world s') = now (world s) /\
    memoryFile (fs (world s')) =
      Some (Json (serializable (memory (coordinator s)) (now (world s)))) /\
    readFault (fs (world s')) = readFault (fs (world s)) /\
    mkdirFault (fs (world s')) = mkdirFault (fs (world s)) /\
    writeFault (fs (world s')) = writeFault (fs (world s)).
Proof.
  unfold saveFault, save, ensureDataDirectory, Eff.tryCatch, mbind,
    eff_bind, Eff.bind, mkdir, writeTextFile.
  destruct (mkdirFault (fs (world s))) as [[]|] eqn:Emk; try discriminate;
    intros Hwr; cbn; rewrite Hwr; cbn;
    eexists; repeat split; try reflexivity; by rewrite ?Emk, ?Hwr.
Qed.

Lemma load_parsed (s : System) (loaded : SerializedMemory) :
  loadable (fs (world s)) = Some loaded ->
  exists s',
    load s = (Ok (hydrate loaded), s') /\
    memory (coordinator s') = hydrate loaded /\
    fs (world s') = fs (world s) /\
    profiler (coordinator s') = profiler (coordinator s) /\
    tracker (coordinator s') = tracker (coordinator s) /\
    enabled (coordinator s') = enabled (coordinator s) /\
    currentSessionId (coordinator s') = currentSessionId (coordinator s) /\
    currentSessionHandCount (coordinator s') =
      currentSessionHandCount (coordinator s).
Proof.
  unfold loadable, load, Eff.tryCatch, mbind, eff_bind, Eff.bind,
    readTextFile.
  destruct (readFault (fs (world s))); [discriminate|].
  destruct (memoryFile (fs (world s))) as [[|loaded']|]; try discriminate.
  intros [= ->]. cbn. eexists. repeat split; reflexivity.
Qed.

(** X22. [save] either writes the memory as it is at that moment, stamped
    with the current time, and logs it at debug level, or logs an error and
    raises that same error.  When the error is that of [mkdir] (other than
    "already exists") nothing has touched the file.  When it is that of the
    write, the file holds what the failed write left of it, which need not
    be what it held before: the file is written in place.  In no case does
    [save] change the coordinator. *)
Theorem save_outcome (s : System) :
  exists outcome s',
    save s = (outcome, s') /\
    coordinator s' = coordinator s /\
    now (world s') = now (world s) /\
    readFault (fs (world s')) = readFault (fs (world s)) /\
    mkdirFault (fs (world s')) = mkdirFault (fs (world s)) /\
    writeFault (fs (world s')) = writeFault (fs (world s)) /\
    leftByFailedWrite (fs (world s')) = leftByFailedWrite (fs (world s)) /\
    match saveFault (fs (world s)) with
    | Some e =>
        outcome = Throw e /\
        memoryFile (fs (world s')) =
          match mkdirFault (fs (world s)) with
          | Some AlreadyExists | None => leftByFailedWrite (fs (world s))
          | Some _ => memoryFile (fs (world s))
          end /\
        log (world s') =
          log (world s) ++
          [ {| level := error;
               message := "[MemoryManager] Error saving memory:" |} ]
    | None =>
        outcome = Ok tt /\
        memoryFile (fs (world s')) =
          Some (Json (serializable (memory (coordinator s))
                        (now (world s)))) /\
        log (world s') =
          log (world s) ++
          [ {| level := debug;
               message := "[MemoryManager] Memory saved successfully" |} ]
    end.
Proof.
  unfold saveFault, save, ensureDataDirectory, Eff.tryCatch, mbind,
    eff_bind, Eff.bind, mkdir, writeTextFile.
  destruct (mkdirFault (fs (world s))) as [[]|] eqn:Emk; cbn;
    try (do 2 eexists; repeat split; try reflexivity; by rewrite ?Emk);
    destruct (writeFault (fs (world s))) as [e|] eqn:Ewr; cbn;
    do 2 eexists; repeat split; try reflexivity; by rewrite ?Emk, ?Ewr.
Qed.

(** X23. [load] never raises and never writes: it leaves the file system,
    the profiler, the tracker and the session as they are and adds one line
    to the log.  The memory is replaced when the file can be read and
    parsed, and kept otherwise, and the value returned is the memory the
    manager then holds. *)
Theorem load_outcome (s : System) :
  exists m s' entry,
    load s = (Ok m, s') /\
    m = memory (coordinator s') /\
    fs (world s') = fs (world s) /\
    log (world s') = log (world s) ++ [entry] /\
    profiler (coordinator s') = profiler (coordinator s) /\
    tracker (coordinator s') = tracker (coordinator s) /\
    enabled (coordinator s') = enabled (coordinator s) /\
    currentSessionId (coordinator s') = currentSessionId (coordinator s) /\
    match loadable (fs (world s)) with
    | Some loaded => m = hydrate loaded /\ level entry = info
    | None =>
        m = memory (coordinator s) /\
        (level entry = error <->
         readFault (fs (world s)) <> Some NotFound /\
         (readFault (fs (world s)) = None ->
          memoryFile (fs (world s)) <> None))
    end.
Proof.
  unfold loadable, load, Eff.tryCatch, mbind, eff_bind, Eff.bind,
    readTextFile.
  destruct (readFault (fs (world s))) as [e|] eqn:Erd.
  { destruct e; cbn; do 3 eexists; repeat split; try reflexivity;
      cbn; try discriminate; try congruence; intuition congruence. }
  destruct (memoryFile (fs (world s))) as [[|loaded]|] eqn:Efile; cbn;
    do 3 eexists; repeat split; try reflexivity; cbn;
    try discriminate; try congruence; intuition congruence.
Qed.

(** The memory with its time stamp replaced. *)
Definition stamped (m : BobMemory) (t : Z) : BobMemory :=
  {| version := version m;
     totalSessionsPlayed := totalSessionsPlayed m;
     totalHandsPlayed := totalHandsPlayed m;
     memLearningEnabled := memLearningEnabled m;
     lastUpdated := t;
     opponentProfiles := opponentProfiles m;
     performance := performance m;
     recentExperiences := recentExperiences m;
     recentSessions := recentSessions m;
     strategyAdjustments := strategyAdjustments m |}.

(** Every profile is stored under its own wallet address. *)
Definition keyedByWallet (profiles : gmap string OpponentProfile) : Prop :=
  map_Forall (fun key p => walletAddress p = key) profiles.

Lemma fold_left_insert_profiles (l : list (string * OpponentProfile))
  (acc : gmap string OpponentProfile) :
  NoDup l.*1 ->
  Forall (fun kp => walletAddress kp.2 = kp.1) l ->
  fold_left (fun m profile => <[walletAddress profile := profile]> m)
    l.*2 acc = list_to_map l ∪ acc.
Proof.
  revert acc. induction l as [|[k p] l IH]; intros acc Hnd Hkeys.
  - cbn. by rewrite (left_id ∅ (∪)).
  - rewrite fmap_cons in Hnd. apply NoDup_cons in Hnd as [Hk Hnd].
    apply Forall_cons in Hkeys as [Hkp Hkeys]. cbn [fst snd] in *.
    rewrite fmap_cons. cbn [fold_left snd list_to_map fst].
    rewrite Hkp, IH by done.
    rewrite list_to_map_cons, <- insert_union_l.
    symmetry. apply insert_union_r. by apply not_elem_of_list_to_map_1.
Qed.

Lemma hydrate_serializable (m : BobMemory) (t : Z) :
  keyedByWallet (opponentProfiles m) ->
  hydrate (serializable m t) = stamped m t.
Proof.
  intros Hkeys. unfold hydrate, serializable, stamped. cbn. f_equal.
  rewrite fold_left_insert_profiles.
  - by rewrite list_to_map_to_list, (right_id ∅ (∪)).
  - apply NoDup_fst_map_to_list.
  - apply Forall_forall. intros [k p] Hin. cbn.
    apply elem_of_map_to_list in Hin. by apply (Hkeys k p).
Qed.

(** X24. Saving and loading again gives the memory back, with the time of
    the save as [lastUpdated], when every profile is stored under its own
    wallet address: the file holds the profiles as an array and [load]
    files each under the [walletAddress] it carries. *)
Theorem save_then_load (s : System) :
  saveFault (fs (world s)) = None ->
  readFault (fs (world s)) = None ->
  keyedByWallet (opponentProfiles (memory (coordinator s))) ->
  exists s1 s2,
    save s = (Ok tt, s1) /\
    load s1 = (Ok (stamped (memory (coordinator s)) (now (world s))), s2) /\
    memory (coordinator s2) =
      stamped (memory (coordinator s)) (now (world s)).
Proof.
  intros Hsave Hread Hkeys.
  destruct (save_succeeds s Hsave) as (s1 & E1 & Hc & _ & Hfile & Hrd & _).
  destruct (load_parsed s1
              (serializable (memory (coordinator s)) (now (world s))))
    as (s2 & E2 & Hm & _).
  { unfold loadable. by rewrite Hrd, Hread, Hfile. }
  rewrite hydrate_serializable in E2, Hm by done.
  exists s1, s2. done.
Qed.

(** A system that has met one opponent and whose disk works. *)
Definition metOnce : gmap string OpponentProfile :=
  OpponentProfiler.updateProfile 1 "opp" (sessionOf "opp" (50 # 1) 2 8) 1 ∅.

Definition withProfiles (m : BobMemory)
  (profiles : gmap string OpponentProfile) : BobMemory :=
  {| version := version m;
     totalSessionsPlayed := totalSessionsPlayed m;
     totalHandsPlayed := totalHandsPlayed m;
     memLearningEnabled := memLearningEnabled m;
     lastUpdated := lastUpdated m;
     opponentProfiles := profiles;
     performance := performance m;
     recentExperiences := recentExperiences m;
     recentSessions := recentSessions m;
     strategyAdjustments := strategyAdjustments m |}.

Definition workingDisk : World :=
  {| fs :=
       {| memoryFile := None; readFault := None;
          mkdirFault := Some AlreadyExists; writeFault := None;
          leftByFailedWrite := Some Unparsable |};
     log := [];
     now := 7 |}.

Definition afterOneSession : System :=
  {| coordinator :=
       {| profiler := metOnce;
          tracker := ExperienceTracker.new None None;
          memory := withProfiles (createEmptyMemory defaultConfig 0) metOnce;
          enabled := true;
          currentSessionId := None;
          currentSessionHandCount := 0 |};
     world := workingDisk |}.

(** A disk that holds a memory file and on which the next write breaks off,
    leaving a partial file. *)
Definition breakingDisk : World :=
  {| fs :=
       {| memoryFile :=
            Some (Json (serializable (createEmptyMemory defaultConfig 0) 0));
          readFault := None; mkdirFault := Some AlreadyExists;
          writeFault := Some (OtherError "disk full");
          leftByFailedWrite := Some Unparsable |};
     log := [];
     now := 7 |}.

(** A failed write can cost the file that was there: after it, the file no
    longer parses, and loading reports an error and keeps the memory held. *)
Example failed_write_loses_file :
  let s := {| coordinator := coordinator afterOneSession;
              world := breakingDisk |} in
  exists s1 s2,
    save s = (Throw (OtherError "disk full"), s1) /\
    memoryFile (fs (world s1)) = Some Unparsable /\
    load s1 = (Ok (memory (coordinator s)), s2) /\
    last (log (world s2)) =
      Some (logged error "[MemoryManager] Error loading memory:").
Proof.
  cbv zeta.
  destruct (save_fails {| coordinator := coordinator afterOneSession;
                          world := breakingDisk |} (OtherError "disk full"))
    as (s1 & E1 & Hc & _ & Hrd & _ & _ & _ & Hfile & _); [reflexivity|].
  destruct (load_cases s1) as (m & s2 & entry & E2 & Hm & _ & Hlog & H).
  cbn in Hfile, Hrd.
  unfold loadable, fileMissing in H. rewrite Hrd, Hfile in H.
  destruct H as [Hc2 ->].
  exists s1, s2. split; [exact E1|]. split; [exact Hfile|].
  split; [by rewrite E2, Hm, Hc2, Hc|].
  rewrite Hlog. apply last_snoc.
Qed.

Lemma metOnce_keyed : keyedByWallet metOnce.
Proof.
  unfold keyedByWallet, metOnce.
  eapply map_Forall_impl.
  - apply updateProfile_wellKept, map_Forall_empty.
  - intros key p H. apply H.
Qed.

Lemma save_then_load_witness :
  exists s1 s2,
    save afterOneSession = (Ok tt, s1) /\
    load s1 =
      (Ok (stamped (memory (coordinator afterOneSession)) 7), s2) /\
    memory (coordinator s2) =
      stamped (memory (coordinator afterOneSession)) 7.
Proof.
  apply (save_then_load afterOneSession).
  - reflexivity.
  - reflexivity.
  - apply metOnce_keyed.
Defined.

End MemoryFile.

(** ** The learning coordinator over a session *)

Section Coordination.

Import Num LearningCoordinator.

(** X25. A coordinator whose learning is switched off is inert: recording
    a hand or a session changes nothing and does not touch the disk, [init]
    only writes a line to the log and loads nothing, the strategy
    adjustment is 0 and decisions come back as they were given. *)
Theorem disabled_inert (s : System) (experience : GameExperience)
  (sessionResult : SessionResult) (bobRank playerTotal : Z)
  (dealerUpcardRank action : string) (decision : BotDecision)
  (opponentWallets : list string) :
  enabled (coordinator s) = false ->
  recordHand experience s = (Ok tt, s) /\
  recordSession sessionResult bobRank s = (Ok tt, s) /\
  (exists s',
     init s = (Ok tt, s') /\
     coordinator s' = coordinator s /\
     fs (world s') = fs (world s) /\
     log (world s') =
       log (world s) ++
       [ {| level := info;
            message := "[Learning] Learning system DISABLED" |} ]) /\
  getStrategyAdjustment (coordinator s) playerTotal dealerUpcardRank action
    = 0%Q /\
  adjustDecisionForOpponent (coordinator s) decision opponentWallets
    = decision.
Proof.
  intros Hen.
  unfold recordHand, recordSession, init, isEnabled, getStrategyAdjustment,
    adjustDecisionForOpponent, mbind, eff_bind, Eff.bind, Eff.gets.
  rewrite Hen. cbn. destruct s as [c w]. cbn.
  repeat split. eexists. repeat split.
Qed.

(** A coordinator that was constructed while the bot was disabled. *)
Definition switchedOff : System :=
  {| coordinator :=
       LearningCoordinator.new
         {| botEnabled := false; cardCountingEnabled := true;
            learningEnabled := true; minBet := 25 # 1; maxBet := 100 # 1;
            countThresholdBetIncrease := 2 # 1 |} 0;
     world := workingDisk |}.

Lemma disabled_inert_witness :
  recordSession firstSession 1 switchedOff = (Ok tt, switchedOff) /\
  recordHand (hitOn16 1 (25 # 1)) switchedOff = (Ok tt, switchedOff).
Proof.
  destruct (disabled_inert switchedOff (hitOn16 1 (25 # 1)) firstSession 1 16
              "7" "hit" maxBetDecision ["opp"])
    as (H1 & H2 & _); [reflexivity|].
  split; [exact H2|exact H1].
Defined.

(** A hand is recorded only while learning is on and a session with a
    non-empty identifier is being tracked: then it enters the tracker's
    bounded history and the session's hand count goes up by one; otherwise
    the call changes nothing.  In neither case is the disk, the profiler
    or the session identifier touched. *)
Theorem recordHand_gated (s : System) (experience : GameExperience) :
  exists s',
    recordHand experience s = (Ok tt, s') /\
    fs (world s') = fs (world s) /\
    profiler (coordinator s') = profiler (coordinator s) /\
    enabled (coordinator s') = enabled (coordinator s) /\
    currentSessionId (coordinator s') = currentSessionId (coordinator s) /\
    if enabled (coordinator s) && hasSession (currentSessionId (coordinator s))
    then
      tracker (coordinator s') =
        ExperienceTracker.recordHand experience (tracker (coordinator s)) /\
      currentSessionHandCount (coordinator s') =
        currentSessionHandCount (coordinator s) + 1
    else s' = s.
Proof.
  unfold recordHand, mbind, eff_bind, Eff.bind, Eff.gets.
  destruct s as [[p t m en id count] w]. cbn.
  destruct en; cbn; [|eexists; repeat split].
  destruct (hasSession id); cbn; eexists; repeat split.
Qed.

(** X26. With learning on and a disk that works, [recordSession] returns
    normally and leaves the three stores in step: the session is in the
    tracker, each opponent of the session has been profiled in turn, the
    memory holds the profiler's profiles and the tracker's two histories,
    the file holds that memory, and session tracking is reset.  The
    memory's count of sessions goes up by one, its count of hands by the
    number of hands the tracker holds, whichever session they belong to. *)
Theorem recordSession_success (s : System) (sessionResult : SessionResult)
  (bobRank : Z) :
  enabled (coordinator s) = true ->
  saveFault (fs (world s)) = None ->
  exists s',
    recordSession sessionResult bobRank s = (Ok tt, s') /\
    tracker (coordinator s') =
      ExperienceTracker.recordSession sessionResult (tracker (coordinator s))
    /\
    profiler (coordinator s') =
      fold_left
        (fun profiles opponent =>
           OpponentProfiler.updateProfile (now (world s))
             (osdWalletAddress opponent) opponent bobRank profiles)
        (opponents sessionResult) (profiler (coordinator s)) /\
    opponentProfiles (memory (coordinator s')) = profiler (coordinator s') /\
    recentExperiences (memory (coordinator s')) =
      ExperienceTracker.experiences (tracker (coordinator s')) /\
    recentSessions (memory (coordinator s')) =
      ExperienceTracker.sessions (tracker (coordinator s')) /\
    totalSessionsPlayed (memory (coordinator s')) =
      totalSessionsPlayed (memory (coordinator s)) + 1 /\
    totalHandsPlayed (memory (coordinator s')) =
      totalHandsPlayed (memory (coordinator s)) +
      Z.of_nat (length (ExperienceTracker.experiences (tracker (coordinator s))))
    /\
    currentSessionId (coordinator s') = None /\
    currentSessionHandCount (coordinator s') = 0 /\
    memoryFile (fs (world s')) =
      Some (Json (MemoryManager.serializable (memory (coordinator s'))
                    (now (world s)))).
Proof.
  intros Hen Hsave.
  unfold recordSession, save, isEnabled.
  unfold mbind at 1. unfold eff_bind, Eff.bind, Eff.gets.
  rewrite Hen. cbn [negb].
  repeat (unfold mbind at 1; unfold eff_bind, Eff.bind;
          cbn -[MemoryManager.save pushCapped OpponentProfiler.updateProfile
                MemoryManager.serializable]).
  match goal with |- context [MemoryManager.save ?s1] =>
    destruct (save_succeeds s1) as (s' & -> & Hc & Hnow & Hfile & _);
      [exact Hsave|]
  end.
  cbn -[pushCapped OpponentProfiler.updateProfile
        MemoryManager.serializable] in *.
  eexists. split; [reflexivity|].
  cbn -[pushCapped OpponentProfiler.updateProfile
        MemoryManager.serializable].
  rewrite Hc, Hfile.
  cbn -[pushCapped OpponentProfiler.updateProfile].
  repeat split.
Qed.

Lemma recordSession_success_witness :
  exists s',
    recordSession firstSession 1 afterOneSession = (Ok tt, s') /\
    ExperienceTracker.sessions (tracker (coordinator s')) = [firstSession] /\
    totalSessionsPlayed (memory (coordinator s')) = 1 /\
    currentSessionId (coordinator s') = None.
Proof.
  destruct (recordSession_success afterOneSession firstSession 1)
    as (s' & E & Ht & _ & _ & _ & _ & Hn & _ & Hid & _);
    [reflexivity|reflexivity|].
  exists s'. split; [exact E|]. split; [by rewrite Ht|].
  split; [exact Hn|exact Hid].
Defined.

(** X27. A restart finds what was saved.  When the memory has been saved
    and a new coordinator is constructed and initialised on the same disk,
    its profiler holds the saved profiles, its tracker the saved hands and
    sessions, and its memory the saved one with the time of the save,
    provided every saved profile was stored under its own wallet address. *)
Theorem restart_restores (config : Config) (s : System) (restartedAt : Z) :
  botEnabled config = true ->
  saveFault (fs (world s)) = None ->
  readFault (fs (world s)) = None ->
  keyedByWallet (opponentProfiles (memory (coordinator s))) ->
  exists s1 s2,
    save s = (Ok tt, s1) /\
    init {| coordinator := LearningCoordinator.new config restartedAt;
            world := world s1 |} = (Ok tt, s2) /\
    profiler (coordinator s2) = opponentProfiles (memory (coordinator s)) /\
    ExperienceTracker.experiences (tracker (coordinator s2)) =
      recentExperiences (memory (coordinator s)) /\
    ExperienceTracker.sessions (tracker (coordinator s2)) =
      recentSessions (memory (coordinator s)) /\
    memory (coordinator s2) =
      stamped (memory (coordinator s)) (now (world s)) /\
    enabled (coordinator s2) = true.
Proof.
  intros Hen Hsave Hread Hkeys. unfold save.
  destruct (save_succeeds s Hsave) as (s1 & E1 & Hc & _ & Hfile & Hrd & _).
  exists s1.
  set (fresh := {| coordinator := LearningCoordinator.new config restartedAt;
                   world := world s1 |}).
  destruct (load_parsed fresh
              (MemoryManager.serializable (memory (coordinator s))
                 (now (world s))))
    as (s2 & E2 & Hm & _ & _ & _ & Hen2 & Hid & Hcount).
  { unfold loadable. subst fresh. cbn. by rewrite Hrd, Hread, Hfile. }
  rewrite hydrate_serializable in E2, Hm by done.
  unfold init, isEnabled.
  unfold mbind at 1. unfold eff_bind, Eff.bind, Eff.gets.
  replace (enabled (coordinator fresh)) with true by (subst fresh; by cbn).
  cbn [negb].
  unfold mbind at 1. unfold eff_bind, Eff.bind. rewrite E2.
  cbn. eexists. split; [exact E1|]. split; [reflexivity|].
  cbn. rewrite Hm, Hen2. subst fresh. cbn. done.
Qed.

Lemma restart_restores_witness :
  exists s1 s2,
    save afterOneSession = (Ok tt, s1) /\
    init {| coordinator := LearningCoordinator.new defaultConfig 99;
            world := world s1 |} = (Ok tt, s2) /\
    profiler (coordinator s2) = metOnce.
Proof.
  destruct (restart_restores defaultConfig afterOneSession 99)
    as (s1 & s2 & E1 & E2 & Hp & _).
  - reflexivity.
  - reflexivity.
  - reflexivity.
  - apply metOnce_keyed.
  - exists s1, s2. split; [exact E1|]. split; [exact E2|exact Hp].
Defined.

(** X28. Adjusting a decision for the opponents at the table changes its
    wager at most: the action, the confidence and the expected value are
    those of the decision given.  When none of the wallets has a profile
    the decision comes back as it was.  A wager that changes becomes the
    smaller of 1.2 times itself and 100, or, where the decision carried no
    wager (or 0), 25. *)
Theorem adjustDecisionForOpponent_frame (c : Coordinator)
  (decision : BotDecision) (opponentWallets : list string) :
  let adjusted := adjustDecisionForOpponent c decision opponentWallets in
  action adjusted = action decision /\
  confidence adjusted = confidence decision /\
  expectedValue adjusted = expectedValue decision /\
  (Forall (fun w => profiler c !! w = None) opponentWallets ->
   adjusted = decision) /\
  (betSize adjusted = betSize decision \/
   (exists b,
      betSize decision = Some b /\ ~ (b == 0)%Q /\
      betSize adjusted = Some (Math_min (b * (12 # 10)) (100 # 1))) \/
   (truthy (betSize decision) = false /\
    betSize adjusted = Some (25 # 1)%Q)).
Proof.
  cbv zeta. unfold adjustDecisionForOpponent.
  set (known := omap _ opponentWallets).
  assert (Forall (fun w => profiler c !! w = None) opponentWallets ->
          known = []) as Hnone.
  { subst known. unfold OpponentProfiler.getProfile.
    induction 1 as [|w ws Hw _ IH]; [done|].
    cbn [omap list_omap]. by rewrite Hw. }
  destruct (negb (enabled c) || (length opponentWallets =? 0)%nat);
    [by auto 10|].
  destruct (length known =? 0)%nat eqn:Ek; [by auto 10|].
  assert (known <> []) as Hk.
  { intros E. rewrite E in Ek. discriminate. }
  assert (forall adjusted : BotDecision,
            action adjusted = action decision ->
            confidence adjusted = confidence decision ->
            expectedValue adjusted = expectedValue decision ->
            (betSize adjusted = betSize decision \/
             (exists b,
                betSize decision = Some b /\ ~ (b == 0)%Q /\
                betSize adjusted =
                  Some (Math_min (b * (12 # 10)) (100 # 1))) \/
             (truthy (betSize decision) = false /\
              betSize adjusted = Some (25 # 1)%Q)) ->
            action adjusted = action decision /\
            confidence adjusted = confidence decision /\
            expectedValue adjusted = expectedValue decision /\
            (Forall (fun w => profiler c !! w = None) opponentWallets ->
             adjusted = decision) /\
            (betSize adjusted = betSize decision \/
             (exists b,
                betSize decision = Some b /\ ~ (b == 0)%Q /\
                betSize adjusted =
                  Some (Math_min (b * (12 # 10)) (100 # 1))) \/
             (truthy (betSize decision) = false /\
              betSize adjusted = Some (25 # 1)%Q))) as Hchanged.
  { intros adjusted H1 H2 H3 H4. repeat (split; [done|]).
    split; [|done]. intros Hn. destruct (Hk (Hnone Hn)). }
  destruct (truthy (betSize decision)) eqn:Et; cbn [andb].
  - destruct (betSize decision) as [b|] eqn:Eb; [|discriminate].
    cbn [truthy] in Et. apply negb_true_iff in Et.
    assert (~ (b == 0)%Q) as Hb.
    { intros E. apply Qeq_bool_iff in E. congruence. }
    destruct (Qltb _ (4 # 10)).
    + apply Hchanged; try reflexivity.
      right. left. exists b. done.
    + destruct (Qgtb _ (7 # 10)); [|by auto 10].
      apply Hchanged; try reflexivity. by left.
  - destruct (Qgtb _ (7 # 10)); [|by auto 10].
    apply Hchanged; try reflexivity. right. right. done.
Qed.

End Coordination.

(** ** The performance record *)

Section PerformanceRecord.

Import Num MemoryManager TrackerAnalysis.

(** The memory after [updatePerformance] has run for each session of a
    list. *)
Definition performanceAfter (sessions : list SessionResult) (s : System)
  : System :=
  fold_left (fun s sessionResult => (updatePerformance sessionResult s).2)
    sessions s.

Record wellRecorded (m : BobMemory) : Prop := {
  recorded_ranks :
    length (avgRankBySession (performance m)) =
    length (winRateBySession (performance m));
  recorded_chips :
    length (avgChipsBySession (performance m)) =
    length (winRateBySession (performance m));
  recorded_window : (length (winRateBySession (performance m)) <= 100)%nat;
  recorded_flags :
    Forall (fun w => w = 0 \/ w = 1) (winRateBySession (performance m));
  recorded_wins : 0 <= totalWins (performance m);
  recorded_top3 : totalWins (performance m) <= totalTop3 (performance m);
  recorded_sessions : totalTop3 (performance m) <= totalSessionsPlayed m;
  recorded_before : (0 <= winRateBeforeLearning (performance m) <= 1)%Q;
  recorded_after : (0 <= winRateAfterLearning (performance m) <= 1)%Q
}.

Lemma countWins_range (ws : list Z) :
  ws <> [] -> (0 <= countWins ws / lengthQ ws <= 1)%Q.
Proof.
  intros Hne. unfold countWins, lengthQ. apply rate_range.
  - split; [lia|]. apply inj_le, length_filter.
  - destruct ws; [done|]. simpl. lia.
Qed.

Lemma lastN_nonempty {A} (n : nat) (xs : list A) :
  (1 <= n)%nat -> xs <> [] -> lastN n xs <> [].
Proof.
  intros Hn Hne E. apply (f_equal length) in E. unfold lastN in E.
  rewrite length_drop in E. destruct xs; [done|]. simpl in E. lia.
Qed.

Lemma tail_length_pred {A} (xs : list A) :
  length (tail xs) = pred (length xs).
Proof. by destruct xs. Qed.

Lemma updatePerformance_memory (sessionResult : SessionResult) (s : System) :
  exists m,
    memory (coordinator (updatePerformance sessionResult s).2) = m /\
    totalSessionsPlayed m = totalSessionsPlayed (memory (coordinator s)) + 1 /\
    (forall old,
       performance (memory (coordinator s)) = old ->
       let flag := if finalRank sessionResult =? 1 then 1 else 0 in
       let over := (100 <? length (winRateBySession old ++ [flag]))%nat in
       let window {A} (xs : list A) := if over then tail xs else xs in
       winRateBySession (performance m) =
         window (winRateBySession old ++ [flag]) /\
       avgRankBySession (performance m) =
         window (avgRankBySession old ++ [finalRank sessionResult]) /\
       avgChipsBySession (performance m) =
         window (avgChipsBySession old ++ [finalChips sessionResult]) /\
       totalWins (performance m) =
         (if finalRank sessionResult =? 1 then totalWins old + 1
          else totalWins old) /\
       totalTop3 (performance m) =
         (if finalRank sessionResult <=? 3 then totalTop3 old + 1
          else totalTop3 old) /\
       winRateBeforeLearning (performance m) =
         (if totalSessionsPlayed (memory (coordinator s)) <=? 20
          then (countWins (winRateBySession (performance m)) /
                lengthQ (winRateBySession (performance m)))%Q
          else winRateBeforeLearning old) /\
       winRateAfterLearning (performance m) =
         (if totalSessionsPlayed (memory (coordinator s)) <=? 20
          then winRateAfterLearning old
          else (countWins (lastN 20 (winRateBySession (performance m))) /
                lengthQ (lastN 20 (winRateBySession (performance m))))%Q)).
Proof.
  eexists. split; [reflexivity|]. split; [reflexivity|].
  intros old <-. cbv zeta. repeat split; reflexivity.
Qed.

Lemma updatePerformance_wellRecorded (sessionResult : SessionResult)
  (s : System) :
  wellRecorded (memory (coordinator s)) ->
  wellRecorded (memory (coordinator (updatePerformance sessionResult s).2)).
Proof.
  intros [K1 K2 K3 K4 K5 K6 K7 K8 K9].
  destruct (updatePerformance_memory sessionResult s) as (m & -> & Hn & H).
  destruct (H _ eq_refl) as (E1 & E2 & E3 & E4 & E5 & E6 & E7). clear H.
  set (old := performance (memory (coordinator s))) in *.
  set (flag := if finalRank sessionResult =? 1 then 1 else 0) in *.
  assert (flag = 0 \/ flag = 1) as Hflag
    by (subst flag; destruct (finalRank sessionResult =? 1); auto).
  assert (length (winRateBySession (performance m)) =
            length (avgRankBySession (performance m)) /\
          length (winRateBySession (performance m)) =
            length (avgChipsBySession (performance m)) /\
          (1 <= length (winRateBySession (performance m)) <= 100)%nat /\
          Forall (fun w => w = 0 \/ w = 1) (winRateBySession (performance m)))
    as (L1 & L2 & L3 & L4).
  { rewrite E1, E2, E3.
    assert (Forall (fun w => w = 0 \/ w = 1) (winRateBySession old ++ [flag]))
      as Hall by (apply Forall_app; split; [done|by constructor]).
    destruct (100 <? length (winRateBySession old ++ [flag]))%nat eqn:Eo.
    - apply Nat.ltb_lt in Eo. rewrite length_app in Eo. cbn in Eo.
      rewrite !tail_length_pred, !length_app. cbn [length].
      repeat split; try lia.
      destruct (winRateBySession old ++ [flag]); [done|].
      cbn [tail]. by apply Forall_cons in Hall as [_ ?].
    - apply Nat.ltb_ge in Eo. rewrite !length_app in *. cbn [length] in *.
      repeat split; try lia. done. }
  assert (winRateBySession (performance m) <> []) as Hne.
  { intros E. rewrite E in L3. cbn in L3. lia. }
  split; try lia; try done.
  - rewrite E4. destruct (finalRank sessionResult =? 1); lia.
  - rewrite E4, E5.
    destruct (Z.eqb_spec (finalRank sessionResult) 1);
      destruct (Z.leb_spec (finalRank sessionResult) 3); lia.
  - rewrite E5, Hn. destruct (finalRank sessionResult <=? 3); lia.
  - rewrite E6.
    destruct (totalSessionsPlayed (memory (coordinator s)) <=? 20); [|done].
    by apply countWins_range.
  - rewrite E7.
    destruct (totalSessionsPlayed (memory (coordinator s)) <=? 20); [done|].
    apply countWins_range. apply lastN_nonempty; [lia|done].
Qed.

(** X29. The performance record stays well formed over any number of
    sessions: the three rolling windows have the same length, at most 100,
    the first holds only 0 and 1, wins are counted among the top-3 finishes
    and these among the sessions played, and both win rates lie between 0
    and 1. *)
Theorem performance_wellRecorded (sessions : list SessionResult)
  (s : System) :
  wellRecorded (memory (coordinator s)) ->
  wellRecorded (memory (coordinator (performanceAfter sessions s))).
Proof.
  unfold performanceAfter. revert s.
  induction sessions as [|r sessions IH]; intros s H; [done|].
  cbn [fold_left]. apply IH. by apply updatePerformance_wellRecorded.
Qed.

Lemma createEmptyMemory_wellRecorded config t :
  wellRecorded (createEmptyMemory config t).
Proof. split; cbn; try done; try lia; try lra. Qed.

Lemma performance_wellRecorded_witness :
  wellRecorded
    (memory
       (coordinator
          (performanceAfter (replicate 3 firstSession)
             {| coordinator := LearningCoordinator.new defaultConfig 0;
                world := workingDisk |}))).
Proof.
  apply performance_wellRecorded. apply createEmptyMemory_wellRecorded.
Defined.

(** *** The baseline win rate *)

Definition flagOf (sessionResult : SessionResult) : Z :=
  if finalRank sessionResult =? 1 then 1 else 0.

Lemma countWins_flags (sessions : list SessionResult) :
  countWins (flagOf <$> sessions) = countFirst sessions /\
  lengthQ (flagOf <$> sessions) = count sessions.
Proof.
  unfold countWins, countFirst, lengthQ, count.
  rewrite length_fmap. split; [|done]. do 3 f_equal.
  induction sessions as [|r sessions IH]; [done|].
  rewrite fmap_cons. unfold flagOf at 1.
  destruct (Z.eqb_spec (finalRank r) 1) as [E|E].
  - rewrite !filter_cons_True by done. cbn [length]. by rewrite IH.
  - rewrite !filter_cons_False by done. exact IH.
Qed.

Lemma performanceAfter_snoc sessions r s :
  performanceAfter (sessions ++ [r]) s =
    (updatePerformance r (performanceAfter sessions s)).2.
Proof. unfold performanceAfter. by rewrite fold_left_app. Qed.

Lemma baseline_window config t (s : System) (sessions : list SessionResult) :
  memory (coordinator s) = createEmptyMemory config t ->
  (length sessions <= 21)%nat ->
  let m := memory (coordinator (performanceAfter sessions s)) in
  totalSessionsPlayed m = Z.of_nat (length sessions) /\
  winRateBySession (performance m) = flagOf <$> sessions /\
  winRateAfterLearning (performance m) = 0%Q /\
  (sessions <> [] ->
   winRateBeforeLearning (performance m) =
     (countWins (flagOf <$> sessions) / lengthQ (flagOf <$> sessions))%Q).
Proof.
  intros Hempty. cbv zeta.
  induction sessions as [|r sessions IH] using rev_ind; intros Hlen.
  - unfold performanceAfter. cbn [fold_left]. rewrite Hempty. done.
  - rewrite length_app in Hlen. cbn [length] in Hlen.
    destruct IH as (I1 & I2 & I3 & _); [lia|].
    rewrite performanceAfter_snoc.
    destruct (updatePerformance_memory r (performanceAfter sessions s))
      as (m & -> & Hn & H).
    destruct (H _ eq_refl) as (E1 & _ & _ & _ & _ & E6 & E7). clear H.
    rewrite I2 in E1. rewrite I1 in Hn, E6, E7.
    assert (winRateBySession (performance m) = flagOf <$> sessions ++ [r])
      as Hw.
    { rewrite E1, fmap_app. cbn [fmap list_fmap].
      fold (flagOf r).
      destruct (100 <? _)%nat eqn:Eo; [|done].
      apply Nat.ltb_lt in Eo. rewrite length_app, length_fmap in Eo.
      cbn [length] in Eo. lia. }
    assert ((Z.of_nat (length sessions) <=? 20) = true) as Hb
      by (apply Z.leb_le; lia).
    rewrite Hb in E6, E7.
    split; [rewrite Hn, length_app; cbn [length]; lia|].
    split; [exact Hw|]. split; [by rewrite E7|].
    intros _. by rewrite E6, Hw.
Qed.

Lemma baseline_frozen (more : list SessionResult) (s : System) :
  20 < totalSessionsPlayed (memory (coordinator s)) ->
  winRateBeforeLearning
    (performance (memory (coordinator (performanceAfter more s)))) =
  winRateBeforeLearning (performance (memory (coordinator s))).
Proof.
  revert s. induction more as [|r more IH]; intros s Hs; [done|].
  unfold performanceAfter. cbn [fold_left]. fold (performanceAfter more).
  destruct (updatePerformance_memory r s) as (m & Em & Hn & H).
  destruct (H _ eq_refl) as (_ & _ & _ & _ & _ & E6 & _). clear H.
  rewrite IH by (rewrite Em; lia).
  rewrite Em, E6.
  destruct (Z.leb_spec (totalSessionsPlayed (memory (coordinator s))) 20);
    [lia|done].
Qed.

(** X30. The baseline win rate covers the first 21 sessions, not 20: the
    count of sessions is compared with 20 before it is incremented.  From
    an empty memory, after [k] sessions with [1 <= k <= 21] the baseline is
    the share of those [k] sessions that were won and the rate after
    learning is still 0; from the 22nd session on the baseline no longer
    changes. *)
Theorem baseline_covers_21_sessions (config : Config) (t : Z) (s : System)
  (sessions more : list SessionResult) :
  memory (coordinator s) = createEmptyMemory config t ->
  (1 <= length sessions <= 21)%nat ->
  let m := memory (coordinator (performanceAfter sessions s)) in
  (winRateBeforeLearning (performance m) ==
   countFirst sessions / count sessions)%Q /\
  winRateAfterLearning (performance m) = 0%Q /\
  (length sessions = 21%nat ->
   winRateBeforeLearning
     (performance
        (memory (coordinator (performanceAfter (sessions ++ more) s)))) =
   winRateBeforeLearning (performance m)).
Proof.
  intros Hempty Hlen. cbv zeta.
  destruct (baseline_window config t s sessions Hempty) as (H1 & _ & H3 & H4);
    [lia|].
  destruct (countWins_flags sessions) as [F1 F2].
  rewrite H4 by (intros E; rewrite E in Hlen; cbn in Hlen; lia).
  rewrite F1, F2. split; [reflexivity|]. split; [exact H3|].
  intros H21. unfold performanceAfter at 1. rewrite fold_left_app.
  fold (performanceAfter sessions s). fold (performanceAfter more).
  rewrite baseline_frozen by (rewrite H1; lia).
  rewrite H4 by (intros E; rewrite E in Hlen; cbn in Hlen; lia).
  by rewrite F1, F2.
Qed.

Definition lostSession : SessionResult :=
  {| srSessionId := "s2"; finalRank := 3; totalPlayers := 4;
     finalChips := 400 # 1; handsPlayed := 10; handsWon := 3;
     totalWagered := 250 # 1; netProfit := - (600 # 1); payout := 0;
     opponents := []; completedAt := 0 |}.

Lemma baseline_covers_21_sessions_witness :
  (winRateBeforeLearning
     (performance
        (memory
           (coordinator
              (performanceAfter [firstSession; lostSession]
                 {| coordinator := LearningCoordinator.new defaultConfig 0;
                    world := workingDisk |})))) == 1 # 2)%Q.
Proof.
  destruct (baseline_covers_21_sessions defaultConfig 0
              {| coordinator := LearningCoordinator.new defaultConfig 0;
                 world := workingDisk |}
              [firstSession; lostSession] [])
    as (H & _); [reflexivity|cbn; lia|].
  rewrite H. vm_compute. reflexivity.
Defined.

End PerformanceRecord.
